(* ===== verification/_CoqProject ===== *)
-Q . S2P
Prelude.v
JsRuntime.v
JsNumber.v
UriDecode.v
Store.v
Scenarios.v
Writes.v
HotelsRepository.v
HotelsService.v
HotelsController.v
HotelsRouter.v
Interleaving.v
Tests.v
Server.v
Concurrency.v
