(* ===== verification/Prelude.v ===== *)
(** * A verification development of the Drivent hotels module

    The repository is the hotels part of a Node/Express/Prisma back end
    (TypeScript).  A request goes router -> authentication middleware ->
    controller -> service (eligibility gate: enrollment, then ticket,
    then ticket-type and status tests) -> repository (one Prisma read).
    The database is the only shared state; the module only reads it.

    ** Files and what they model (dependency order)

    - [Prelude.v] (this file): the [drivent_scope] notation
      [x <- m ;; k] over two classes [Ret]/[Bind], the [drivent] and
      [drivent_rw] hint databases, the tactics [invc]/[case_bool], and
      the list lemmas every query shares ([List.find] is Prisma's
      [findFirst]: [find_first_Some], [find_unique_key], ...).
    - [JsRuntime.v]: the runtime semantics the code relies on: errors
      ([js_error]: [NotFoundError] of [@/errors], runtime [TypeError],
      [PrismaClientError]), settled outcomes ([exc]), the monad [async]
      of an awaited async function (reader of the database, trace of
      events), the two-phase monad [handler] of an Express handler's
      synchronous code whose un-awaited promises become deferred jobs
      ([call_async]; a rejected one is reported as
      [EvUnhandledRejection]), [try_catch], [res.send]/[res.sendStatus],
      JavaScript truthiness ([Truthy]; a Promise is always truthy) and
      [JSON.stringify] ([ToJSON]; a Promise serialises as [{}]).
    - [JsNumber.v]: JavaScript numbers (binary64, canonical form),
      ECMAScript [StringToNumber] with round-to-nearest-even, gradual
      underflow and overflow, on strings of UTF-16 code units with the
      Unicode white space it trims ([Number(hotelId)] of the
      controller), [String(n)] of integers, and Prisma's [Int] check.
    - [UriDecode.v]: [decodeURIComponent] (percent escapes, UTF-8
      validation, UTF-16 encoding), which Express applies to
      [:hotelId].
    - [Store.v]: rows of the Prisma models (one [Module] per model:
      users, sessions, enrollments, addresses, ticket types, tickets,
      payments, hotels, rooms), the database [db] with a
      connection-failure flag, its well-formedness [wf_db] (keys,
      [@unique] columns and foreign keys, decidable), the query events,
      and the enrollment and ticket repositories (not under [src/]:
      modelled from the specification's collaborator contracts).
    - [Scenarios.v]: the rows and databases the integration tests
      arrange ([src/tests/integration/hotels.test.ts]).
    - [Writes.v]: the writes the tests perform (Prisma [create] with the
      schema's key, unique and foreign-key checks) as a step relation
      [reachable] from the empty database, and the tests' arrangements
      as runs of writes.
    - [HotelsRepository.v]: [Module hotelsRepository] = [getHotels],
      [getRoomsHotelId] of [src/repositories/hotels-repository/index.ts];
      the exported object [hotelsRepository] as the interface
      [HotelsRepositoryApi] (a class of its two methods), the laws the
      service relies on ([HotelsRepositoryLaws], the specification's
      section 4.2), and their proof for the code's object.
    - [HotelsService.v]: [Module hotelsService] = [getHotels],
      [getHotelId] of [src/services/hotels-service/index.ts], translated
      as written (un-awaited enrollment lookup, [(await enroll).id]),
      in a [Section] over the imported repository object, so that the
      code's theorems hold for every repository and the refinement for
      every lawful one;
      the interface [HotelsServiceApi] the controller uses; and the
      specification's contract ([eligible], [listHotels_spec],
      [getHotelRooms_spec], the shared [eligibility_guard]).
    - [HotelsController.v]: [getHotels], [getHotelId] of
      [src/controllers/hotels-controller.ts] (un-awaited service call).
    - [HotelsRouter.v]: Express route matching under the [/hotels]
      mount with the decoding of [:hotelId] (a [URIError] is the final
      handler's [400]), [authenticateToken] (from the specification; the
      JWT check is a section parameter), and [hotelsRouter] of
      [src/routers/hotels-router.ts].
    - [Interleaving.v]: the two service operations with one database
      per [await] ([Module hotelsService_interleaved]), for writes that
      run between the awaits.
    - [Tests.v]: every [it(...)] of the integration tests as a test case
      (arrangement, supertest request, Jest assertions with [toEqual]),
      run against the model.
    - [Server.v]: the Node process serving the routes one request at a
      time, with Node's [--unhandled-rejections] mode ([throw], the
      default, ends the process on the first unhandled rejection;
      [warn] does not), and the writes that change the database in
      between.
    - [Concurrency.v]: requests in flight together on the event loop:
      each request's events cut at its await points ([chunks], one per
      query), and any [schedule] of the pool's next chunks
      ([event_loop]), a fatal chunk ending the process in [throw]
      mode.

    ** What the theorems show (C<n> are the claims of the manifest)

    Every claim is about code under [src/], directly or through the
    router; facts of the runtime model alone (the number conversion, the
    decoder, the write relation, the scheduler) are lemmas the claims
    use, not claims.

    - Controller (C1, C2, C12, C13, C21, C22): for every service
      implementation, both handlers answer [200 {}] first and the
      service runs afterwards as a deferred job whose rejection is never
      handled; with the real service the only response of
      [GET /hotels] is [200 {}]; the exact traces for a user without an
      enrollment ([TypeError]), an ineligible one ([NotFoundError]), an
      unreachable database (C22), and a [:hotelId] beyond the 32-bit
      [Int] range (C21, bounds).
    - Service (C3-C7, C10, C11): refinement of the specification's
      contract for users with an enrollment, for every repository object
      that meets the laws of section 4.2 (C3, C4, proved against the
      interface; the witnesses apply them to the code's repository); the
      divergence without one (C5); every ineligibility branch rejects
      with [NotFoundError] (C6); no hotel read for an ineligible user
      (C7); the duplicated gate equals one guard (C10, an equivalence up
      to [async_equiv], for every repository object); the query order
      (C11).
    - Interleaving (C23): with creates between the awaits, the gate is
      decided on the database of the ticket read and the hotels are
      those of the last read.
    - Router (C8, C9, C14, C17, C18, C24, C28): unauthenticated requests
      get [401] with no read; a token without session gets [401] after
      one session lookup; [GET /hotels/<n>] reaches the service as the
      number [n]; every request is answered exactly once (C17,
      liveness); every authenticated request is answered [200 {}] (C18);
      a malformed escape is answered [400] before authentication (C24);
      an id written with leading zeros is the same request as the id
      (C28, an equivalence of whole handler runs: the controller uses
      the parameter only through [Number]).
    - Repository (C15, C16): the hotel with a room list whose members
      are exactly the table's rooms of that hotel, in table order;
      [null] for an unknown id.
    - Tests (C19, C20): the body assertions expecting a hotel hold for
      no JSON body; run against the code, every test with an accepted
      token and a stored session has its outcome fixed by [200 {}], so
      the [402] tests and the tests expecting hotels fail.
    - Server (C25, C26): in the default mode an authenticated request
      is answered [200 {}] and the process survives it exactly when the
      service's promise fulfils (C25); after a request whose service
      rejects, no later request of any user is answered (C26), against
      the specification's independent requests.
    - Concurrency (C27): in the default mode a fatal request that runs
      while another waits for its session query leaves that request
      unanswered.

    ** Bounds and fuel

    The module has no loops: every operation is a bounded sequence of
    reads, so no fuel is needed there.  [decimal_digits] (the [String]
    of an id the tests print) uses [log2 n + 1] steps of fuel, enough
    for every positive [n] ([decimal_digits_spec]).  [decodeURIComponent]
    recurses structurally on the segment.  Printed ids are read back up
    to [2^53], where every integer is a binary64 number; ids are checked
    against the 32-bit range of an [Int] column (C21).

    ** Not modelled, and why

    Writes other than creates (the module performs none; updates of a
    ticket's status belong to the payments component, outside the
    module), the JWT signature algorithm (a parameter), the HTML body
    of Express's final handler outside production, the order of
    requests other than through the database (they share no other
    state), and the text [console.log] prints.  Of the application
    wiring ([app.ts], configuration, server start, not under [src/])
    only the process's fate on an unhandled rejection is modelled
    ([Server.v], [Concurrency.v]), for both modes, since [app.ts] might
    install a listener.  The requests in flight are traced on the
    database at their admission: writes while they wait are the
    subject of [Interleaving.v], for one request.

    ** Plan for later sittings

    Writes during the requests in flight of [Concurrency.v] (the two
    models of interleaving joined in one). *)

From stdpp Require Import base list decidable.
From Stdlib Require Import ZArith Lia.

Declare Scope drivent_scope.
Delimit Scope drivent_scope with drivent.

Create HintDb drivent discriminated.
Create Rewrite HintDb drivent_rw.

(** ** Monadic notation

    The effectful code of the program is written in two small monads of
    [JsRuntime.v]; both are instances of these two classes, so one
    notation [x <- m ;; k] serves both, in [drivent_scope]. *)

Class Ret (M : Type -> Type) := ret : forall {A}, A -> M A.
Class Bind (M : Type -> Type) := bind : forall {A B}, M A -> (A -> M B) -> M B.
Arguments ret {M _ A} _.
Arguments bind {M _ A B} _ _.

Notation "x <- m ;; k" := (bind m (fun x => k))
  (at level 100, m at next level, right associativity) : drivent_scope.
Notation "m ;; k" := (bind m (fun _ => k))
  (at level 100, right associativity) : drivent_scope.

(** ** Tactics

    [case_bool] splits on every boolean test of the goal, keeping the
    equation; [invc] is inversion with substitution and clearing. *)

Ltac invc H := inversion H; subst; clear H.

Ltac case_bool :=
  repeat match goal with
  | |- context [if ?b then _ else _] =>
      lazymatch b with
      | true => fail
      | false => fail
      | _ => let E := fresh "E" in destruct b eqn:E
      end
  end.

(** ** First match in a list

    Prisma's [findFirst] returns the first row, in the table's order,
    that satisfies the filter; [List.find] is that function.  The lemmas
    below characterise it once, for all the repositories. *)

Section FindFirst.
  Context {A : Type} (p : A -> bool).

Lemma find_first_Some (l : list A) (x : A) :
    List.find p l = Some x <->
    exists l1 l2, l = l1 ++ x :: l2 /\ p x = true /\ Forall (fun y => p y = false) l1.
  Proof.
    split.
    - induction l as [|y l IH]; simpl; [discriminate|].
      destruct (p y) eqn:Hy.
      + intros [= ->]. exists [], l. auto.
      + intros Hf. destruct (IH Hf) as (l1 & l2 & -> & Hx & Hl1).
        exists (y :: l1), l2. auto.
    - intros (l1 & l2 & -> & Hx & Hl1). induction Hl1 as [|y l1 Hy _ IH]; simpl.
      + by rewrite Hx.
      + by rewrite Hy.
  Qed.

Lemma find_first_None (l : list A) :
    List.find p l = None <-> Forall (fun y => p y = false) l.
  Proof.
    induction l as [|y l IH]; simpl; [split; auto|].
    destruct (p y) eqn:Hy; split.
    - discriminate.
    - intros H. inversion H; congruence.
    - intros H. constructor; [done | by apply IH].
    - intros H. inversion H; subst. by apply IH.
  Qed.

Lemma find_first_In (l : list A) (x : A) :
    List.find p l = Some x -> In x l /\ p x = true.
  Proof. apply find_some. Qed.

Lemma find_first_app (l1 l2 : list A) :
    List.find p (l1 ++ l2) =
    match List.find p l1 with Some x => Some x | None => List.find p l2 end.
  Proof. induction l1 as [|y l1 IH]; simpl; [done|]. by destruct (p y). Qed.
End FindFirst.

(** With a unique key column, [findFirst] on the key of a row finds that
    row. *)
Lemma find_unique_key {A} (key : A -> Z) (l : list A) (x : A) :
  NoDup (map key l) -> In x l -> List.find (fun y => Z.eqb (key y) (key x)) l = Some x.
Proof.
  induction l as [|y l IH]; simpl; [done|]. intros Hnd Hin.
  inversion Hnd as [|? ? Hy Hnd']; subst.
  destruct (Z.eqb_spec (key y) (key x)) as [Heq|Hne].
  - destruct Hin as [->|Hin]; [done|].
    exfalso. apply Hy. rewrite Heq. apply list_elem_of_In, in_map, Hin.
  - destruct Hin as [->|Hin]; [done|]. by apply IH.
Qed.

#[export] Hint Rewrite @find_first_app : drivent_rw.
#[export] Hint Resolve find_first_In : drivent.
