(* ===== verification/JsRuntime.v ===== *)
(** * The JavaScript runtime the hotels module runs on

    What the TypeScript code relies on from Node and Express, as much as
    its behaviour depends on it:
    - [js_error]: the errors that reach the code ([notFoundError()] of
      [@/errors], a runtime [TypeError], a rejected Prisma query);
    - [exc]: how an async function settles (fulfilled or rejected);
    - [async R Q]: an async function body run to completion, every
      [await] in sequence: it reads an environment [R] (the database) and
      produces a trace of events, [Q] being the type of database queries;
    - [handler R Q]: synchronous code of an Express handler.  Its trace is
      split in a synchronous part and a deferred part: the deferred part
      holds the jobs of promises the handler created and did not await,
      which run after the handler has returned (run-to-completion of the
      event loop), in the order they were created;
    - [promise]: a Promise object; its job is run by [await];
    - [Truthy]: JavaScript truthiness of the values the code tests;
    - [json], [response]: what [res.send]/[res.sendStatus] put on the
      wire. *)

From stdpp Require Import base list strings decidable.
From Stdlib Require Import ZArith Lia.
From S2P Require Import Prelude.

Local Open Scope Z_scope.
Local Open Scope drivent_scope.

(** ** Errors and settled promises *)

Inductive js_error : Type :=
| NotFoundError                      (** [notFoundError()] of [@/errors] *)
| TypeError (msg : string)           (** raised by the runtime *)
| PrismaClientError (msg : string).  (** a rejected Prisma query *)

#[export] Instance js_error_eq_dec : EqDecision js_error.
Proof. solve_decision. Defined.

(** The outcome of a computation: a value, or a thrown/rejected error. *)
Inductive exc (A : Type) : Type :=
| Ok (a : A)
| Throw (e : js_error).
Arguments Ok {A} a.
Arguments Throw {A} e.

Definition is_ok {A} (x : exc A) : bool :=
  match x with Ok _ => true | Throw _ => false end.

(** ** JSON and HTTP responses *)

#[warnings="-register-all"]
Inductive json : Type :=
| JNull
| JBool (b : bool)
| JNum (n : Z)
| JStr (s : string)
| JArr (l : list json)
| JObj (fields : list (string * json)).

(** [JSON.stringify] of the values the handlers send. *)
Class ToJSON (A : Type) := to_json : A -> json.

#[export] Instance ToJSON_Z : ToJSON Z := JNum.
#[export] Instance ToJSON_string : ToJSON string := JStr.
#[export] Instance ToJSON_bool : ToJSON bool := JBool.
#[export] Instance ToJSON_list {A} `{ToJSON A} : ToJSON (list A) :=
  fun l => JArr (map to_json l).
(** A nullable object: [null] or the object. *)
#[export] Instance ToJSON_option {A} `{ToJSON A} : ToJSON (option A) :=
  fun o => match o with Some a => to_json a | None => JNull end.

Inductive body : Type :=
| BodyJson (j : json)     (** [res.send(obj)] = [res.json(obj)] *)
| BodyText (s : string).  (** [res.sendStatus(code)]: the status text *)

Record response : Type := Response { status : Z; resp_body : body }.

(** The reason phrases [res.sendStatus] writes (the [statuses] table). *)
Definition status_text (code : Z) : string :=
  if decide (code = 200) then "OK"
  else if decide (code = 400) then "Bad Request"
  else if decide (code = 401) then "Unauthorized"
  else if decide (code = 404) then "Not Found"
  else "".

(** ** Events

    The observable behaviour of a request: the queries sent to the
    database, the response, what is logged ([console.log(e.message)]),
    and the rejections no code handles. *)
Inductive event (Q : Type) : Type :=
| EvQuery (q : Q)
| EvRespond (r : response)
| EvLog (e : js_error)
| EvUnhandledRejection (e : js_error).
Arguments EvQuery {Q} q.
Arguments EvRespond {Q} r.
Arguments EvLog {Q} e.
Arguments EvUnhandledRejection {Q} e.

Definition is_query {Q} (ev : event Q) : bool :=
  match ev with EvQuery _ => true | _ => false end.

(** ** Async functions run to completion *)

Section Async.
  Context {R Q : Type}.

Definition async (A : Type) : Type := R -> list (event Q) * exc A.

#[export] Instance async_ret : Ret async := fun A a _ => ([], Ok a).
#[export] Instance async_bind : Bind async := fun A B m k r =>
    match m r with
    | (t1, Ok a) => let '(t2, y) := k a r in (t1 ++ t2, y)
    | (t1, Throw e) => (t1, Throw e)
    end.

  (** [throw e] inside an async function: the promise rejects. *)
Definition throw {A} (e : js_error) : async A := fun _ => ([], Throw e).

Definition emit (ev : event Q) : async unit := fun _ => ([ev], Ok tt).

  (** [o.name] on an object-or-null [o]: reading a property of [null]
      throws the runtime's [TypeError]. *)
Definition read_prop {A B} (name : string) (f : A -> B) (o : option A) : async B :=
    fun _ => match o with
             | Some a => ([], Ok (f a))
             | None => ([], Throw (TypeError ("Cannot read properties of null (reading '" +:+ name +:+ "')")))
             end.

  (** Two computations with the same runs on every database. *)
Definition async_equiv {A} (m1 m2 : async A) : Prop := forall r, m1 r = m2 r.

End Async.
Arguments async : clear implicits.

(** ** Promises

    A Promise object holds the job that settles it.  An awaited promise
    runs its job in place ([await]). *)
Record promise (R Q A : Type) : Type := Promise { promise_job : async R Q A }.
Arguments Promise {R Q A} _.
Arguments promise_job {R Q A} _.

Definition await {R Q A} (p : promise R Q A) : async R Q A := promise_job p.

(** [JSON.stringify] of a Promise: a Promise has no own enumerable
    property, so it is serialised as the empty object. *)
#[export] Instance ToJSON_promise {R Q A} : ToJSON (promise R Q A) := fun _ => JObj [].

(** ** Truthiness *)

Class Truthy (A : Type) := truthy : A -> bool.

#[export] Instance Truthy_bool : Truthy bool := fun b => b.
(** [option A] stands for "an object of type [A], or [null]": every
    object is truthy, [null] is not. *)
#[export] Instance Truthy_nullable {A} : Truthy (option A) :=
  fun o => match o with Some _ => true | None => false end.
(** A Promise is an object, hence truthy whatever it settles to. *)
#[export] Instance Truthy_promise {R Q A} : Truthy (promise R Q A) := fun _ => true.

(** ** Synchronous handler code

    A [handler] returns its synchronous trace, the deferred trace of the
    promises it left running, and its own outcome. *)

Section Handler.
  Context {R Q : Type}.

Definition handler (A : Type) : Type := R -> list (event Q) * list (event Q) * exc A.

#[export] Instance handler_ret : Ret handler := fun A a _ => ([], [], Ok a).
#[export] Instance handler_bind : Bind handler := fun A B m k r =>
    match m r with
    | (s1, d1, Ok a) => let '(s2, d2, y) := k a r in (s1 ++ s2, d1 ++ d2, y)
    | (s1, d1, Throw e) => (s1, d1, Throw e)
    end.

  (** What happens to a settled promise nobody awaits or catches. *)
Definition unhandled {A} (x : exc A) : list (event Q) :=
    match x with Ok _ => [] | Throw e => [EvUnhandledRejection e] end.

  (** Calling an async function without [await]: nothing runs now; its
      job, and the report of its rejection, are deferred. *)
Definition call_async {A} (m : async R Q A) : handler (promise R Q A) := fun r =>
    let '(t, x) := m r in ([], t ++ unhandled x, Ok (Promise m)).

  (** [try { body } catch (error) { on_error(error) }] *)
Definition try_catch {A} (body : handler A) (on_error : js_error -> handler A) : handler A :=
    fun r => match body r with
             | (s1, d1, Throw e) => let '(s2, d2, y) := on_error e r in (s1 ++ s2, d1 ++ d2, y)
             | res => res
             end.

  (** [await m] inside an async handler: the awaited computation's
      events come next, in order, and its rejection propagates. *)
Definition await_in_handler {A} (m : async R Q A) : handler A := fun r =>
    let '(t, x) := m r in (t, [], x).

  (** [res.status(code).send(x)] *)
Definition send {A} `{ToJSON A} (code : Z) (x : A) : handler unit :=
    fun _ => ([EvRespond (Response code (BodyJson (to_json x)))], [], Ok tt).

  (** [res.sendStatus(code)] *)
Definition sendStatus (code : Z) : handler unit :=
    fun _ => ([EvRespond (Response code (BodyText (status_text code)))], [], Ok tt).

  (** [console.log(error.message)] *)
Definition log_error (e : js_error) : handler unit := fun _ => ([EvLog e], [], Ok tt).

  (** The whole run of a handler: its synchronous trace, then the
      deferred jobs. *)
Definition run_handler {A} (h : handler A) (r : R) : list (event Q) * exc A :=
    let '(s, d, x) := h r in (s ++ d, x).

  (** The responses written in a trace, in order. *)
Definition responses (evs : list (event Q)) : list response :=
    omap (fun ev => match ev with EvRespond r => Some r | _ => None end) evs.

  (** A handler that, run on [r], ends normally after writing exactly one
      response, and that response satisfies [P]. *)
Definition answers_once (P : response -> Prop) (h : handler unit) (r : R) : Prop :=
    exists resp, responses (fst (run_handler h r)) = [resp] /\ P resp /\ snd (run_handler h r) = Ok tt.
End Handler.
Arguments handler : clear implicits.

(** ** Laws of the async monad *)

Section AsyncLaws.
  Context {R Q : Type}.
Local Abbreviation async := (async R Q).

#[export] Instance async_equiv_equiv {A} : Equivalence (@async_equiv R Q A).
  Proof.
    split; [intros m r; done | intros m1 m2 H r; by rewrite H |
            intros m1 m2 m3 H1 H2 r; by rewrite H1, H2].
  Qed.

#[export] Instance async_bind_proper {A B} :
    Proper (async_equiv ==> pointwise_relation A async_equiv ==> async_equiv)
           (@bind (JsRuntime.async R Q) _ A B).
  Proof.
    intros m1 m2 Hm k1 k2 Hk r. unfold bind, async_bind. rewrite Hm.
    destruct (m2 r) as [t [a|e]]; [by rewrite Hk | done].
  Qed.

Lemma async_bind_ret_l {A B} (a : A) (k : A -> async B) :
    async_equiv (x <- ret a ;; k x) (k a).
  Proof. intros r. unfold bind, async_bind, ret, async_ret. by destruct (k a r). Qed.

Lemma async_bind_ret_r {A} (m : async A) : async_equiv (x <- m ;; ret x) m.
  Proof.
    intros r. unfold bind, async_bind, ret, async_ret.
    destruct (m r) as [t [a|e]]; by rewrite ?app_nil_r.
  Qed.

Lemma async_bind_assoc {A B C} (m : async A) (k : A -> async B) (h : B -> async C) :
    async_equiv (y <- (x <- m ;; k x) ;; h y) (x <- m ;; y <- k x ;; h y).
  Proof.
    intros r. unfold bind, async_bind.
    destruct (m r) as [t1 [a|e]]; [|done].
    destruct (k a r) as [t2 [b|e]]; [|done].
    destruct (h b r) as [t3 y]. by rewrite app_assoc.
  Qed.

  (** The outcome and the trace of a sequence. *)
Lemma async_bind_snd {A B} (m : async A) (k : A -> async B) (r : R) :
    snd ((x <- m ;; k x) r) = match snd (m r) with Ok a => snd (k a r) | Throw e => Throw e end.
  Proof.
    unfold bind, async_bind. destruct (m r) as [t [a|e]]; simpl; [|done].
    by destruct (k a r).
  Qed.

Lemma async_bind_fst {A B} (m : async A) (k : A -> async B) (r : R) :
    fst ((x <- m ;; k x) r) = fst (m r) ++ match snd (m r) with Ok a => fst (k a r) | Throw _ => [] end.
  Proof.
    unfold bind, async_bind. destruct (m r) as [t [a|e]]; simpl.
    - by destruct (k a r).
    - by rewrite app_nil_r.
  Qed.

  (** A computation that throws right away stops the rest. *)
Lemma async_bind_throw {A B} (e : js_error) (k : A -> async B) :
    async_equiv (x <- throw e ;; k x) (throw e).
  Proof. intros r. done. Qed.
End AsyncLaws.

(** ** Responses of a trace *)

Section ResponseLemmas.
  Context {R Q : Type}.

Lemma responses_app (t1 t2 : list (event Q)) : responses (t1 ++ t2) = responses t1 ++ responses t2.
  Proof. apply omap_app. Qed.

  (** A trace of queries writes no response. *)
Lemma responses_queries (t : list (event Q)) :
    Forall (fun ev => is_query ev = true) t -> responses t = [].
  Proof. induction 1 as [|[] t Hq _ IH]; simpl in *; by try rewrite IH. Qed.

Lemma responses_unhandled {A} (x : exc A) : responses (@unhandled Q A x) = [].
  Proof. by destruct x. Qed.

Lemma sendStatus_answers_once (P : response -> Prop) (code : Z) (r : R) :
    P (Response code (BodyText (status_text code))) -> @answers_once R Q P (sendStatus code) r.
  Proof. intros HP. eexists. split; [reflexivity|]. by split. Qed.

Lemma answers_once_weaken (P P' : response -> Prop) (h : handler R Q unit) (r : R) :
    (forall resp, P resp -> P' resp) -> answers_once P h r -> answers_once P' h r.
  Proof. intros HP (resp & H1 & H2 & H3). exists resp. eauto. Qed.
End ResponseLemmas.

