(* ===== verification/JsNumber.v ===== *)
(** * JavaScript numbers

    The values of the JavaScript [number] type that the module handles
    (IEEE-754 binary64): [NaN], the two infinities, and finite values
    [(-1)^neg * m * 2^e], kept in a canonical form ([m] odd, or the zero
    [m = 0, e = 0]) so that equality of numbers is equality of terms
    (the sign of zero is kept, as JavaScript keeps [-0]).

    The controller turns the [:hotelId] path parameter into a number with
    [Number(hotelId)], and the repository hands it to Prisma as the value
    of an [Int] column.  This file holds the number type, the conversion
    of a JavaScript integer to a number, and the check Prisma's query
    validation makes on an [Int] argument ([prisma_int]): an integral
    finite number within the 32-bit range of an [Int] column. *)

From stdpp Require Import base list strings decidable.
From Stdlib Require Import ZArith Lia Ascii String.
From S2P Require Import Prelude.

Local Open Scope Z_scope.

Inductive number : Type :=
| NaN
| Infinity (neg : bool)
| Finite (neg : bool) (m : Z) (e : Z).

#[export] Instance number_eq_dec : EqDecision number.
Proof. solve_decision. Defined.

(** ** Canonical finite values *)

(** The odd part of a positive and the exponent of 2 stripped from it. *)
Fixpoint odd_part (p : positive) : positive * Z :=
  match p with
  | xO p' => let '(o, k) := odd_part p' in (o, k + 1)
  | _ => (p, 0)
  end.

(** [normalize neg m e] is the canonical form of [(-1)^neg * m * 2^e],
    [m >= 0]. *)
Definition normalize (neg : bool) (m e : Z) : number :=
  match m with
  | Zpos p => let '(o, k) := odd_part p in Finite neg (Zpos o) (e + k)
  | _ => Finite neg 0 0
  end.

(** A JavaScript integer as a number ([+0] for zero). *)
Definition of_Z (z : Z) : number := normalize (z <? 0) (Z.abs z) 0.

(** The mathematical value of a finite number that is an integer. *)
Definition to_Z (x : number) : option Z :=
  match x with
  | Finite neg m e =>
      if decide (0 <= e) then Some ((if neg then -1 else 1) * m * 2 ^ e)
      else if decide (m = 0) then Some 0 else None
  | _ => None
  end.

(** ** Prisma's [Int] arguments

    [Number.isInteger(x)] and the 32-bit range of an [Int] column. *)
Definition int32_min : Z := - 2 ^ 31.
Definition int32_max : Z := 2 ^ 31 - 1.

Definition prisma_int (x : number) : option Z :=
  match to_Z x with
  | Some z => if decide (int32_min <= z <= int32_max) then Some z else None
  | None => None
  end.

(** ** Rounding to binary64

    [round_binary64 neg num den] is the number nearest to
    [(-1)^neg * num / den] ([num, den > 0]), ties to even, with gradual
    underflow (exponent at least [-1074]) and overflow to an infinity
    (a result of [2^1024] or more). *)
Definition round_binary64 (neg : bool) (num den : Z) : number :=
  let k := Z.log2 num - Z.log2 den in
  let fl := if (if 0 <=? k then den * 2 ^ k <=? num else den <=? num * 2 ^ (- k))
            then k else k - 1 in
  let e := Z.max (fl - 52) (-1074) in
  let a := if 0 <=? e then num else num * 2 ^ (- e) in
  let b := if 0 <=? e then den * 2 ^ e else den in
  let q := a / b in
  let r := a mod b in
  let m := if (b <? 2 * r) || ((2 * r =? b) && Z.odd q) then q + 1 else q in
  if (971 <? e) || ((m =? 2 ^ 53) && (e =? 971)) then Infinity neg else normalize neg m e.

(** ** [Number(string)]: ECMAScript StringToNumber

    The string is trimmed of white space, an empty result is [+0], a
    string that is not a StringNumericLiteral is [NaN].  A
    StringNumericLiteral is a [0b]/[0o]/[0x] integer (no sign), or a
    signed [Infinity], or a signed decimal literal with optional
    fraction and exponent.  Strings are sequences of 8-bit code units
    (the path parameter after URL decoding); the white space among them
    is TAB, LF, VT, FF, CR, SPACE and NO-BREAK SPACE. *)

Definition is_ws (c : ascii) : bool :=
  match Ascii.nat_of_ascii c with
  | 9 | 10 | 11 | 12 | 13 | 32 | 160 => true
  | _ => false
  end%nat.

Fixpoint drop_ws (l : list ascii) : list ascii :=
  match l with
  | c :: l' => if is_ws c then drop_ws l' else l
  | [] => []
  end.

Definition trim (l : list ascii) : list ascii := rev (drop_ws (rev (drop_ws l))).

(** The value of a digit in a radix up to 16. *)
Definition digit_val (radix : Z) (c : ascii) : option Z :=
  let n := Z.of_nat (Ascii.nat_of_ascii c) in
  let v := if (48 <=? n) && (n <=? 57) then Some (n - 48)
           else if (97 <=? n) && (n <=? 102) then Some (n - 87)
           else if (65 <=? n) && (n <=? 70) then Some (n - 55)
           else None in
  match v with Some d => if d <? radix then Some d else None | None => None end.

(** The longest prefix of digits, and the rest. *)
Fixpoint span_digits (radix : Z) (l : list ascii) : list Z * list ascii :=
  match l with
  | c :: l' =>
      match digit_val radix c with
      | Some d => let '(ds, r) := span_digits radix l' in (d :: ds, r)
      | None => ([], l)
      end
  | [] => ([], [])
  end.

Definition horner (radix : Z) (ds : list Z) : Z := fold_left (fun a d => a * radix + d) ds 0.

(** A parsed StringNumericLiteral: an infinity, a decimal
    [(-1)^neg * M * 10^E10] written with [L] digits, or an integer. *)
Inductive literal : Type :=
| LitInfinity (neg : bool)
| LitDecimal (neg : bool) (M L E10 : Z)
| LitInteger (N : Z).

Definition is_char (c : ascii) (s : string) : bool := bool_decide (c ∈ list_ascii_of_string s).

(** ExponentPart, or nothing. *)
Definition parse_exponent (l : list ascii) : option Z :=
  match l with
  | [] => Some 0
  | c :: r =>
      if is_char c "eE" then
        let '(neg, r') := match r with
                          | s :: r' => if is_char s "+" then (false, r')
                                       else if is_char s "-" then (true, r') else (false, r)
                          | [] => (false, r)
                          end in
        match span_digits 10 r' with
        | ((_ :: _) as ds, []) => Some (if neg then - horner 10 ds else horner 10 ds)
        | _ => None
        end
      else None
  end.

(** StrUnsignedDecimalLiteral. *)
Definition parse_unsigned_decimal (neg : bool) (l : list ascii) : option literal :=
  if bool_decide (l = list_ascii_of_string "Infinity") then Some (LitInfinity neg) else
  let '(ip, r1) := span_digits 10 l in
  match r1 with
  | c :: r2 =>
      if is_char c "." then
        let '(fp, r3) := span_digits 10 r2 in
        match app ip fp, parse_exponent r3 with
        | _ :: _, Some e =>
            Some (LitDecimal neg (horner 10 (app ip fp)) (Z.of_nat (List.length (app ip fp)))
                             (e - Z.of_nat (List.length fp)))
        | _, _ => None
        end
      else
        match ip, parse_exponent r1 with
        | _ :: _, Some e => Some (LitDecimal neg (horner 10 ip) (Z.of_nat (List.length ip)) e)
        | _, _ => None
        end
  | [] =>
      match ip with
      | _ :: _ => Some (LitDecimal neg (horner 10 ip) (Z.of_nat (List.length ip)) 0)
      | [] => None
      end
  end.

(** NonDecimalIntegerLiteral after its prefix. *)
Definition parse_non_decimal (radix : Z) (l : list ascii) : option literal :=
  match span_digits radix l with
  | ((_ :: _) as ds, []) => Some (LitInteger (horner radix ds))
  | _ => None
  end.

Definition parse_literal (l : list ascii) : option literal :=
  match l with
  | z :: c :: r =>
      if is_char z "0" && is_char c "xX" then parse_non_decimal 16 r
      else if is_char z "0" && is_char c "oO" then parse_non_decimal 8 r
      else if is_char z "0" && is_char c "bB" then parse_non_decimal 2 r
      else if is_char z "+" then parse_unsigned_decimal false (c :: r)
      else if is_char z "-" then parse_unsigned_decimal true (c :: r)
      else parse_unsigned_decimal false l
  | [s] => if is_char s "+" then parse_unsigned_decimal false []
           else if is_char s "-" then parse_unsigned_decimal true []
           else parse_unsigned_decimal false l
  | [] => None
  end.

(** RoundMVResult of the literal's mathematical value.  A decimal
    literal of value at least [10^309] is beyond the largest finite
    number and one below [10^-325] below half the least subnormal: both
    are decided before the exact value is built. *)
Definition literal_value (lit : literal) : number :=
  match lit with
  | LitInfinity neg => Infinity neg
  | LitInteger N => if N =? 0 then Finite false 0 0 else round_binary64 false N 1
  | LitDecimal neg M L E10 =>
      if M =? 0 then Finite neg 0 0
      else if 309 <=? E10 then Infinity neg
      else if L + E10 <=? -325 then Finite neg 0 0
      else round_binary64 neg (M * 10 ^ Z.max E10 0) (10 ^ Z.max (- E10) 0)
  end.

Definition StringToNumber (s : string) : number :=
  match trim (list_ascii_of_string s) with
  | [] => Finite false 0 0
  | l => match parse_literal l with
         | Some lit => literal_value lit
         | None => NaN
         end
  end.

(** *** Strings of UTF-16 code units

    A JavaScript string is a sequence of 16-bit code units; the path
    parameter after [decodeURIComponent] may hold any of them.  The white
    space [Number] trims is WhiteSpace and LineTerminator: TAB, LF, VT,
    FF, CR, SPACE, NO-BREAK SPACE, the other space separators (U+1680,
    U+2000 to U+200A, U+202F, U+205F, U+3000), U+2028, U+2029 and U+FEFF.
    A StringNumericLiteral is made of ASCII characters, so a trimmed
    string with a code unit above 255 is not one. *)

Definition is_ws16 (u : Z) : bool :=
  bool_decide (u ∈ [9; 10; 11; 12; 13; 32; 160; 5760; 8239; 8287; 12288; 65279; 8232; 8233])
  || ((8192 <=? u) && (u <=? 8202)).

Fixpoint drop_ws16 (us : list Z) : list Z :=
  match us with
  | u :: us' => if is_ws16 u then drop_ws16 us' else us
  | [] => []
  end.

Definition trim16 (us : list Z) : list Z := rev (drop_ws16 (rev (drop_ws16 us))).

(** The code units of a string of 8-bit characters, and back when every
    unit is below 256. *)
Definition units_of_ascii (l : list ascii) : list Z := map (fun c => Z.of_nat (Ascii.nat_of_ascii c)) l.

(** A string literal of the model as a JavaScript string. *)
Definition js_str (s : string) : list Z := units_of_ascii (list_ascii_of_string s).

Definition latin1 (us : list Z) : option (list ascii) :=
  if forallb (fun u => (0 <=? u) && (u <? 256)) us
  then Some (map (fun u => Ascii.ascii_of_nat (Z.to_nat u)) us) else None.

(** [Number(s)] of a string of code units. *)
Definition StringToNumber16 (us : list Z) : number :=
  match trim16 us with
  | [] => Finite false 0 0
  | t => match latin1 t with
         | Some l => match parse_literal l with
                     | Some lit => literal_value lit
                     | None => NaN
                     end
         | None => NaN
         end
  end.

(** [Number(v)] of a value that is a string or [undefined]. *)
Definition Number_of_param (v : option (list Z)) : number :=
  match v with Some us => StringToNumber16 us | None => NaN end.

(** ** [String(n)] of an integer

    The decimal form JavaScript prints for an integral number below
    [10^21] (how the tests build the path [/hotels/${hotel.id}]). *)
Definition digit_char (d : Z) : ascii := Ascii.ascii_of_nat (Z.to_nat (48 + d)).

Fixpoint digits_rev (fuel : nat) (n : Z) (acc : list ascii) : list ascii :=
  match fuel with
  | O => acc
  | S f =>
      let acc' := digit_char (n mod 10) :: acc in
      if n / 10 =? 0 then acc' else digits_rev f (n / 10) acc'
  end.

(** The digits of [n > 0]; [log2 n + 1] digits always suffice. *)
Definition decimal_digits (n : Z) : list ascii := digits_rev (Z.to_nat (Z.log2 n + 1)) n [].

Definition String_of_int (n : Z) : string :=
  string_of_list_ascii
    (if n =? 0 then ["0"%char]
     else if n <? 0 then "-"%char :: decimal_digits (- n) else decimal_digits n).

(** ** Lemmas *)

Lemma odd_part_spec (p : positive) :
  Zpos p = Zpos (fst (odd_part p)) * 2 ^ snd (odd_part p) /\
  0 <= snd (odd_part p) /\ Z.odd (Zpos (fst (odd_part p))) = true.
Proof.
  induction p as [p IH|p IH|]; simpl; try (split; [lia | done]).
  destruct (odd_part p) as [o k]; simpl in *. destruct IH as (IH & Hk & Ho).
  split; [|split; [lia | done]].
  rewrite Z.pow_add_r by lia. rewrite Pos2Z.inj_xO, IH. lia.
Qed.

(** Integers convert to numbers and back. *)
Lemma to_Z_of_Z (z : Z) : to_Z (of_Z z) = Some z.
Proof.
  unfold of_Z, normalize, to_Z.
  destruct (Z.abs z) as [|p|p] eqn:Ha; [| |lia].
  - case_decide; [|lia]. f_equal. lia.
  - pose proof (odd_part_spec p) as (Hp & Hk & _).
    destruct (odd_part p) as [o k]; simpl in *.
    case_decide; [|lia]. f_equal.
    rewrite Z.add_0_l, <- Z.mul_assoc, <- Hp.
    destruct (Z.ltb_spec z 0); lia.
Qed.

(** Prisma's check on an integer: it passes exactly within 32 bits. *)
Lemma prisma_int_of_Z_range (z : Z) :
  prisma_int (of_Z z) = if decide (int32_min <= z <= int32_max) then Some z else None.
Proof. unfold prisma_int. by rewrite to_Z_of_Z. Qed.

#[export] Hint Rewrite to_Z_of_Z : drivent_rw.

(** *** Exact rounding of integers *)

Lemma normalize_double (neg : bool) (m e : Z) :
  0 <= m -> normalize neg (2 * m) (e - 1) = normalize neg m e.
Proof.
  intros Hm. destruct m as [|p|p]; [done| |lia]. unfold normalize.
  change (2 * Zpos p) with (Zpos (xO p)). simpl.
  destruct (odd_part p) as [o k]. f_equal. lia.
Qed.

Lemma normalize_shift (neg : bool) (m e j : Z) :
  0 <= m -> 0 <= j -> normalize neg (m * 2 ^ j) (e - j) = normalize neg m e.
Proof.
  intros Hm Hj. revert e. pattern j. apply natlike_ind; [| |done].
  - intros e. by rewrite Z.mul_1_r, Z.sub_0_r.
  - intros i Hi IH e. rewrite Z.pow_succ_r by done.
    replace (m * (2 * 2 ^ i)) with (2 * (m * 2 ^ i)) by ring.
    replace (e - Z.succ i) with ((e - i) - 1) by lia.
    rewrite normalize_double; [apply IH|]. pose proof (Z.pow_nonneg 2 i). nia.
Qed.

(** An integer of magnitude at most [2^53] is a number exactly. *)
Lemma round_binary64_int (neg : bool) (M : Z) :
  0 < M <= 2 ^ 53 -> round_binary64 neg M 1 = normalize neg M 0.
Proof.
  intros HM. unfold round_binary64.
  pose proof (Z.log2_spec M ltac:(lia)) as [Hlo Hhi].
  assert (Hk : 0 <= Z.log2 M <= 53).
  { split; [apply Z.log2_nonneg|]. rewrite <- (Z.log2_pow2 53) by lia. apply Z.log2_le_mono; lia. }
  change (Z.log2 1) with 0. rewrite Z.sub_0_r.
  replace (0 <=? Z.log2 M) with true by (symmetry; apply Z.leb_le; lia).
  replace (1 * 2 ^ Z.log2 M <=? M) with true by (symmetry; apply Z.leb_le; lia).
  destruct (Z.leb_spec 0 (Z.max (Z.log2 M - 52) (-1074))) as [He|He].
  - (* [M] has 53 or 54 bits *)
    assert (Z.log2 M = 52 \/ Z.log2 M = 53) as [Hl|Hl] by lia; rewrite Hl in *; simpl.
    + rewrite Z.div_1_r, Z.mod_1_r. simpl.
      destruct (Z.eqb_spec M (2 ^ 53)); [lia|]. done.
    + assert (M = 2 ^ 53) as -> by lia. vm_compute. reflexivity.
  - rewrite Z.max_l in * by lia.
    rewrite Z.div_1_r, Z.mod_1_r. change (2 * 0) with 0.
    change (1 <? 0) with false. change (0 =? 1) with false. cbn [orb andb].
    replace (971 <? Z.log2 M - 52) with false by (symmetry; apply Z.ltb_ge; lia).
    try replace (Z.log2 M - 52 =? 971) with false by (symmetry; apply Z.eqb_neq; lia).
    rewrite ?andb_false_r. cbn [orb].
    replace (Z.log2 M - 52) with (0 - (- (Z.log2 M - 52))) at 2 by lia.
    apply normalize_shift; lia.
Qed.

(** *** Rounding gives binary64 values *)

(** *** Decimal digits *)

Lemma digit_char_spec (d : Z) :
  0 <= d < 10 ->
  digit_val 10 (digit_char d) = Some d /\ is_ws (digit_char d) = false /\
  is_char (digit_char d) "+" = false /\ is_char (digit_char d) "-" = false /\
  is_char (digit_char d) "xX" = false /\ is_char (digit_char d) "oO" = false /\
  is_char (digit_char d) "bB" = false /\ digit_char d <> "I"%char.
Proof.
  intros Hd.
  assert (d = 0 \/ d = 1 \/ d = 2 \/ d = 3 \/ d = 4 \/ d = 5 \/ d = 6 \/ d = 7 \/ d = 8 \/ d = 9)
    by lia.
  destruct_or!; subst; vm_compute; repeat split; discriminate.
Qed.

Lemma horner_snoc (radix : Z) (ds : list Z) (d : Z) :
  horner radix (ds ++ [d]) = horner radix ds * radix + d.
Proof. unfold horner. by rewrite fold_left_app. Qed.

Lemma digits_rev_spec (fuel : nat) (n : Z) (acc : list ascii) :
  0 < n < 10 ^ Z.of_nat fuel ->
  exists ds, digits_rev fuel n acc = map digit_char ds ++ acc /\ ds <> [] /\
    Forall (fun d => 0 <= d < 10) ds /\ horner 10 ds = n.
Proof.
  revert n acc. induction fuel as [|f IH]; intros n acc Hn; [simpl in Hn; lia|].
  rewrite Nat2Z.inj_succ, Z.pow_succ_r in Hn by lia. simpl.
  pose proof (Z.mod_pos_bound n 10 ltac:(lia)) as Hr.
  pose proof (Z.div_mod n 10 ltac:(lia)) as Hdm.
  destruct (Z.eqb_spec (n / 10) 0) as [Hq|Hq].
  - exists [n mod 10]. split; [done|]. split; [done|]. split; [by apply Forall_singleton|].
    unfold horner. simpl. lia.
  - destruct (IH (n / 10) (digit_char (n mod 10) :: acc)) as (ds & Hd & Hne & Hf & Hh).
    { split; [|apply Z.div_lt_upper_bound; lia].
      assert (0 <= n / 10) by (apply Z.div_pos; lia). lia. }
    exists (ds ++ [n mod 10]). rewrite Hd, map_app, <- app_assoc.
    split; [done|]. split; [by destruct ds|]. split.
    + apply Forall_app. split; [done|by apply Forall_singleton].
    + rewrite horner_snoc, Hh. lia.
Qed.

(** [log2 n + 1] decimal digits hold [n]: the fuel of [decimal_digits]. *)
Lemma decimal_digits_fuel (n : Z) : 0 < n -> n < 10 ^ Z.of_nat (Z.to_nat (Z.log2 n + 1)).
Proof.
  intros Hn. rewrite Z2Nat.id by (pose proof (Z.log2_nonneg n); lia).
  pose proof (Z.log2_spec n Hn) as [_ Hhi]. rewrite <- Z.add_1_r in Hhi.
  apply (Z.lt_le_trans _ _ _ Hhi). apply Z.pow_le_mono_l. lia.
Qed.

Lemma decimal_digits_spec (n : Z) :
  0 < n -> exists ds, decimal_digits n = map digit_char ds /\ ds <> [] /\
    Forall (fun d => 0 <= d < 10) ds /\ horner 10 ds = n.
Proof.
  intros Hn. unfold decimal_digits.
  destruct (digits_rev_spec (Z.to_nat (Z.log2 n + 1)) n []) as (ds & Hd & ?);
    [split; [done | by apply decimal_digits_fuel] | exists ds; by rewrite Hd, app_nil_r].
Qed.

Lemma span_digits_all (ds : list Z) :
  Forall (fun d => 0 <= d < 10) ds -> span_digits 10 (map digit_char ds) = (ds, []).
Proof.
  induction 1 as [|d ds Hd _ IH]; [done|]. simpl.
  destruct (digit_char_spec d Hd) as [-> _]. by rewrite IH.
Qed.

(** *** Trimming and parsing *)

Lemma drop_ws_id (l : list ascii) : Forall (fun c => is_ws c = false) l -> drop_ws l = l.
Proof. destruct 1; simpl; [done|]. by rewrite H. Qed.

Lemma trim_id (l : list ascii) : Forall (fun c => is_ws c = false) l -> trim l = l.
Proof.
  intros Hl. unfold trim. rewrite (drop_ws_id l Hl).
  rewrite (drop_ws_id (rev l)); [apply rev_involutive | by apply Forall_rev].
Qed.

Lemma parse_unsigned_digits (neg : bool) (ds : list Z) :
  ds <> [] -> Forall (fun d => 0 <= d < 10) ds ->
  parse_unsigned_decimal neg (map digit_char ds) =
  Some (LitDecimal neg (horner 10 ds) (Z.of_nat (List.length ds)) 0).
Proof.
  intros Hne Hf. unfold parse_unsigned_decimal.
  rewrite bool_decide_false.
  - rewrite span_digits_all by done. by destruct ds.
  - destruct ds as [|d ds]; [done|]. apply Forall_cons_1 in Hf as [Hd _].
    destruct (digit_char_spec d Hd) as (_ & _ & _ & _ & _ & _ & _ & HI).
    simpl. intros [= ? _]. done.
Qed.

Lemma parse_literal_digits (ds : list Z) :
  ds <> [] -> Forall (fun d => 0 <= d < 10) ds ->
  parse_literal (map digit_char ds) = Some (LitDecimal false (horner 10 ds) (Z.of_nat (List.length ds)) 0) /\
  parse_literal ("-"%char :: map digit_char ds) =
  Some (LitDecimal true (horner 10 ds) (Z.of_nat (List.length ds)) 0).
Proof.
  intros Hne Hf. rewrite <- !parse_unsigned_digits by done.
  destruct ds as [|d1 [|d2 ds]]; [done| |]; apply Forall_cons_1 in Hf as [Hd1 Hf];
    destruct (digit_char_spec d1 Hd1) as (_ & _ & Hp1 & Hm1 & Hx1 & Ho1 & Hb1 & _).
  - split; simpl.
    + by rewrite Hp1, Hm1.
    + reflexivity.
  - apply Forall_cons_1 in Hf as [Hd2 _].
    destruct (digit_char_spec d2 Hd2) as (_ & _ & _ & _ & Hx2 & Ho2 & Hb2 & _).
    split; simpl.
    + rewrite ?Hx2, ?Ho2, ?Hb2, ?andb_false_r, ?Hp1, ?Hm1. reflexivity.
    + rewrite ?Hx1, ?Ho1, ?Hb1, ?andb_false_r. reflexivity.
Qed.

(** *** Parsed literals have non-negative significands *)

(** The number of a non-empty trimmed literal. *)
Lemma StringToNumber_literal (l : list ascii) (lit : literal) :
  Forall (fun c => is_ws c = false) l -> parse_literal l = Some lit ->
  StringToNumber (string_of_list_ascii l) = literal_value lit.
Proof.
  intros Hws Hp. unfold StringToNumber.
  rewrite list_ascii_of_string_of_list_ascii, trim_id by done.
  destruct l; [done|]. by rewrite Hp.
Qed.

(** The number of a digit string with an optional minus sign. *)
Lemma StringToNumber_digits (neg : bool) (ds : list Z) :
  ds <> [] -> Forall (fun d => 0 <= d < 10) ds -> 0 < horner 10 ds <= 2 ^ 53 ->
  StringToNumber (string_of_list_ascii
    ((if neg then ["-"%char] else []) ++ map digit_char ds)) = normalize neg (horner 10 ds) 0.
Proof.
  intros Hne Hf Hv.
  destruct (parse_literal_digits ds Hne Hf) as [Hp Hm].
  assert (Hws : Forall (fun c => is_ws c = false) (map digit_char ds)).
  { apply Forall_map. eapply Forall_impl; [|exact Hf]. intros d Hd. apply (digit_char_spec d Hd). }
  erewrite StringToNumber_literal; [| destruct neg; simpl; [by constructor | done] |
                                      destruct neg; [exact Hm | exact Hp]].
  simpl. replace (horner 10 ds =? 0) with false by (symmetry; apply Z.eqb_neq; lia).
  replace (Z.of_nat (List.length ds) + 0 <=? -325) with false by (symmetry; apply Z.leb_gt; lia).
  simpl. rewrite Z.mul_1_r. by apply round_binary64_int.
Qed.

(** *** Strings of 8-bit characters as code units *)

Lemma is_ws16_units (c : ascii) : is_ws16 (Z.of_nat (Ascii.nat_of_ascii c)) = is_ws c.
Proof. destruct c as [[] [] [] [] [] [] [] []]; reflexivity. Qed.

Lemma drop_ws16_units (l : list ascii) : drop_ws16 (units_of_ascii l) = units_of_ascii (drop_ws l).
Proof. induction l as [|c l IH]; simpl; [done|]. rewrite is_ws16_units. by destruct (is_ws c). Qed.

Lemma trim16_units (l : list ascii) : trim16 (units_of_ascii l) = units_of_ascii (trim l).
Proof.
  unfold trim16, trim. rewrite drop_ws16_units. unfold units_of_ascii at 1. rewrite <- map_rev.
  fold (units_of_ascii (rev (drop_ws l))). rewrite drop_ws16_units. unfold units_of_ascii. by rewrite map_rev.
Qed.

Lemma latin1_units (l : list ascii) : latin1 (units_of_ascii l) = Some l.
Proof.
  unfold latin1, units_of_ascii. induction l as [|c l IH]; [done|]. simpl.
  pose proof (nat_ascii_bounded c).
  replace ((0 <=? _) && (_ <? 256)) with true by (symmetry; apply andb_true_iff; lia). simpl.
  destruct (forallb _ _); [|discriminate]. injection IH as IH.
  by rewrite IH, Nat2Z.id, ascii_nat_embedding.
Qed.

(** On a string of 8-bit characters, [Number] of its code units is
    [StringToNumber]. *)
Lemma StringToNumber16_units (s : string) : StringToNumber16 (js_str s) = StringToNumber s.
Proof.
  unfold StringToNumber16, StringToNumber, js_str. rewrite trim16_units.
  destruct (trim (list_ascii_of_string s)) as [|c l] eqn:Ht; [done|].
  change (units_of_ascii (c :: l)) with (Z.of_nat (Ascii.nat_of_ascii c) :: units_of_ascii l).
  cbv beta iota. change (Z.of_nat (Ascii.nat_of_ascii c) :: units_of_ascii l) with (units_of_ascii (c :: l)).
  by rewrite latin1_units.
Qed.

(** [Number(String(n))] is [n] for every integer up to [2^53]. *)
Lemma StringToNumber_String_of_int (n : Z) :
  - 2 ^ 53 <= n <= 2 ^ 53 -> StringToNumber (String_of_int n) = of_Z n.
Proof.
  intros Hn. unfold String_of_int, of_Z.
  destruct (Z.eqb_spec n 0) as [->|Hz]; [done|].
  destruct (Z.ltb_spec n 0) as [Hneg|Hpos].
  - destruct (decimal_digits_spec (- n)) as (ds & Hd & Hne & Hf & Hh); [lia|].
    rewrite Hd. change ("-"%char :: map digit_char ds) with ([ "-"%char ] ++ map digit_char ds).
    rewrite (StringToNumber_digits true ds Hne Hf) by lia. f_equal. lia.
  - destruct (decimal_digits_spec n) as (ds & Hd & Hne & Hf & Hh); [lia|].
    rewrite Hd. change (map digit_char ds) with ([] ++ map digit_char ds).
    rewrite (StringToNumber_digits false ds Hne Hf) by lia. f_equal. lia.
Qed.

(** Leading zeros add nothing to a numeral. *)
Lemma horner_zeros (radix : Z) (k : nat) (ds : list Z) :
  horner radix (repeat 0 k ++ ds) = horner radix ds.
Proof.
  unfold horner. rewrite fold_left_app. f_equal.
  induction k as [|k IH]; [done|]. simpl. by replace (0 * radix + 0) with 0 by lia.
Qed.

(** [Number] reads a printed positive integer with leading zeros as the
    integer. *)
Lemma StringToNumber_leading_zeros (n : Z) (k : nat) :
  0 < n <= 2 ^ 53 ->
  StringToNumber (string_of_list_ascii (repeat "0"%char k ++ list_ascii_of_string (String_of_int n))) = of_Z n.
Proof.
  intros Hn. unfold String_of_int, of_Z. rewrite list_ascii_of_string_of_list_ascii.
  destruct (Z.eqb_spec n 0); [lia|]. destruct (Z.ltb_spec n 0); [lia|].
  destruct (decimal_digits_spec n) as (ds & -> & Hne & Hf & Hh); [lia|].
  replace (repeat "0"%char k) with (map digit_char (repeat 0 k)) by (induction k; simpl; by f_equal).
  rewrite <- map_app. change (map digit_char (repeat 0 k ++ ds)) with ([] ++ map digit_char (repeat 0 k ++ ds)).
  rewrite (StringToNumber_digits false); rewrite ?horner_zeros; [f_equal; lia | by destruct k | | lia].
  apply Forall_app. split; [clear; induction k; constructor; [lia | done] | done].
Qed.

