(* ===== verification/UriDecode.v ===== *)
(** * [decodeURIComponent] of a path segment

    Express decodes each route parameter with [decodeURIComponent]
    ([Layer.prototype.match], [decode_param]) when it matches the path,
    before any handler of the route runs; a malformed escape is a
    [URIError] that Express turns into a [400] answered by its final
    handler.  The path of a request is a string of 8-bit characters; the
    decoded parameter is a JavaScript string, a sequence of UTF-16 code
    units.

    ECMAScript's Decode (with an empty reserved set): a character other
    than [%] is copied; [%XX] is a byte; a byte below [0x80] is a
    character; a byte [110xxxxx], [1110xxxx] or [11110xxx] starts a UTF-8
    sequence of 2, 3 or 4 bytes, each further byte a [%XX] of the form
    [10xxxxxx]; the code point must not be an overlong form, a surrogate,
    or above [U+10FFFF]; it is written in UTF-16.  Anything else throws
    [URIError]. *)

From stdpp Require Import base list strings decidable.
From Stdlib Require Import ZArith Lia Ascii String.
From S2P Require Import Prelude JsNumber.

Local Open Scope Z_scope.

(** The byte of [%XX]. *)
Definition hex_byte (h1 h2 : ascii) : option Z :=
  match digit_val 16 h1, digit_val 16 h2 with
  | Some a, Some b => Some (a * 16 + b)
  | _, _ => None
  end.

(** A continuation byte [10xxxxxx]. *)
Definition continuation (b : Z) : bool := (128 <=? b) && (b <? 192).

(** UTF16EncodeCodePoint *)
Definition utf16_encode (v : Z) : list Z :=
  if v <? 65536 then [v] else [55296 + (v - 65536) / 1024; 56320 + (v - 65536) mod 1024].

Definition prepend (us : list Z) (r : option (list Z)) : option (list Z) :=
  match r with Some l => Some (us ++ l) | None => None end.

(** The code point of a checked sequence, or the [URIError]. *)
Definition code_point_ok (lo hi v : Z) : bool := (lo <=? v) && (v <=? hi) && negb ((55296 <=? v) && (v <=? 57343)).

Fixpoint decodeURIComponent (l : list ascii) : option (list Z) :=
  match l with
  | [] => Some []
  | "%"%char :: h1 :: h2 :: rest =>
      match hex_byte h1 h2 with
      | None => None
      | Some b0 =>
          if b0 <? 128 then prepend [b0] (decodeURIComponent rest)
          else if (192 <=? b0) && (b0 <? 224) then
            match rest with
            | "%"%char :: a1 :: a2 :: rest' =>
                match hex_byte a1 a2 with
                | Some b1 =>
                    let v := (b0 - 192) * 64 + (b1 - 128) in
                    if continuation b1 && code_point_ok 128 2047 v
                    then prepend (utf16_encode v) (decodeURIComponent rest') else None
                | None => None
                end
            | _ => None
            end
          else if (224 <=? b0) && (b0 <? 240) then
            match rest with
            | "%"%char :: a1 :: a2 :: "%"%char :: c1 :: c2 :: rest' =>
                match hex_byte a1 a2, hex_byte c1 c2 with
                | Some b1, Some b2 =>
                    let v := (b0 - 224) * 4096 + (b1 - 128) * 64 + (b2 - 128) in
                    if continuation b1 && continuation b2 && code_point_ok 2048 65535 v
                    then prepend (utf16_encode v) (decodeURIComponent rest') else None
                | _, _ => None
                end
            | _ => None
            end
          else if (240 <=? b0) && (b0 <? 248) then
            match rest with
            | "%"%char :: a1 :: a2 :: "%"%char :: c1 :: c2 :: "%"%char :: d1 :: d2 :: rest' =>
                match hex_byte a1 a2, hex_byte c1 c2, hex_byte d1 d2 with
                | Some b1, Some b2, Some b3 =>
                    let v := (b0 - 240) * 262144 + (b1 - 128) * 4096 + (b2 - 128) * 64 + (b3 - 128) in
                    if continuation b1 && continuation b2 && continuation b3 && code_point_ok 65536 1114111 v
                    then prepend (utf16_encode v) (decodeURIComponent rest') else None
                | _, _, _ => None
                end
            | _ => None
            end
          else None
      end
  | "%"%char :: _ => None
  | c :: rest => prepend [Z.of_nat (Ascii.nat_of_ascii c)] (decodeURIComponent rest)
  end.

(** ** Lemmas *)

(** A segment without [%] decodes to its own characters. *)
Lemma decodeURIComponent_no_escape (l : list ascii) :
  Forall (fun c => c <> "%"%char) l -> decodeURIComponent l = Some (units_of_ascii l).
Proof.
  induction 1 as [|c l Hc _ IH]; [done|].
  assert (Hd : decodeURIComponent (c :: l) = prepend [Z.of_nat (Ascii.nat_of_ascii c)] (decodeURIComponent l)).
  { destruct c as [[] [] [] [] [] [] [] []]; try reflexivity. contradiction. }
  by rewrite Hd, IH.
Qed.

