(* ===== verification/Store.v ===== *)
(** * The database and the repositories the service consults

    The rows of the tables the hotels module reads, and of the users,
    sessions and payments its tests create (one [Module] per Prisma
    model, with the fields the specification names), the database
    state [db], its well-formedness [wf_db] (the keys and foreign keys
    PostgreSQL enforces), the queries the module sends ([query]), and
    Prisma's [findFirst]/[findMany] as the primitive [prisma_query]: one
    query event, and a rejection when the database cannot be reached.

    The enrollment and ticket repositories are not under [src/]; they are
    modelled from the collaborator contracts of the specification (section
    6): [findWithAddressByUserId(userId) -> Enrollment | absent] and
    [findTicketByEnrollmentId(enrollmentId) -> Ticket-with-TicketType |
    absent], each one Prisma [findFirst] in table order. *)

From stdpp Require Import base list strings decidable.
From Stdlib Require Import ZArith Lia.
From S2P Require Import Prelude JsRuntime.

Local Open Scope Z_scope.
Local Open Scope drivent_scope.

(** ** Rows *)

Module User.
Record t : Type := mk { id : Z; email : string }.
End User.

Module Enrollment.
Record t : Type := mk { id : Z; userId : Z }.
End Enrollment.

Module Address.
Record t : Type := mk { id : Z; enrollmentId : Z }.
End Address.

Inductive TicketStatus : Type := RESERVED | PAID.

(** Prisma enums are strings at run time. *)
Definition TicketStatus_str (s : TicketStatus) : string :=
  match s with RESERVED => "RESERVED" | PAID => "PAID" end.

Module TicketType.
Record t : Type := mk { id : Z; price : Z; isRemote : bool; includesHotel : bool }.
End TicketType.

Module Ticket.
Record t : Type := mk { id : Z; ticketTypeId : Z; enrollmentId : Z; status : TicketStatus }.
End Ticket.

Module Hotel.
Record t : Type := mk { id : Z; name : string; image : string;
                          createdAt : string; updatedAt : string }.
End Hotel.

Module Room.
Record t : Type := mk { id : Z; name : string; capacity : Z; hotelId : Z;
                          createdAt : string; updatedAt : string }.
End Room.

Module Session.
Record t : Type := mk { id : Z; userId : Z; token : string }.
End Session.

(** The tests create a payment for each ticket; the module never reads
    the table. *)
Module Payment.
Record t : Type := mk { id : Z; ticketId : Z; value : Z }.
End Payment.

#[export] Instance User_eq_dec : EqDecision User.t.
Proof. solve_decision. Defined.
#[export] Instance Session_eq_dec : EqDecision Session.t.
Proof. solve_decision. Defined.
#[export] Instance Payment_eq_dec : EqDecision Payment.t.
Proof. solve_decision. Defined.

#[export] Instance TicketStatus_eq_dec : EqDecision TicketStatus.
Proof. solve_decision. Defined.
#[export] Instance Enrollment_eq_dec : EqDecision Enrollment.t.
Proof. solve_decision. Defined.
#[export] Instance Address_eq_dec : EqDecision Address.t.
Proof. solve_decision. Defined.
#[export] Instance TicketType_eq_dec : EqDecision TicketType.t.
Proof. solve_decision. Defined.
#[export] Instance Ticket_eq_dec : EqDecision Ticket.t.
Proof. solve_decision. Defined.
#[export] Instance Hotel_eq_dec : EqDecision Hotel.t.
Proof. solve_decision. Defined.
#[export] Instance Room_eq_dec : EqDecision Room.t.
Proof. solve_decision. Defined.

(** ** The database

    Each table is a list in the order PostgreSQL returns it without an
    [ORDER BY].  [connection] is [Some msg] when the database cannot be
    reached: then every query rejects with [msg]. *)
Record db : Type := DB {
  users : list User.t;
  enrollments : list Enrollment.t;
  addresses : list Address.t;
  ticketTypes : list TicketType.t;
  tickets : list Ticket.t;
  hotels : list Hotel.t;
  rooms : list Room.t;
  sessions : list Session.t;
  payments : list Payment.t;
  connection : option string
}.

(** Primary keys, the [@unique] columns, and foreign keys. *)
Definition wf_db (st : db) : Prop :=
  NoDup (map Enrollment.id st.(enrollments)) /\
  NoDup (map Enrollment.userId st.(enrollments)) /\
  NoDup (map TicketType.id st.(ticketTypes)) /\
  NoDup (map Ticket.id st.(tickets)) /\
  NoDup (map Ticket.enrollmentId st.(tickets)) /\
  NoDup (map Hotel.id st.(hotels)) /\
  NoDup (map Room.id st.(rooms)) /\
  Forall (fun a => Address.enrollmentId a ∈ map Enrollment.id st.(enrollments)) st.(addresses) /\
  Forall (fun t => Ticket.ticketTypeId t ∈ map TicketType.id st.(ticketTypes)) st.(tickets) /\
  Forall (fun t => Ticket.enrollmentId t ∈ map Enrollment.id st.(enrollments)) st.(tickets) /\
  Forall (fun r => Room.hotelId r ∈ map Hotel.id st.(hotels)) st.(rooms) /\
  NoDup (map User.id st.(users)) /\
  NoDup (map User.email st.(users)) /\
  NoDup (map Session.id st.(sessions)) /\
  NoDup (map Payment.id st.(payments)) /\
  Forall (fun e => Enrollment.userId e ∈ map User.id st.(users)) st.(enrollments) /\
  Forall (fun s => Session.userId s ∈ map User.id st.(users)) st.(sessions) /\
  Forall (fun p => Payment.ticketId p ∈ map Ticket.id st.(tickets)) st.(payments).

#[export] Instance wf_db_dec (st : db) : Decision (wf_db st).
Proof. unfold wf_db. solve_decision. Defined.

(** ** Queries *)

Inductive query : Type :=
| QEnrollmentByUser (userId : Z)
| QTicketByEnrollment (enrollmentId : Z)
| QHotelFindMany
| QHotelWithRooms (hotelId : Z)
| QSessionByToken (token : string).

#[export] Instance query_eq_dec : EqDecision query.
Proof. solve_decision. Defined.

(** The computations of this module: async code reading [db]. *)
Abbreviation M := (async db query).

(** One Prisma query: the event, then the rows [f] computes, or the
    rejection of an unreachable database. *)
Definition prisma_query {A} (q : query) (f : db -> exc A) : M A :=
  fun st => ([EvQuery q], match st.(connection) with
                          | Some msg => Throw (PrismaClientError msg)
                          | None => f st
                          end).

(** ** The enrollment repository (spec-modelled)

    [prisma.enrollment.findFirst({ where: { userId }, include: { Address: true } })]. *)
Record EnrollmentWithAddress : Type := {
  enrollment : Enrollment.t;
  Address : list Address.t
}.

Definition enrollment_of_user (st : db) (userId : Z) : option EnrollmentWithAddress :=
  match List.find (fun e => Enrollment.userId e =? userId) st.(enrollments) with
  | Some e => Some {| enrollment := e;
                      Address := List.filter (fun a => Address.enrollmentId a =? Enrollment.id e)
                                             st.(addresses) |}
  | None => None
  end.

Definition findWithAddressByUserId (userId : Z) : M (option EnrollmentWithAddress) :=
  prisma_query (QEnrollmentByUser userId) (fun st => Ok (enrollment_of_user st userId)).

(** ** The ticket repository (spec-modelled)

    [prisma.ticket.findFirst({ where: { enrollmentId }, include: { TicketType: true } })].
    [TicketType] is a required relation: Prisma fails the query when the
    referenced row is missing, which a well-formed database excludes. *)
Record TicketWithType : Type := {
  ticket : Ticket.t;
  TicketType : TicketType.t
}.

Definition inconsistent_ticket_type : string :=
  "Inconsistent query result: Field TicketType is required to return data, got `null` instead.".

Definition ticket_of_enrollment (st : db) (enrollmentId : Z) : exc (option TicketWithType) :=
  match List.find (fun t => Ticket.enrollmentId t =? enrollmentId) st.(tickets) with
  | None => Ok None
  | Some t =>
      match List.find (fun ty => TicketType.id ty =? Ticket.ticketTypeId t) st.(ticketTypes) with
      | Some ty => Ok (Some {| ticket := t; TicketType := ty |})
      | None => Throw (PrismaClientError inconsistent_ticket_type)
      end
  end.

Definition findTicketByEnrollmentId (enrollmentId : Z) : M (option TicketWithType) :=
  prisma_query (QTicketByEnrollment enrollmentId) (fun st => ticket_of_enrollment st enrollmentId).

(** ** Lemmas *)

(** A key that occurs in a table is found by [findFirst] on that key. *)
Lemma find_key_present {A} (key : A -> Z) (l : list A) (k : Z) :
  k ∈ map key l -> exists x, List.find (fun y => key y =? k) l = Some x /\ key x = k.
Proof.
  intros Hk. destruct (List.find (fun y => key y =? k) l) as [x|] eqn:Hf.
  - exists x. split; [done|]. apply find_first_In in Hf as [_ Hx]. by apply Z.eqb_eq.
  - exfalso. apply find_first_None in Hf. apply list_elem_of_fmap in Hk as (y & -> & Hy).
    rewrite Forall_forall in Hf. apply list_elem_of_In in Hy.
    specialize (Hf y Hy). simpl in Hf. by rewrite Z.eqb_refl in Hf.
Qed.

(** On a well-formed database the ticket query never fails on the
    required [TicketType] relation. *)
Lemma ticket_of_enrollment_wf (st : db) (enrollmentId : Z) :
  wf_db st -> is_ok (ticket_of_enrollment st enrollmentId) = true.
Proof.
  intros (_ & _ & _ & _ & _ & _ & _ & _ & Htt & _).
  unfold ticket_of_enrollment.
  destruct (List.find _ st.(tickets)) as [t|] eqn:Ht; [|done].
  apply find_first_In in Ht as [Hin _].
  rewrite Forall_forall in Htt. apply Htt, (find_key_present TicketType.id) in Hin as (ty & -> & _).
  done.
Qed.
