(* ===== verification/Scenarios.v ===== *)
(** * The databases of the integration tests

    [src/tests/integration/hotels.test.ts] arranges, before each request,
    a database built with the test factories and [prisma.*.create]:
    a user with an enrollment and address, a ticket type, a ticket, a
    payment, and sometimes a hotel and a room.  Each database below is
    the state one test builds.  [cleanDb] empties the tables but does not
    reset their id sequences, so the ids are those of one run (1 here);
    the theorems hold for any ids.  Timestamps are the database's
    defaults at creation.  The
    factories are not in the repository's sources: the ticket types they
    create are taken from their names ([createTicketRemote]: a remote
    type without hotel; [createTicketHotel]: an in-person type with
    hotel).  [createUser] makes a user with a fresh e-mail address,
    [generateValidToken] stores a session for it, [createPayment] pays
    the ticket's price; the module reads none of these three tables. *)

From stdpp Require Import base list strings decidable.
From Stdlib Require Import ZArith.
From S2P Require Import Prelude JsRuntime Store.

Local Open Scope Z_scope.

Definition ts : string := "2023-02-10T12:00:00.000Z".

Definition user1 : User.t := User.mk 1 "user1@drivent.test".
Definition enrollment1 : Enrollment.t := Enrollment.mk 1 1.
Definition address1 : Address.t := Address.mk 1 1.
Definition ticketTypeRemote : TicketType.t := TicketType.mk 1 250 true false.
Definition ticketTypeHotel : TicketType.t := TicketType.mk 1 600 false true.

Definition copacabana_image : string :=
  "https://www.googleadservices.com/pagead/aclk?sa=L&ai=DChcSEwj7g8rGvIH9AhWj5VwKHTq_AHIYABAKGgJjZQ&ohost=www.google.com&cid=CAESbeD2yizi9Sb-W5t04g-39E-rU6qVCfpD0uum_AGglBBoOfWay5b7yHiKHVJtzybeUZ1vvrLxTcixqim7Kb9BmnaiyNoL8NsNpxGJyO7sJptrUEbcvWw1VbOHQ2CScAsnLncNNrYn0E1wgIJjmak&sig=AOD64_3LZZlXs0mCoTb16P64WU3rgjO43Q&q=&ved=2ahUKEwixx8PGvIH9AhXIqZUCHRnwBqUQh78CegQIBRAB&adurl=".

Definition copacabana : Hotel.t := Hotel.mk 1 "Copacabana Pallace" copacabana_image ts ts.
Definition cobertura : Room.t := Room.mk 1 "Cobertura" 3 1 ts ts.

(** A user with a PAID ticket of the given type (lines 55-61, 82-86,
    111-117, 179-185 of the test). *)
Definition paid_user_db (ty : TicketType.t) (hs : list Hotel.t) (rs : list Room.t) : db :=
  {| users := [user1]; enrollments := [enrollment1]; addresses := [address1]; ticketTypes := [ty];
     tickets := [Ticket.mk 1 (TicketType.id ty) 1 PAID];
     hotels := hs; rooms := rs; sessions := []; payments := [Payment.mk 1 1 (TicketType.price ty)];
     connection := None |}.

(** "should respond with status 402 when is remote" *)
Definition db_remote : db := paid_user_db ticketTypeRemote [] [].

(** "should respond with status 404 when is no enroll": a ticket type,
    no enrollment. *)
Definition db_no_enroll : db :=
  {| users := [user1]; enrollments := []; addresses := []; ticketTypes := [ticketTypeRemote];
     tickets := []; hotels := []; rooms := []; sessions := []; payments := []; connection := None |}.

(** "should respond with status 200 and get:hotels": no hotel. *)
Definition db_no_hotels : db := paid_user_db ticketTypeHotel [] [].

(** "... a empty array for no break on server": the hotel
    "Copacabana Pallace". *)
Definition db_one_hotel : db := paid_user_db ticketTypeHotel [copacabana] [].

(** "should respond with status 200 and a hotel": the hotel and its room
    "Cobertura" of capacity 3. *)
Definition db_hotel_room : db := paid_user_db ticketTypeHotel [copacabana] [cobertura].

(** A RESERVED ticket for an in-person type with hotel. *)
Definition db_reserved : db :=
  {| users := [user1]; enrollments := [enrollment1]; addresses := [address1];
     ticketTypes := [ticketTypeHotel]; tickets := [Ticket.mk 1 1 1 RESERVED];
     hotels := [copacabana]; rooms := [cobertura]; sessions := []; payments := []; connection := None |}.

(** The session [generateValidToken] stores for user 1, and a database
    where it is stored. *)
Definition session1 : Session.t := Session.mk 1 1 "token1".

Definition with_session (st : db) (s : Session.t) : db :=
  {| users := st.(users); enrollments := st.(enrollments); addresses := st.(addresses);
     ticketTypes := st.(ticketTypes); tickets := st.(tickets); hotels := st.(hotels);
     rooms := st.(rooms); sessions := s :: st.(sessions); payments := st.(payments);
     connection := st.(connection) |}.

(** A JWT check that accepts the token signed for user 1 only. *)
Definition jwt_token1 (token : string) : option Z :=
  if bool_decide (token = "token1") then Some 1 else None.
