(* ===== verification/Writes.v ===== *)
(** * Writes: how the tests build the database

    The module itself never writes; the integration tests arrange each
    database with the factories and [prisma.hotel.create] /
    [prisma.room.create].  A write is one Prisma [create]: the row is
    appended to its table, or the call rejects when it breaks a primary
    key, a [@unique] column or a foreign key (Prisma's P2002 and P2003
    errors).  [reachable] is the step relation from the empty database;
    [wf_db] holds in every reachable database (rule induction), and the
    arrangements of the tests are runs of writes that reach the
    databases of [Scenarios.v]. *)

From stdpp Require Import base list strings decidable.
From Stdlib Require Import ZArith Lia.
From S2P Require Import Prelude JsRuntime Store Scenarios.

Local Open Scope Z_scope.

Inductive write : Type :=
| CreateUser (u : User.t)                              (** [createUser] *)
| CreateSession (s : Session.t)                        (** [generateValidToken] *)
| CreateEnrollment (e : Enrollment.t) (a : Address.t)  (** [createEnrollmentWithAddress] *)
| CreateTicketType (t : TicketType.t)                  (** [createTicketRemote], [createTicketHotel] *)
| CreateTicket (t : Ticket.t)                          (** [createTicket] *)
| CreatePayment (p : Payment.t)                        (** [createPayment] *)
| CreateHotel (h : Hotel.t)                            (** [prisma.hotel.create] *)
| CreateRoom (r : Room.t).                             (** [prisma.room.create] *)

Definition unique_violation : js_error := PrismaClientError "Unique constraint failed".
Definition foreign_key_violation : js_error := PrismaClientError "Foreign key constraint failed".

Definition fresh {A K} `{EqDecision K} (key : A -> K) (l : list A) (k : K) : bool :=
  bool_decide (k ∉ map key l).
Definition present {A K} `{EqDecision K} (key : A -> K) (l : list A) (k : K) : bool :=
  bool_decide (k ∈ map key l).

(** The database with one row appended to a table. *)
Definition add_row (st : db) (w : write) : db :=
  let '(DB us es as_ tts ts hs rs ss ps c) := st in
  match w with
  | CreateUser u => DB (us ++ [u]) es as_ tts ts hs rs ss ps c
  | CreateSession s => DB us es as_ tts ts hs rs (ss ++ [s]) ps c
  | CreateEnrollment e a => DB us (es ++ [e]) (as_ ++ [a]) tts ts hs rs ss ps c
  | CreateTicketType t => DB us es as_ (tts ++ [t]) ts hs rs ss ps c
  | CreateTicket t => DB us es as_ tts (ts ++ [t]) hs rs ss ps c
  | CreatePayment p => DB us es as_ tts ts hs rs ss (ps ++ [p]) c
  | CreateHotel h => DB us es as_ tts ts (hs ++ [h]) rs ss ps c
  | CreateRoom r => DB us es as_ tts ts hs (rs ++ [r]) ss ps c
  end.

(** The keys and [@unique] columns the new row must not repeat, and the
    foreign keys it must find, in the order of the columns. *)
Definition unique_ok (st : db) (w : write) : bool :=
  match w with
  | CreateUser u => fresh User.id st.(users) (User.id u) && fresh User.email st.(users) (User.email u)
  | CreateSession s => fresh Session.id st.(sessions) (Session.id s)
  | CreateEnrollment e _ =>
      fresh Enrollment.id st.(enrollments) (Enrollment.id e)
      && fresh Enrollment.userId st.(enrollments) (Enrollment.userId e)
  | CreateTicketType t => fresh TicketType.id st.(ticketTypes) (TicketType.id t)
  | CreateTicket t =>
      fresh Ticket.id st.(tickets) (Ticket.id t) && fresh Ticket.enrollmentId st.(tickets) (Ticket.enrollmentId t)
  | CreatePayment p => fresh Payment.id st.(payments) (Payment.id p)
  | CreateHotel h => fresh Hotel.id st.(hotels) (Hotel.id h)
  | CreateRoom r => fresh Room.id st.(rooms) (Room.id r)
  end.

Definition foreign_ok (st : db) (w : write) : bool :=
  match w with
  | CreateUser _ | CreateTicketType _ | CreateHotel _ => true
  | CreateSession s => present User.id st.(users) (Session.userId s)
  | CreateEnrollment e a =>
      present User.id st.(users) (Enrollment.userId e) && bool_decide (Address.enrollmentId a = Enrollment.id e)
  | CreateTicket t =>
      present TicketType.id st.(ticketTypes) (Ticket.ticketTypeId t)
      && present Enrollment.id st.(enrollments) (Ticket.enrollmentId t)
  | CreatePayment p => present Ticket.id st.(tickets) (Payment.ticketId p)
  | CreateRoom r => present Hotel.id st.(hotels) (Room.hotelId r)
  end.

(** One [create]: Prisma's P2002 (unique) or P2003 (foreign key)
    rejection, or the row appended. *)
Definition apply_write (st : db) (w : write) : exc db :=
  if negb (unique_ok st w) then Throw unique_violation
  else if negb (foreign_ok st w) then Throw foreign_key_violation
  else Ok (add_row st w).

Fixpoint run_writes (st : db) (ws : list write) : exc db :=
  match ws with
  | [] => Ok st
  | w :: ws' => match apply_write st w with Ok st' => run_writes st' ws' | Throw e => Throw e end
  end.

Definition empty_db : db :=
  {| users := []; enrollments := []; addresses := []; ticketTypes := []; tickets := []; hotels := [];
     rooms := []; sessions := []; payments := []; connection := None |}.

(** The databases the writes can build from the empty one. *)
Inductive reachable : db -> Prop :=
| reachable_empty : reachable empty_db
| reachable_step (st st' : db) (w : write) :
    reachable st -> apply_write st w = Ok st' -> reachable st'.

(** The arrangement the tests of a valid token share: [createUser],
    [generateValidToken], [createEnrollmentWithAddress], the ticket type,
    [createTicket(enrollment.id, ticketType.id, TicketStatus.PAID)] and
    [createPayment(ticket.id, ticketType.price)]. *)
Definition arrange_paid (ty : TicketType.t) : list write :=
  [CreateUser user1; CreateSession session1; CreateEnrollment enrollment1 address1;
   CreateTicketType ty; CreateTicket (Ticket.mk 1 (TicketType.id ty) (Enrollment.id enrollment1) PAID);
   CreatePayment (Payment.mk 1 1 (TicketType.price ty))].

(** The arrangement of "should respond with status 200 and a hotel":
    the paid in-person ticket with hotel, the hotel and its room. *)
Definition arrange_hotel_room : list write :=
  arrange_paid ticketTypeHotel ++ [CreateHotel copacabana; CreateRoom cobertura].

(** ** The invariant *)

Lemma NoDup_map_snoc {A B} (f : A -> B) (l : list A) (x : A) :
  NoDup (map f l) -> f x ∉ map f l -> NoDup (map f (l ++ [x])).
Proof.
  intros Hnd Hx. rewrite map_app. apply (proj2 (list.NoDup_app _ _)). split; [done|]. split.
  - intros y Hy Hy'. apply list_elem_of_singleton in Hy'. subst. contradiction.
  - apply NoDup_singleton.
Qed.

Lemma elem_of_map_snoc {A B} (f : A -> B) (l : list A) (x : A) (k : B) :
  k ∈ map f l -> k ∈ map f (l ++ [x]).
Proof. intros Hk. rewrite map_app. apply elem_of_app. by left. Qed.

Lemma elem_of_map_last {A B} (f : A -> B) (l : list A) (x : A) (k : B) :
  k = f x -> k ∈ map f (l ++ [x]).
Proof. intros ->. rewrite map_app. apply elem_of_app. right. by apply list_elem_of_singleton. Qed.

(** A foreign key into a table stays valid when the table grows. *)
Lemma fk_grow {A B K} (g : B -> K) (f : A -> K) (l : list A) (x : A) (L : list B) :
  Forall (fun b => g b ∈ map f l) L -> Forall (fun b => g b ∈ map f (l ++ [x])) L.
Proof. intros H. eapply Forall_impl; [|exact H]. intros b Hb. by apply elem_of_map_snoc. Qed.

(** A new row whose foreign key is valid keeps the key valid. *)
Lemma fk_snoc {A B K} (g : B -> K) (f : A -> K) (l : list A) (y : B) (L : list B) :
  Forall (fun b => g b ∈ map f l) L -> g y ∈ map f l -> Forall (fun b => g b ∈ map f l) (L ++ [y]).
Proof. intros H Hy. apply Forall_app. split; [done|]. by apply Forall_singleton. Qed.

#[export] Hint Resolve NoDup_map_snoc elem_of_map_snoc fk_grow fk_snoc : drivent.

Lemma fresh_spec {A K} `{EqDecision K} (key : A -> K) (l : list A) (k : K) :
  fresh key l k = true -> k ∉ map key l.
Proof. apply bool_decide_eq_true_1. Qed.

Lemma present_spec {A K} `{EqDecision K} (key : A -> K) (l : list A) (k : K) :
  present key l k = true -> k ∈ map key l.
Proof. apply bool_decide_eq_true_1. Qed.

(** Turns the tests of [apply_write] that passed into hypotheses. *)
Ltac passed_tests :=
  repeat match goal with
  | H : (if negb ?b then _ else _) = Ok _ |- _ =>
      let E := fresh "E" in destruct b eqn:E; simpl in H; [|discriminate]
  | E : _ && _ = true |- _ => apply andb_true_iff in E as [? ?]
  | E : fresh _ _ _ = true |- _ => apply fresh_spec in E
  | E : present _ _ _ = true |- _ => apply present_spec in E
  | E : bool_decide _ = true |- _ => apply bool_decide_eq_true_1 in E
  end.

Lemma apply_write_wf (st st' : db) (w : write) :
  wf_db st -> apply_write st w = Ok st' -> wf_db st'.
Proof.
  intros Hwf Hw. unfold apply_write in Hw. passed_tests. injection Hw as <-.
  destruct st as [us es as_ tts ts hs rs ss ps c].
  destruct Hwf as (H1 & H2 & H3 & H4 & H5 & H6 & H7 & H8 & H9 & H10 & H11 & H12 & H13 & H14 & H15 &
                   H16 & H17 & H18).
  destruct w as [u|s|e a|t|t|p|h|r]; simpl in *; passed_tests;
    unfold wf_db; simpl; split_and!; eauto with drivent.
  apply fk_snoc; [by apply fk_grow | by apply elem_of_map_last].
Qed.

(** A run of writes from a reachable database ends in a reachable one. *)
Lemma run_writes_reachable (st st' : db) (ws : list write) :
  reachable st -> run_writes st ws = Ok st' -> reachable st'.
Proof.
  revert st. induction ws as [|w ws IH]; simpl; intros st Hr Hrun.
  - by injection Hrun as <-.
  - destruct (apply_write st w) as [st1|e] eqn:Hw; [|discriminate].
    exact (IH st1 (reachable_step st st1 w Hr Hw) Hrun).
Qed.

(** Every database the writes build from the empty one is
    well-formed: keys unique, [@unique] columns unique, every foreign key
    present (rule induction on [reachable]). *)
Lemma reachable_wf (st : db) : reachable st -> wf_db st.
Proof.
  induction 1 as [|st st' w _ IH Hw].
  - unfold wf_db, empty_db; simpl. split_and!; constructor.
  - exact (apply_write_wf st st' w IH Hw).
Qed.

