(* ===== verification/HotelsRepository.v ===== *)
(** * The hotels repository ([src/repositories/hotels-repository/index.ts])

    [getHotels] reads every hotel ([prisma.hotel.findMany()]);
    [getRoomsHotelId] reads the first hotel whose id is the argument,
    with its rooms ([prisma.hotel.findFirst({ where: { id: hotelId },
    include: { Rooms: true } })]), or [null].  Both [await] the query and
    return its data unchanged.

    The argument of [getRoomsHotelId] is a JavaScript number: Prisma
    validates it as an [Int] before any query is sent, and rejects the
    call when it is not an integer of the column's range ([prisma_int]).
    The rooms of the included relation come in table order. *)

From stdpp Require Import base list strings decidable.
From Stdlib Require Import ZArith Lia.
From S2P Require Import Prelude JsRuntime JsNumber Store Scenarios.

Local Open Scope Z_scope.
Local Open Scope drivent_scope.

(** A hotel with its [Rooms] relation. *)
Record HotelWithRooms : Type := {
  hotel : Hotel.t;
  Rooms : list Room.t
}.

(** ** Prisma's part of the two calls *)

Definition rooms_of_hotel (st : db) (hotelId : Z) : list Room.t :=
  List.filter (fun r => Room.hotelId r =? hotelId) st.(rooms).

Definition hotel_with_rooms (st : db) (hotelId : Z) : option HotelWithRooms :=
  match List.find (fun h => Hotel.id h =? hotelId) st.(hotels) with
  | Some h => Some {| hotel := h; Rooms := rooms_of_hotel st (Hotel.id h) |}
  | None => None
  end.

Definition invalid_int_argument : string :=
  "Argument id: Invalid value provided. Expected Int, provided Float.".

(** [prisma.hotel.findFirst({ where: { id }, include: { Rooms: true } })]:
    argument validation, then the query. *)
Definition hotel_findFirst_with_rooms (id : number) : M (option HotelWithRooms) :=
  match prisma_int id with
  | None => throw (PrismaClientError invalid_int_argument)
  | Some n => prisma_query (QHotelWithRooms n) (fun st => Ok (hotel_with_rooms st n))
  end.

(** [prisma.hotel.findMany()] *)
Definition hotel_findMany : M (list Hotel.t) :=
  prisma_query QHotelFindMany (fun st => Ok st.(hotels)).

(** ** The repository ([const hotelsRepository = { getHotels, getRoomsHotelId }]) *)

Module hotelsRepository.

(** [async function getHotels() { const data = await prisma.hotel.findMany(); return data }] *)
Definition getHotels : M (list Hotel.t) :=
  data <- hotel_findMany ;;
  ret data.

(** [async function getRoomsHotelId(hotelId: number) { const data = await
    prisma.hotel.findFirst(...); return data }] *)
Definition getRoomsHotelId (hotelId : number) : M (option HotelWithRooms) :=
  data <- hotel_findFirst_with_rooms hotelId ;;
  ret data.

End hotelsRepository.

(** [const hotelsRepository = { getHotels, getRoomsHotelId }]: the object
    the service imports and calls the methods of. *)
Class HotelsRepositoryApi : Type := {
  repo_getHotels : M (list Hotel.t);
  repo_getRoomsHotelId : number -> M (option HotelWithRooms)
}.

#[export] Instance hotelsRepository_api : HotelsRepositoryApi :=
  {| repo_getHotels := hotelsRepository.getHotels;
     repo_getRoomsHotelId := hotelsRepository.getRoomsHotelId |}.

(** What the service relies on of the repository object, on a reachable
    database: the specification's contract of section 4.2 ([getHotels]
    gives every hotel in table order, [getRoomsByHotelId] the hotel of
    the id with its rooms, or absence), with Prisma's validation of the
    [Int] argument. *)
Class HotelsRepositoryLaws `{!HotelsRepositoryApi} : Prop := {
  repo_getHotels_ok (st : db) :
    st.(connection) = None -> snd (repo_getHotels st) = Ok st.(hotels);
  repo_getRoomsHotelId_ok (st : db) (hotelId : number) (n : Z) :
    st.(connection) = None -> prisma_int hotelId = Some n ->
    snd (repo_getRoomsHotelId hotelId st) = Ok (hotel_with_rooms st n);
  repo_getRoomsHotelId_invalid (st : db) (hotelId : number) :
    prisma_int hotelId = None ->
    snd (repo_getRoomsHotelId hotelId st) = Throw (PrismaClientError invalid_int_argument)
}.

(** ** JSON of the rows (the shapes of the specification, section 6) *)

#[export] Instance ToJSON_Hotel : ToJSON Hotel.t := fun h =>
  JObj [("id", JNum (Hotel.id h)); ("name", JStr (Hotel.name h)); ("image", JStr (Hotel.image h));
        ("createdAt", JStr (Hotel.createdAt h)); ("updatedAt", JStr (Hotel.updatedAt h))].

#[export] Instance ToJSON_Room : ToJSON Room.t := fun r =>
  JObj [("id", JNum (Room.id r)); ("name", JStr (Room.name r)); ("capacity", JNum (Room.capacity r));
        ("hotelId", JNum (Room.hotelId r)); ("createdAt", JStr (Room.createdAt r));
        ("updatedAt", JStr (Room.updatedAt r))].

#[export] Instance ToJSON_HotelWithRooms : ToJSON HotelWithRooms := fun hw =>
  let h := hotel hw in
  JObj [("id", JNum (Hotel.id h)); ("name", JStr (Hotel.name h)); ("image", JStr (Hotel.image h));
        ("createdAt", JStr (Hotel.createdAt h)); ("updatedAt", JStr (Hotel.updatedAt h));
        ("Rooms", to_json (Rooms hw))].

(** ** Properties *)

(** [hotelsRepository.getHotels] sends one [findMany] and returns every hotel, in table
    order, or the rejection of an unreachable database. *)
Lemma getHotels_run (st : db) :
  hotelsRepository.getHotels st =
  ([EvQuery QHotelFindMany],
   match st.(connection) with Some msg => Throw (PrismaClientError msg) | None => Ok st.(hotels) end).
Proof.
  unfold hotelsRepository.getHotels, bind, async_bind, hotel_findMany, prisma_query.
  destruct st.(connection); simpl; by rewrite ?app_nil_r.
Qed.

(** Run of [hotelsRepository.getRoomsHotelId] on a valid [Int] argument. *)
Lemma getRoomsHotelId_run (st : db) (hotelId : number) (n : Z) :
  prisma_int hotelId = Some n ->
  hotelsRepository.getRoomsHotelId hotelId st =
  ([EvQuery (QHotelWithRooms n)],
   match st.(connection) with
   | Some msg => Throw (PrismaClientError msg)
   | None => Ok (hotel_with_rooms st n)
   end).
Proof.
  intros Hn. unfold hotelsRepository.getRoomsHotelId, bind, async_bind, hotel_findFirst_with_rooms, prisma_query.
  rewrite Hn. destruct st.(connection); simpl; by rewrite ?app_nil_r.
Qed.

(** The run of [hotelsRepository.getRoomsHotelId] on any number: Prisma's
    validation of the [Int] argument, then the query. *)
Lemma getRoomsHotelId_run_any (st : db) (hotelId : number) :
  hotelsRepository.getRoomsHotelId hotelId st =
  match prisma_int hotelId with
  | Some n => ([EvQuery (QHotelWithRooms n)],
               match st.(connection) with
               | Some msg => Throw (PrismaClientError msg)
               | None => Ok (hotel_with_rooms st n)
               end)
  | None => ([], Throw (PrismaClientError invalid_int_argument))
  end.
Proof.
  destruct (prisma_int hotelId) as [n|] eqn:Hn; [by apply getRoomsHotelId_run|].
  unfold hotelsRepository.getRoomsHotelId, bind, async_bind, hotel_findFirst_with_rooms. by rewrite Hn.
Qed.

(** C15: On a well-formed reachable database, asking for the id of a
    stored hotel returns, after one query, that hotel together with a
    list of rooms that holds exactly the rooms of the table whose
    [hotelId] is the hotel's id, in table order. *)
Theorem getRoomsHotelId_found (st : db) (hotelId : number) (h : Hotel.t) :
  wf_db st -> st.(connection) = None -> In h st.(hotels) ->
  prisma_int hotelId = Some (Hotel.id h) ->
  exists rs,
    hotelsRepository.getRoomsHotelId hotelId st =
      ([EvQuery (QHotelWithRooms (Hotel.id h))], Ok (Some {| hotel := h; Rooms := rs |})) /\
    (forall r, In r rs <-> In r st.(rooms) /\ Room.hotelId r = Hotel.id h) /\
    rs `sublist_of` st.(rooms).
Proof.
  intros Hwf Hc Hh Hn. exists (rooms_of_hotel st (Hotel.id h)). split_and!.
  - rewrite (getRoomsHotelId_run _ _ _ Hn), Hc.
    unfold hotel_with_rooms. destruct Hwf as (_ & _ & _ & _ & _ & Hnd & _).
    by rewrite (find_unique_key Hotel.id _ h Hnd Hh).
  - intros r. unfold rooms_of_hotel. by rewrite filter_In, Z.eqb_eq.
  - unfold rooms_of_hotel. induction st.(rooms) as [|r rs IH]; simpl; [done|].
    destruct (Room.hotelId r =? Hotel.id h); [by apply sublist_skip | by apply sublist_cons].
Qed.

(** C16: When no hotel has the id, the result is [null] (a fulfilled promise),
    not an error. *)
Theorem getRoomsHotelId_absent (st : db) (hotelId : number) (n : Z) :
  st.(connection) = None -> prisma_int hotelId = Some n ->
  Forall (fun h => Hotel.id h <> n) st.(hotels) ->
  hotelsRepository.getRoomsHotelId hotelId st = ([EvQuery (QHotelWithRooms n)], Ok None).
Proof.
  intros Hc Hn Hnone. rewrite (getRoomsHotelId_run _ _ _ Hn), Hc.
  unfold hotel_with_rooms.
  replace (List.find _ _) with (@None Hotel.t); [done|].
  symmetry. apply find_first_None. eapply Forall_impl; [|exact Hnone].
  intros h Hh. simpl. by apply Z.eqb_neq.
Qed.

(** A path parameter that is not an [Int] ([NaN], a fraction, an
    infinity, or beyond 32 bits) makes the call reject before any query
    is sent. *)
Theorem getRoomsHotelId_invalid (st : db) (hotelId : number) :
  prisma_int hotelId = None ->
  hotelsRepository.getRoomsHotelId hotelId st = ([], Throw (PrismaClientError invalid_int_argument)).
Proof.
  intros Hn. unfold hotelsRepository.getRoomsHotelId, bind, async_bind, hotel_findFirst_with_rooms.
  by rewrite Hn.
Qed.

(** The repository object meets the laws the service relies on. *)
#[export] Instance hotelsRepository_laws : HotelsRepositoryLaws.
Proof.
  split; cbn [repo_getHotels repo_getRoomsHotelId hotelsRepository_api].
  - intros st Hc. by rewrite getHotels_run, Hc.
  - intros st hotelId n Hc Hn. by rewrite (getRoomsHotelId_run _ _ _ Hn), Hc.
  - intros st hotelId Hn. by rewrite getRoomsHotelId_invalid.
Qed.

(** ** Witnesses *)

Lemma getRoomsHotelId_found_witness :
  let st := paid_user_db ticketTypeHotel [copacabana; Hotel.mk 2 "Pousada" copacabana_image ts ts]
                         [cobertura; Room.mk 2 "Suite" 2 2 ts ts] in
  exists rs,
    hotelsRepository.getRoomsHotelId (StringToNumber "1") st =
      ([EvQuery (QHotelWithRooms 1)], Ok (Some {| hotel := copacabana; Rooms := rs |})) /\
    (forall r, In r rs <-> In r st.(rooms) /\ Room.hotelId r = Hotel.id copacabana) /\
    rs `sublist_of` st.(rooms).
Proof.
  intros st.
  assert (Hwf : wf_db st) by (apply (bool_decide_unpack _); vm_compute; exact I).
  apply (getRoomsHotelId_found st _ copacabana Hwf eq_refl); [simpl; left; reflexivity | vm_compute; reflexivity].
Defined.

Lemma getRoomsHotelId_absent_witness :
  prisma_int (StringToNumber "2") = Some 2 /\
  hotelsRepository.getRoomsHotelId (StringToNumber "2") db_one_hotel = ([EvQuery (QHotelWithRooms 2)], Ok None).
Proof.
  assert (Hn : prisma_int (StringToNumber "2") = Some 2) by (vm_compute; reflexivity).
  split; [exact Hn|].
  apply (getRoomsHotelId_absent db_one_hotel _ 2 eq_refl Hn).
  vm_compute. constructor; [discriminate | constructor].
Defined.
