(* ===== verification/HotelsService.v ===== *)
(** * The hotels service ([src/services/hotels-service/index.ts])

    [getHotels] and [getHotelId] are translated line by line, with the
    same sequence of calls, tests and early exits:

    - [const enroll = enrollmentRepository.findWithAddressByUserId(userId)]
      has no [await]: [enroll] is a Promise object, so [!enroll] is
      always false and the [notFoundError] of that branch is dead code;
    - [(await enroll).id] reads [id] of the settled enrollment: [null]
      when the user has none, and reading a property of [null] throws a
      [TypeError];
    - the ticket test is JavaScript's short-circuit [||] over
      [!ticket], [isRemote], [!includesHotel], [status === "RESERVED"].

    Beside the code stand the specification's contract for the two
    operations (section 4.1: [listHotels_spec], [getHotelRooms_spec],
    defined from [eligible], the invariant of section 3) and the single
    guard the specification's design notes propose ([eligibility_guard]).
    The theorems relate them: the code is the guard followed by one
    repository read; it refines the contract whenever the user has an
    enrollment; without one it rejects with a [TypeError] where the
    contract says [NotFoundError]. *)

From stdpp Require Import base list strings decidable.
From Stdlib Require Import ZArith Lia.
From S2P Require Import Prelude JsRuntime JsNumber Store Scenarios HotelsRepository.

Local Open Scope Z_scope.
Local Open Scope drivent_scope.

(** ** The code *)

Module hotelsService.

Section code.

(** The imported [hotelsRepository] object. *)
Context {repo : HotelsRepositoryApi}.

(** [async function getHotels(userId: number)] *)
Definition getHotels (userId : Z) : M (list Hotel.t) :=
  let enroll := Promise (findWithAddressByUserId userId) in
  if negb (truthy enroll) then throw NotFoundError else
  e <- await enroll ;;
  enrollmentId <- read_prop "id" (fun e => Enrollment.id (enrollment e)) e ;;
  ticket <- findTicketByEnrollmentId enrollmentId ;;
  if (match ticket with
      | None => true
      | Some t => TicketType.isRemote (TicketType t)
                  || negb (TicketType.includesHotel (TicketType t))
                  || String.eqb (TicketStatus_str (Ticket.status (Store.ticket t))) "RESERVED"
      end)
  then throw NotFoundError else
  hotels <- repo_getHotels ;;
  ret hotels.

(** [async function getHotelId(userId: number, hotelId: number)] *)
Definition getHotelId (userId : Z) (hotelId : number) : M (option HotelWithRooms) :=
  let enroll := Promise (findWithAddressByUserId userId) in
  if negb (truthy enroll) then throw NotFoundError else
  e <- await enroll ;;
  enrollmentId <- read_prop "id" (fun e => Enrollment.id (enrollment e)) e ;;
  ticket <- findTicketByEnrollmentId enrollmentId ;;
  if (match ticket with
      | None => true
      | Some t => TicketType.isRemote (TicketType t)
                  || negb (TicketType.includesHotel (TicketType t))
                  || String.eqb (TicketStatus_str (Ticket.status (Store.ticket t))) "RESERVED"
      end)
  then throw NotFoundError else
  hotels <- repo_getRoomsHotelId hotelId ;;
  ret hotels.

End code.

End hotelsService.

(** [const hotelsService = { getHotels, getHotelId }]: the interface the
    controller programs against. *)
Class HotelsServiceApi : Type := {
  svc_getHotels : Z -> M (list Hotel.t);
  svc_getHotelId : Z -> number -> M (option HotelWithRooms)
}.

#[export] Instance hotelsService_api : HotelsServiceApi :=
  {| svc_getHotels := hotelsService.getHotels; svc_getHotelId := hotelsService.getHotelId |}.

(** ** The specification *)

(** Section 3: a ticket qualifies when its type is not remote, includes
    the hotel, and the ticket is not [RESERVED]. *)
Definition ticket_qualifies (t : TicketWithType) : bool :=
  negb (TicketType.isRemote (TicketType t)) && TicketType.includesHotel (TicketType t) &&
  bool_decide (Ticket.status (Store.ticket t) <> RESERVED).

Definition eligible (st : db) (userId : Z) : bool :=
  match enrollment_of_user st userId with
  | None => false
  | Some e =>
      match ticket_of_enrollment st (Enrollment.id (enrollment e)) with
      | Ok (Some t) => ticket_qualifies t
      | _ => false
      end
  end.

(** Section 4.1, on a reachable database: [NotFound] for an ineligible
    user, the hotels (resp. the hotel with its rooms, or [null]) for an
    eligible one. *)
Definition listHotels_spec (st : db) (userId : Z) : exc (list Hotel.t) :=
  if eligible st userId then Ok st.(hotels) else Throw NotFoundError.

Definition getHotelRooms_spec (st : db) (userId : Z) (hotelId : number)
  : exc (option HotelWithRooms) :=
  if eligible st userId then
    match prisma_int hotelId with
    | Some n => Ok (hotel_with_rooms st n)
    | None => Throw (PrismaClientError invalid_int_argument)
    end
  else Throw NotFoundError.

(** Section 9: the gate as one guard shared by both operations. *)
Definition eligibility_guard (userId : Z) : M unit :=
  e <- findWithAddressByUserId userId ;;
  enrollmentId <- read_prop "id" (fun e => Enrollment.id (enrollment e)) e ;;
  ticket <- findTicketByEnrollmentId enrollmentId ;;
  match ticket with
  | Some t => if ticket_qualifies t then ret tt else throw NotFoundError
  | None => throw NotFoundError
  end.

(** The error the runtime throws for [(await enroll).id] when [enroll]
    settles to [null]. *)
Definition null_id_error : js_error := TypeError "Cannot read properties of null (reading 'id')".

(** The queries the gate sends. *)
Definition gate_query (userId : Z) (ev : event query) : Prop :=
  ev = EvQuery (QEnrollmentByUser userId) \/ exists eid, ev = EvQuery (QTicketByEnrollment eid).

(** ** The gate *)

(** The inline test of the code is the negation of [ticket_qualifies]. *)
Lemma gate_test_qualifies (t : TicketWithType) :
  TicketType.isRemote (TicketType t) || negb (TicketType.includesHotel (TicketType t))
  || String.eqb (TicketStatus_str (Ticket.status (Store.ticket t))) "RESERVED"
  = negb (ticket_qualifies t).
Proof.
  unfold ticket_qualifies.
  destruct (TicketType.isRemote _), (TicketType.includesHotel _), (Ticket.status _); done.
Qed.

#[export] Hint Rewrite gate_test_qualifies : drivent_rw.

(** Runs the gate of a service operation on a database [st]: unfolds the
    lookups and splits on the connection, the enrollment and the ticket. *)
Ltac run_gate st :=
  unfold findWithAddressByUserId, findTicketByEnrollmentId, prisma_query, read_prop, await,
    bind, async_bind, ret, async_ret, throw, truthy, Truthy_promise; simpl;
  destruct st.(connection); [done|];
  destruct (enrollment_of_user st _); [|done]; simpl;
  destruct (ticket_of_enrollment _ _) as [[?t|]|?err]; simpl; [|done|done];
  autorewrite with drivent_rw.

(** The run of the guard, branch by branch. *)
Lemma eligibility_guard_run (st : db) (userId : Z) :
  eligibility_guard userId st =
  match st.(connection) with
  | Some msg => ([EvQuery (QEnrollmentByUser userId)], Throw (PrismaClientError msg))
  | None =>
      match enrollment_of_user st userId with
      | None => ([EvQuery (QEnrollmentByUser userId)], Throw null_id_error)
      | Some e =>
          ([EvQuery (QEnrollmentByUser userId);
            EvQuery (QTicketByEnrollment (Enrollment.id (enrollment e)))],
           match ticket_of_enrollment st (Enrollment.id (enrollment e)) with
           | Throw err => Throw err
           | Ok (Some t) => if ticket_qualifies t then Ok tt else Throw NotFoundError
           | Ok None => Throw NotFoundError
           end)
      end
  end.
Proof. unfold eligibility_guard. run_gate st. by destruct (ticket_qualifies t). Qed.

Section AnyRepository.

(** The repository object the service is given. *)
Context {repo : HotelsRepositoryApi}.

(** Both operations of the code are [eligibility_guard] followed by their
    repository read. *)
Lemma getHotels_guard (userId : Z) :
  async_equiv (hotelsService.getHotels userId) (eligibility_guard userId ;; repo_getHotels).
Proof.
  intros st. unfold hotelsService.getHotels, eligibility_guard. run_gate st.
  destruct (ticket_qualifies t); simpl; [|done].
  destruct (repo_getHotels st) as [t3 [a|err]]; simpl; by rewrite ?app_nil_r.
Qed.

Lemma getHotelId_guard (userId : Z) (hotelId : number) :
  async_equiv (hotelsService.getHotelId userId hotelId) (eligibility_guard userId ;; repo_getRoomsHotelId hotelId).
Proof.
  intros st. unfold hotelsService.getHotelId, eligibility_guard. run_gate st.
  destruct (ticket_qualifies t); simpl; [|done].
  destruct (repo_getRoomsHotelId hotelId st) as [t3 [a|err]]; simpl; by rewrite ?app_nil_r.
Qed.

(** On a reachable well-formed database, for a user with an enrollment,
    the guard passes exactly for eligible users and rejects the others
    with [NotFoundError]. *)
Lemma guard_outcome (st : db) (userId : Z) :
  wf_db st -> st.(connection) = None -> is_Some (enrollment_of_user st userId) ->
  snd (eligibility_guard userId st) = if eligible st userId then Ok tt else Throw NotFoundError.
Proof.
  intros Hwf Hc [e He]. rewrite eligibility_guard_run, Hc, He. unfold eligible. rewrite He. simpl.
  pose proof (ticket_of_enrollment_wf st (Enrollment.id (enrollment e)) Hwf) as Hok.
  destruct (ticket_of_enrollment _ _) as [[t|]|err]; [|done|done].
  by destruct (ticket_qualifies t).
Qed.

(** ** Refinement of the specification *)

(** The laws of section 4.2 that the refinement rests on. *)
Context {repo_laws : HotelsRepositoryLaws}.

(** C3: for every repository object that meets the laws of section 4.2,
    when the user has an enrollment, [hotelsService.getHotels] settles
    exactly as the specification's [listHotels]: every hotel for an
    eligible user, [NotFoundError] otherwise. *)
Theorem getHotels_refines_listHotels (st : db) (userId : Z) :
  wf_db st -> st.(connection) = None -> is_Some (enrollment_of_user st userId) ->
  snd (hotelsService.getHotels userId st) = listHotels_spec st userId.
Proof.
  intros Hwf Hc He. rewrite getHotels_guard, async_bind_snd, guard_outcome by done.
  unfold listHotels_spec. destruct (eligible st userId); [|done].
  by apply repo_getHotels_ok.
Qed.

(** C4: the same, for every lawful repository object, for
    [hotelsService.getHotelId] and the specification's
    [getHotelRooms]: the hotel with its rooms, [null] when no hotel has
    the id (a success, not an error), or [NotFoundError]. *)
Theorem getHotelId_refines_getHotelRooms (st : db) (userId : Z) (hotelId : number) :
  wf_db st -> st.(connection) = None -> is_Some (enrollment_of_user st userId) ->
  snd (hotelsService.getHotelId userId hotelId st) = getHotelRooms_spec st userId hotelId.
Proof.
  intros Hwf Hc He. rewrite getHotelId_guard, async_bind_snd, guard_outcome by done.
  unfold getHotelRooms_spec. destruct (eligible st userId); [|done].
  destruct (prisma_int hotelId) as [n|] eqn:Hn.
  - by apply repo_getRoomsHotelId_ok.
  - by apply repo_getRoomsHotelId_invalid.
Qed.

(** When the guard rejects, both operations end as the guard does. *)
Lemma guard_throw_run (st : db) (userId : Z) (hotelId : number) (t : list (event query)) (err : js_error) :
  eligibility_guard userId st = (t, Throw err) ->
  hotelsService.getHotels userId st = (t, Throw err) /\ hotelsService.getHotelId userId hotelId st = (t, Throw err).
Proof.
  intros Hg. rewrite getHotels_guard, getHotelId_guard. unfold bind, async_bind. by rewrite Hg.
Qed.

(** The run of both operations for a user without an enrollment. *)
Lemma no_enrollment_run (st : db) (userId : Z) (hotelId : number) :
  st.(connection) = None -> enrollment_of_user st userId = None ->
  hotelsService.getHotels userId st = ([EvQuery (QEnrollmentByUser userId)], Throw null_id_error) /\
  hotelsService.getHotelId userId hotelId st = ([EvQuery (QEnrollmentByUser userId)], Throw null_id_error).
Proof. intros Hc He. apply guard_throw_run. by rewrite eligibility_guard_run, Hc, He. Qed.

(** On an unreachable database both operations reject with the error of
    their first query. *)
Lemma unreachable_run (st : db) (userId : Z) (hotelId : number) (msg : string) :
  st.(connection) = Some msg ->
  hotelsService.getHotels userId st = ([EvQuery (QEnrollmentByUser userId)], Throw (PrismaClientError msg)) /\
  hotelsService.getHotelId userId hotelId st =
    ([EvQuery (QEnrollmentByUser userId)], Throw (PrismaClientError msg)).
Proof. intros Hc. apply guard_throw_run. by rewrite eligibility_guard_run, Hc. Qed.

(** C5: a user without an enrollment is rejected with the runtime's
    [TypeError] on [(await enroll).id], after the single enrollment
    query, by both operations, where the specification's contract
    rejects with [NotFoundError]. *)
Theorem no_enrollment_TypeError (st : db) (userId : Z) (hotelId : number) :
  st.(connection) = None -> enrollment_of_user st userId = None ->
  hotelsService.getHotels userId st = ([EvQuery (QEnrollmentByUser userId)], Throw null_id_error) /\
  hotelsService.getHotelId userId hotelId st = ([EvQuery (QEnrollmentByUser userId)], Throw null_id_error) /\
  listHotels_spec st userId = Throw NotFoundError /\
  getHotelRooms_spec st userId hotelId = Throw NotFoundError.
Proof.
  intros Hc He. destruct (no_enrollment_run st userId hotelId Hc He) as [H1 H2].
  unfold listHotels_spec, getHotelRooms_spec, eligible. by rewrite He.
Qed.

(** ** Error branches, safety and ordering *)

Lemma guard_trace (st : db) (userId : Z) :
  Forall (gate_query userId) (fst (eligibility_guard userId st)).
Proof.
  unfold gate_query. rewrite eligibility_guard_run.
  destruct st.(connection); [|destruct (enrollment_of_user st userId)]; simpl;
    repeat (constructor 2; [solve [left; done | right; eauto] |]); constructor.
Qed.

Lemma guard_passes (st : db) (userId : Z) :
  is_ok (snd (eligibility_guard userId st)) = true ->
  st.(connection) = None /\ eligible st userId = true.
Proof.
  rewrite eligibility_guard_run. unfold eligible.
  destruct st.(connection); [done|]. destruct (enrollment_of_user st userId); [|done]. simpl.
  destruct (ticket_of_enrollment _ _) as [[t|]|err]; [|done|done].
  by destruct (ticket_qualifies t).
Qed.

Lemma guard_eligible_run (st : db) (userId : Z) :
  st.(connection) = None -> eligible st userId = true ->
  exists e, enrollment_of_user st userId = Some e /\
    eligibility_guard userId st =
    ([EvQuery (QEnrollmentByUser userId); EvQuery (QTicketByEnrollment (Enrollment.id (enrollment e)))],
     Ok tt).
Proof.
  intros Hc. rewrite eligibility_guard_run, Hc. unfold eligible.
  destruct (enrollment_of_user st userId) as [e|]; [|done]. intros Hel. exists e. split; [done|].
  destruct (ticket_of_enrollment _ _) as [[t|]|err]; [|done|done]. by rewrite Hel.
Qed.

(** A sequence after the guard reads nothing more when the guard
    rejects. *)
Lemma guard_then_trace {A} (st : db) (userId : Z) (k : M A) :
  eligible st userId = false ->
  fst ((eligibility_guard userId ;; k) st) = fst (eligibility_guard userId st).
Proof.
  intros Hel. rewrite async_bind_fst.
  destruct (snd (eligibility_guard userId st)) eqn:Hs; [|apply app_nil_r].
  exfalso. destruct (guard_passes st userId) as [_ H]; [by rewrite Hs | congruence].
Qed.

(** On a reachable database the guard passes exactly for eligible users. *)
Lemma guard_fulfils (st : db) (userId : Z) :
  st.(connection) = None -> is_ok (snd (eligibility_guard userId st)) = eligible st userId.
Proof.
  intros Hc. destruct (eligible st userId) eqn:Hel.
  - by destruct (guard_eligible_run st userId Hc Hel) as (e & _ & ->).
  - apply not_true_is_false. intros Hok. destruct (guard_passes st userId Hok). congruence.
Qed.

(** With a lawful repository, [getHotels] fulfils exactly for eligible
    users, and [getHotelId] for eligible users and an [Int] id. *)
Lemma getHotels_fulfils (st : db) (userId : Z) :
  st.(connection) = None -> is_ok (snd (hotelsService.getHotels userId st)) = eligible st userId.
Proof.
  intros Hc. rewrite getHotels_guard, async_bind_snd, <- guard_fulfils by done.
  destruct (snd (eligibility_guard userId st)); [|done]. by rewrite repo_getHotels_ok.
Qed.

Lemma getHotelId_fulfils (st : db) (userId : Z) (hotelId : number) :
  st.(connection) = None ->
  is_ok (snd (hotelsService.getHotelId userId hotelId st)) =
  eligible st userId && bool_decide (is_Some (prisma_int hotelId)).
Proof.
  intros Hc. rewrite getHotelId_guard, async_bind_snd, <- guard_fulfils by done.
  destruct (snd (eligibility_guard userId st)); [|done]. simpl.
  destruct (prisma_int hotelId) as [n|] eqn:Hn.
  - by rewrite (repo_getRoomsHotelId_ok _ _ n).
  - by rewrite repo_getRoomsHotelId_invalid.
Qed.

(** C6: every ineligibility branch of the ticket test (no ticket, a remote
    ticket type, a type without hotel, a [RESERVED] ticket) rejects both
    operations with [NotFoundError]. *)
Theorem ineligible_ticket_NotFound (st : db) (userId : Z) (hotelId : number)
    (e : EnrollmentWithAddress) (ot : option TicketWithType) :
  st.(connection) = None -> enrollment_of_user st userId = Some e ->
  ticket_of_enrollment st (Enrollment.id (enrollment e)) = Ok ot ->
  (ot = None \/ exists t, ot = Some t /\
     (TicketType.isRemote (TicketType t) = true \/ TicketType.includesHotel (TicketType t) = false \/
      Ticket.status (Store.ticket t) = RESERVED)) ->
  snd (hotelsService.getHotels userId st) = Throw NotFoundError /\
  snd (hotelsService.getHotelId userId hotelId st) = Throw NotFoundError.
Proof.
  intros Hc He Ht Hbad.
  assert (Hg : snd (eligibility_guard userId st) = Throw NotFoundError).
  { rewrite eligibility_guard_run, Hc, He, Ht. simpl.
    destruct Hbad as [->|(t & -> & Hb)]; [done|].
    unfold ticket_qualifies. destruct Hb as [->|[->| ->]]; by rewrite ?andb_false_r. }
  by rewrite getHotels_guard, getHotelId_guard, !async_bind_snd, Hg.
Qed.

(** C7: an ineligible user never causes a hotel read: the only queries
    either operation sends are the gate's enrollment and ticket
    lookups. *)
Theorem ineligible_no_hotel_read (st : db) (userId : Z) (hotelId : number) :
  eligible st userId = false ->
  Forall (gate_query userId) (fst (hotelsService.getHotels userId st)) /\
  Forall (gate_query userId) (fst (hotelsService.getHotelId userId hotelId st)).
Proof.
  intros Hel. rewrite getHotels_guard, getHotelId_guard, !guard_then_trace by done.
  split; apply guard_trace.
Qed.

(** C10: the gate written twice in the code is one guard: each operation
    is [eligibility_guard] followed by its single repository read, on
    every database (the dead [!enroll] branch changes nothing). *)
Theorem gate_is_shared_guard (userId : Z) (hotelId : number) :
  async_equiv (hotelsService.getHotels userId) (eligibility_guard userId ;; repo_getHotels) /\
  async_equiv (hotelsService.getHotelId userId hotelId) (eligibility_guard userId ;; repo_getRoomsHotelId hotelId).
Proof. split; [apply getHotels_guard | apply getHotelId_guard]. Qed.

End AnyRepository.

(** C11: for an eligible user on a reachable database, [hotelsService.getHotels] sends
    exactly three queries, in this order: the enrollment of the user,
    the ticket of that enrollment, all hotels; and returns every hotel. *)
Theorem getHotels_eligible_run (st : db) (userId : Z) :
  st.(connection) = None -> eligible st userId = true ->
  exists e, enrollment_of_user st userId = Some e /\
    hotelsService.getHotels userId st =
    ([EvQuery (QEnrollmentByUser userId); EvQuery (QTicketByEnrollment (Enrollment.id (enrollment e)));
      EvQuery QHotelFindMany], Ok st.(hotels)).
Proof.
  intros Hc Hel. destruct (guard_eligible_run st userId Hc Hel) as (e & He & Hg).
  exists e. split; [done|]. rewrite getHotels_guard. unfold bind, async_bind.
  by rewrite Hg, getHotels_run, Hc.
Qed.

(** ** Witnesses on the databases of the integration tests *)

Lemma getHotels_refines_listHotels_witness :
  wf_db db_one_hotel /\ db_one_hotel.(connection) = None /\ is_Some (enrollment_of_user db_one_hotel 1) /\
  snd (hotelsService.getHotels 1 db_one_hotel) = listHotels_spec db_one_hotel 1 /\
  listHotels_spec db_one_hotel 1 = Ok [copacabana].
Proof.
  assert (Hwf : wf_db db_one_hotel) by (apply (bool_decide_unpack _); vm_compute; exact I).
  assert (He : is_Some (enrollment_of_user db_one_hotel 1)) by (vm_compute; eexists; reflexivity).
  split; [exact Hwf|]. split; [reflexivity|]. split; [exact He|]. split.
  - exact (getHotels_refines_listHotels db_one_hotel 1 Hwf eq_refl He).
  - vm_compute. reflexivity.
Defined.

Lemma getHotelId_refines_getHotelRooms_witness :
  wf_db db_hotel_room /\ db_hotel_room.(connection) = None /\
  is_Some (enrollment_of_user db_hotel_room 1) /\
  snd (hotelsService.getHotelId 1 (StringToNumber "1") db_hotel_room) =
    getHotelRooms_spec db_hotel_room 1 (StringToNumber "1") /\
  getHotelRooms_spec db_hotel_room 1 (StringToNumber "1") =
    Ok (Some {| hotel := copacabana; Rooms := [cobertura] |}).
Proof.
  assert (Hwf : wf_db db_hotel_room) by (apply (bool_decide_unpack _); vm_compute; exact I).
  assert (He : is_Some (enrollment_of_user db_hotel_room 1)) by (vm_compute; eexists; reflexivity).
  split; [exact Hwf|]. split; [reflexivity|]. split; [exact He|]. split.
  - exact (getHotelId_refines_getHotelRooms db_hotel_room 1 _ Hwf eq_refl He).
  - vm_compute. reflexivity.
Defined.

Lemma no_enrollment_TypeError_witness :
  db_no_enroll.(connection) = None /\ enrollment_of_user db_no_enroll 1 = None /\
  hotelsService.getHotels 1 db_no_enroll = ([EvQuery (QEnrollmentByUser 1)], Throw null_id_error) /\
  hotelsService.getHotelId 1 NaN db_no_enroll = ([EvQuery (QEnrollmentByUser 1)], Throw null_id_error) /\
  listHotels_spec db_no_enroll 1 = Throw NotFoundError /\
  getHotelRooms_spec db_no_enroll 1 NaN = Throw NotFoundError.
Proof.
  split; [reflexivity|]. split; [vm_compute; reflexivity|].
  apply (no_enrollment_TypeError db_no_enroll 1 NaN); vm_compute; reflexivity.
Defined.

Lemma ineligible_ticket_NotFound_witness :
  let e := {| enrollment := enrollment1; Address := [address1] |} in
  let t := {| ticket := Ticket.mk 1 1 1 PAID; TicketType := ticketTypeRemote |} in
  db_remote.(connection) = None /\ enrollment_of_user db_remote 1 = Some e /\
  ticket_of_enrollment db_remote (Enrollment.id (enrollment e)) = Ok (Some t) /\
  snd (hotelsService.getHotels 1 db_remote) = Throw NotFoundError /\
  snd (hotelsService.getHotelId 1 (StringToNumber "1") db_remote) = Throw NotFoundError.
Proof.
  intros e t.
  assert (He : enrollment_of_user db_remote 1 = Some e) by (vm_compute; reflexivity).
  assert (Ht : ticket_of_enrollment db_remote (Enrollment.id (enrollment e)) = Ok (Some t))
    by (vm_compute; reflexivity).
  split; [reflexivity|]. split; [exact He|]. split; [exact Ht|].
  apply (ineligible_ticket_NotFound db_remote 1 (StringToNumber "1") e (Some t) eq_refl He Ht).
  right. exists t. split; [reflexivity|]. left. vm_compute. reflexivity.
Defined.

Lemma ineligible_no_hotel_read_witness :
  eligible db_reserved 1 = false /\
  Forall (gate_query 1) (fst (hotelsService.getHotels 1 db_reserved)) /\
  Forall (gate_query 1) (fst (hotelsService.getHotelId 1 (StringToNumber "1") db_reserved)).
Proof.
  assert (Hel : eligible db_reserved 1 = false) by (vm_compute; reflexivity).
  split; [exact Hel|]. exact (ineligible_no_hotel_read db_reserved 1 _ Hel).
Defined.

Lemma getHotels_eligible_run_witness :
  db_one_hotel.(connection) = None /\ eligible db_one_hotel 1 = true /\
  exists e, enrollment_of_user db_one_hotel 1 = Some e /\
    hotelsService.getHotels 1 db_one_hotel =
    ([EvQuery (QEnrollmentByUser 1); EvQuery (QTicketByEnrollment (Enrollment.id (enrollment e)));
      EvQuery QHotelFindMany], Ok db_one_hotel.(hotels)).
Proof.
  assert (Hel : eligible db_one_hotel 1 = true) by (vm_compute; reflexivity).
  split; [reflexivity|]. split; [exact Hel|].
  exact (getHotels_eligible_run db_one_hotel 1 eq_refl Hel).
Defined.
