(* ===== verification/HotelsController.v ===== *)
(** * The hotels controller ([src/controllers/hotels-controller.ts])

    Both handlers call the async service inside [try] WITHOUT [await]:
    the call only creates a Promise ([call_async]), which cannot throw,
    and [res.status(httpStatus.OK).send(hotels)] serialises that Promise
    ([{}]) at once.  The service's queries and its outcome come later,
    as deferred jobs; a rejection of the service's promise is handled by
    nobody.  The [catch] branch ([console.log(error.message)] and
    [res.sendStatus(httpStatus.NOT_FOUND)]) is modelled as written and
    shown unreachable.

    The handlers are written against the service interface
    [HotelsServiceApi] ([hotelsService]); the first theorems hold for
    every implementation of it. *)

From stdpp Require Import base list strings decidable.
From Stdlib Require Import ZArith Lia.
From S2P Require Import Prelude JsRuntime JsNumber Store Scenarios HotelsRepository HotelsService.

Local Open Scope Z_scope.
Local Open Scope drivent_scope.

(** [AuthenticatedRequest]: the [userId] the authentication middleware
    stored, and the route parameters, JavaScript strings (their UTF-16
    code units) as Express decoded them. *)
Record AuthenticatedRequest : Type := {
  userId : Z;
  params : list (string * list Z)
}.

(** [req.params.name]: a string, or [undefined]. *)
Definition param (req : AuthenticatedRequest) (name : string) : option (list Z) :=
  match List.find (fun kv => bool_decide (kv.1 = name)) (params req) with
  | Some kv => Some kv.2
  | None => None
  end.

Abbreviation H := (handler db query).

Definition OK : Z := 200.
Definition NOT_FOUND : Z := 404.

(** [src/controllers/hotels-controller.ts] *)
Module hotelsController.
Section Controller.
  Context `{S : HotelsServiceApi}.

  (** [export async function getHotels(req, res)]; [Number(userId)] of
      the number [userId] is [userId]. *)
Definition getHotels (req : AuthenticatedRequest) : H unit :=
    let userId := userId req in
    try_catch
      (hotels <- call_async (svc_getHotels userId) ;;
       send OK hotels)
      (fun error =>
         log_error error ;;
         sendStatus NOT_FOUND).

  (** [export async function getHotelId(req, res)] *)
Definition getHotelId (req : AuthenticatedRequest) : H unit :=
    let userId := userId req in
    let hotelId := param req "hotelId" in
    try_catch
      (hotels <- call_async (svc_getHotelId userId (Number_of_param hotelId)) ;;
       send OK hotels)
      (fun error =>
         log_error error ;;
         sendStatus NOT_FOUND).
End Controller.
End hotelsController.
Import hotelsController.

(** The response both handlers send, whatever the service does. *)
Definition ok_empty_object : event query := EvRespond (Response OK (BodyJson (JObj []))).

(** The request of user 1 to [/hotels] and to [/hotels/1]. *)
Definition req_hotels : AuthenticatedRequest := {| userId := 1; params := [] |}.
Definition req_hotel1 : AuthenticatedRequest := {| userId := 1; params := [("hotelId", js_str "1")] |}.

(** ** Properties for every service *)

Section AnyService.
  Context `{S : HotelsServiceApi}.

  (** The run of [GET /hotels]. *)
Lemma getHotels_handler_run (req : AuthenticatedRequest) (st : db) :
    run_handler (getHotels req) st =
    (ok_empty_object :: fst (svc_getHotels (userId req) st)
                     ++ unhandled (snd (svc_getHotels (userId req) st)), Ok tt).
  Proof.
    unfold run_handler, getHotels, try_catch, call_async, send, bind, handler_bind.
    destruct (svc_getHotels (userId req) st) as [t x]. simpl. by rewrite app_nil_r.
  Qed.

  (** The run of [GET /hotels/:hotelId]. *)
Lemma getHotelId_handler_run (req : AuthenticatedRequest) (st : db) :
    let call := svc_getHotelId (userId req) (Number_of_param (param req "hotelId")) in
    run_handler (getHotelId req) st =
    (ok_empty_object :: fst (call st) ++ unhandled (snd (call st)), Ok tt).
  Proof.
    unfold run_handler, getHotelId, try_catch, call_async, send, bind, handler_bind.
    destruct (svc_getHotelId _ _ st) as [t x]. simpl. by rewrite app_nil_r.
  Qed.

  (** C1: for every implementation of the service, both handlers answer
      [200] with the body [{}] (a serialised Promise) before anything
      else happens; the service's queries follow as deferred jobs, and a
      rejection of the service's promise ends the run unhandled.  The
      [catch] branch never runs. *)
Theorem handlers_respond_before_service (req : AuthenticatedRequest) (st : db) :
    run_handler (getHotels req) st =
    (ok_empty_object :: fst (svc_getHotels (userId req) st)
                     ++ unhandled (snd (svc_getHotels (userId req) st)), Ok tt) /\
    run_handler (getHotelId req) st =
    (ok_empty_object :: fst (svc_getHotelId (userId req) (Number_of_param (param req "hotelId")) st)
       ++ unhandled (snd (svc_getHotelId (userId req) (Number_of_param (param req "hotelId")) st)),
     Ok tt).
  Proof. split; [apply getHotels_handler_run | apply getHotelId_handler_run]. Qed.
End AnyService.

(** ** Properties with the service of the repository *)

(** The service only ever emits queries. *)
Lemma service_events_queries (u : Z) (hotelId : number) (st : db) :
  Forall (fun ev => is_query ev = true) (fst (hotelsService.getHotels u st)) /\
  Forall (fun ev => is_query ev = true) (fst (hotelsService.getHotelId u hotelId st)).
Proof.
  assert (Hg : Forall (fun ev => is_query ev = true) (fst (eligibility_guard u st))).
  { eapply Forall_impl; [|apply guard_trace]. by intros ev [->|[eid ->]]. }
  rewrite HotelsService.getHotels_guard, getHotelId_guard, !async_bind_fst.
  split; apply Forall_app; (split; [done|]); destruct (snd (eligibility_guard u st)); try done.
  - rewrite getHotels_run. by repeat constructor.
  - destruct (prisma_int hotelId) eqn:Hn.
    + rewrite (getRoomsHotelId_run _ _ _ Hn). by repeat constructor.
    + by rewrite getRoomsHotelId_invalid.
Qed.

(** Each handler writes exactly one response, [200 {}], and returns. *)
Lemma handlers_answer_once (req : AuthenticatedRequest) (st : db) :
  answers_once (fun r => r = Response OK (BodyJson (JObj []))) (getHotels req) st /\
  answers_once (fun r => r = Response OK (BodyJson (JObj []))) (getHotelId req) st.
Proof.
  destruct (service_events_queries (userId req) (Number_of_param (param req "hotelId")) st) as [Hq1 Hq2].
  split; exists (Response OK (BodyJson (JObj [])));
    rewrite ?getHotels_handler_run, ?getHotelId_handler_run; simpl;
    rewrite responses_app, responses_unhandled, responses_queries by done; done.
Qed.

(** C2: [GET /hotels] never answers [404], nor the hotels: on every
    database and for every user its only response is [200] with [{}],
    where the specification requires the hotel array or [404]. *)
Theorem getHotels_only_response (req : AuthenticatedRequest) (st : db) (r : response) :
  In (EvRespond r) (fst (run_handler (getHotels req) st)) -> r = Response OK (BodyJson (JObj [])).
Proof.
  rewrite getHotels_handler_run. simpl. intros [[= <-]|Hin]; [done|].
  destruct (service_events_queries (userId req) NaN st) as [Hq _].
  apply in_app_or in Hin as [Hin|Hin].
  - rewrite Forall_forall in Hq. by specialize (Hq _ Hin).
  - destruct (snd _); simpl in Hin; [done|]. by destruct Hin.
Qed.

(** C12: a user without an enrollment gets [200 {}], then the enrollment
    query runs, and the service's [TypeError] is an unhandled rejection;
    the specification's [404] is never sent. *)
Theorem getHotels_request_no_enrollment (req : AuthenticatedRequest) (st : db) :
  st.(connection) = None -> enrollment_of_user st (userId req) = None ->
  run_handler (getHotels req) st =
  ([ok_empty_object; EvQuery (QEnrollmentByUser (userId req)); EvUnhandledRejection null_id_error],
   Ok tt).
Proof.
  intros Hc He. rewrite getHotels_handler_run. simpl.
  destruct (no_enrollment_run st (userId req) NaN Hc He) as [-> _]. done.
Qed.

(** C13: an enrolled user whose ticket does not qualify gets [200 {}],
    then the enrollment and ticket queries run, and the service's
    [NotFoundError] is an unhandled rejection. *)
Theorem getHotels_request_ineligible (req : AuthenticatedRequest) (st : db) (e : EnrollmentWithAddress) :
  wf_db st -> st.(connection) = None -> enrollment_of_user st (userId req) = Some e ->
  eligible st (userId req) = false ->
  run_handler (getHotels req) st =
  ([ok_empty_object; EvQuery (QEnrollmentByUser (userId req));
    EvQuery (QTicketByEnrollment (Enrollment.id (enrollment e)));
    EvUnhandledRejection NotFoundError], Ok tt).
Proof.
  intros Hwf Hc He Hel. rewrite getHotels_handler_run. simpl.
  assert (Hs : snd (eligibility_guard (userId req) st) = Throw NotFoundError).
  { rewrite guard_outcome by (done || by rewrite He). by rewrite Hel. }
  assert (Ht : fst (eligibility_guard (userId req) st) =
               [EvQuery (QEnrollmentByUser (userId req));
                EvQuery (QTicketByEnrollment (Enrollment.id (enrollment e)))])
    by by rewrite eligibility_guard_run, Hc, He.
  rewrite HotelsService.getHotels_guard, async_bind_fst, async_bind_snd, Hs, Ht. done.
Qed.

(** C21: the [:hotelId] of an eligible user's request, the decimal form
    of an integer [n] (as the tests build it), reaches Prisma exactly
    when [n] fits a 32-bit [Int]: then the hotel query for [n] is sent;
    beyond either bound Prisma's validation rejects the call before any
    query, and the rejection is unhandled.  The response is [200 {}]
    either way. *)
Theorem getHotelId_int32_bound (req : AuthenticatedRequest) (st : db) (n : Z) (e : EnrollmentWithAddress) :
  param req "hotelId" = Some (js_str (String_of_int n)) -> - 2 ^ 53 <= n <= 2 ^ 53 ->
  st.(connection) = None -> eligible st (userId req) = true ->
  enrollment_of_user st (userId req) = Some e ->
  run_handler (getHotelId req) st =
  (ok_empty_object :: EvQuery (QEnrollmentByUser (userId req)) ::
     EvQuery (QTicketByEnrollment (Enrollment.id (enrollment e))) ::
     (if decide (int32_min <= n <= int32_max) then [EvQuery (QHotelWithRooms n)]
      else [EvUnhandledRejection (PrismaClientError invalid_int_argument)]), Ok tt).
Proof.
  intros Hp Hn Hc Hel He. rewrite getHotelId_handler_run, Hp. simpl Number_of_param. cbn [svc_getHotelId hotelsService_api].
  rewrite StringToNumber16_units, StringToNumber_String_of_int by done.
  destruct (guard_eligible_run st (userId req) Hc Hel) as (e' & He' & Hg).
  rewrite He in He'. injection He' as <-.
  rewrite getHotelId_guard. unfold bind, async_bind. rewrite Hg, getRoomsHotelId_run_any, prisma_int_of_Z_range.
  case_decide; simpl; by rewrite ?Hc.
Qed.

(** C22: when the database cannot be reached, both handlers still answer
    [200 {}]; the first query then rejects, and the rejection is
    unhandled, where the specification (section 7) has the handler catch
    it and answer [404]. *)
Theorem unreachable_database_unhandled (req : AuthenticatedRequest) (st : db) (msg : string) :
  st.(connection) = Some msg ->
  run_handler (getHotels req) st =
    ([ok_empty_object; EvQuery (QEnrollmentByUser (userId req)); EvUnhandledRejection (PrismaClientError msg)],
     Ok tt) /\
  run_handler (getHotelId req) st =
    ([ok_empty_object; EvQuery (QEnrollmentByUser (userId req)); EvUnhandledRejection (PrismaClientError msg)],
     Ok tt).
Proof.
  intros Hc. destruct (unreachable_run st (userId req) (Number_of_param (param req "hotelId")) msg Hc)
    as [H1 H2].
  rewrite getHotels_handler_run, getHotelId_handler_run. simpl. by rewrite H1, H2.
Qed.

(** ** Witnesses *)

Lemma getHotels_only_response_witness :
  In (EvRespond (Response OK (BodyJson (JObj [])))) (fst (run_handler (getHotels req_hotels) db_one_hotel)) /\
  Response OK (BodyJson (JObj [])) = Response OK (BodyJson (JObj [])).
Proof.
  assert (Hin : In (EvRespond (Response OK (BodyJson (JObj []))))
                   (fst (run_handler (getHotels req_hotels) db_one_hotel)))
    by (vm_compute; left; reflexivity).
  split; [exact Hin|]. exact (getHotels_only_response req_hotels db_one_hotel _ Hin).
Defined.

Lemma getHotels_request_no_enrollment_witness :
  db_no_enroll.(connection) = None /\ enrollment_of_user db_no_enroll (userId req_hotels) = None /\
  run_handler (getHotels req_hotels) db_no_enroll =
  ([ok_empty_object; EvQuery (QEnrollmentByUser 1); EvUnhandledRejection null_id_error], Ok tt).
Proof.
  split; [reflexivity|]. split; [vm_compute; reflexivity|].
  apply (getHotels_request_no_enrollment req_hotels db_no_enroll); vm_compute; reflexivity.
Defined.

Lemma getHotels_request_ineligible_witness :
  let e := {| enrollment := enrollment1; Address := [address1] |} in
  wf_db db_remote /\ eligible db_remote 1 = false /\
  run_handler (getHotels req_hotels) db_remote =
  ([ok_empty_object; EvQuery (QEnrollmentByUser 1); EvQuery (QTicketByEnrollment 1);
    EvUnhandledRejection NotFoundError], Ok tt).
Proof.
  intros e.
  assert (Hwf : wf_db db_remote) by (apply (bool_decide_unpack _); vm_compute; exact I).
  assert (Hel : eligible db_remote 1 = false) by (vm_compute; reflexivity).
  split; [exact Hwf|]. split; [exact Hel|].
  apply (getHotels_request_ineligible req_hotels db_remote e Hwf eq_refl); vm_compute; reflexivity.
Defined.

(** The path [/hotels/2147483648] of user 1, eligible on [db_hotel_room]:
    one past the largest [Int]. *)
Lemma getHotelId_int32_bound_witness :
  run_handler (getHotelId {| userId := 1; params := [("hotelId", js_str "2147483648")] |}) db_hotel_room =
  ([ok_empty_object; EvQuery (QEnrollmentByUser 1); EvQuery (QTicketByEnrollment 1);
   EvUnhandledRejection (PrismaClientError invalid_int_argument)], Ok tt).
Proof.
  rewrite (getHotelId_int32_bound _ db_hotel_room (2 ^ 31) {| enrollment := enrollment1; Address := [address1] |});
    first [vm_compute; reflexivity | lia].
Defined.

Lemma unreachable_database_unhandled_witness :
  let st := {| users := []; enrollments := []; addresses := []; ticketTypes := []; tickets := [];
               hotels := []; rooms := []; sessions := []; payments := [];
               connection := Some "Can't reach database server" |} in
  run_handler (getHotels req_hotels) st =
    ([ok_empty_object; EvQuery (QEnrollmentByUser 1);
      EvUnhandledRejection (PrismaClientError "Can't reach database server")], Ok tt) /\
  run_handler (getHotelId req_hotel1) st =
    ([ok_empty_object; EvQuery (QEnrollmentByUser 1);
      EvUnhandledRejection (PrismaClientError "Can't reach database server")], Ok tt).
Proof.
  intros st. split.
  - exact (proj1 (unreachable_database_unhandled req_hotels st _ eq_refl)).
  - exact (proj2 (unreachable_database_unhandled req_hotel1 st _ eq_refl)).
Defined.
