(* ===== verification/HotelsRouter.v ===== *)
(** * The hotels router ([src/routers/hotels-router.ts])

    [hotelsRouter.get('/', authenticateToken, getHotels)] and
    [hotelsRouter.get('/:hotelId', authenticateToken, getHotelId)],
    mounted at [/hotels] (section 6 of the specification; the mount is
    in [app.ts], not under [src/]).

    Express matches the path after the mount point, ignoring case in the
    mount segment and allowing one trailing slash; [:hotelId] is one
    non-empty path segment, decoded by [decodeURIComponent]
    ([UriDecode.v]) when the layer matches, whatever the method.  A
    segment that does not decode is an error passed to the final
    handler, a [400] (its body is the status message in production, the
    error's stack otherwise; the model writes the status message).  Other
    paths and methods fall through to the final handler, a [404].

    [authenticateToken] is not under [src/]: it is modelled from the
    specification (sections 4.3 and 6): an [Authorization] header
    [Bearer <token>], a token the JWT verification accepts (the
    verification function, which depends on the server's secret, is a
    parameter [jwt_verify] of the section), and a session stored for the
    token (one query of the sessions table); anything else is answered
    [401].  The middleware awaits the session query and then calls the
    next handler with [req.userId] set. *)

From stdpp Require Import base list strings decidable.
From Stdlib Require Import ZArith Lia Ascii String.
From S2P Require Import Prelude JsRuntime JsNumber UriDecode Store Scenarios HotelsRepository HotelsService HotelsController.

Local Open Scope Z_scope.
Local Open Scope drivent_scope.

Inductive method : Type := GET | POST | PUT | DELETE.

Record HttpRequest : Type := {
  req_method : method;
  req_path : string;
  authorization : option string
}.

Definition UNAUTHORIZED : Z := 401.
Definition BAD_REQUEST : Z := 400.

(** ** Route matching *)

(** The pieces of a string between the separator [c]. *)
Fixpoint split_on (c : ascii) (l : list ascii) : list (list ascii) :=
  match l with
  | [] => [[]]
  | x :: l' =>
      if bool_decide (x = c) then [] :: split_on c l'
      else match split_on c l' with
           | w :: ws => (x :: w) :: ws
           | [] => [[x]]
           end
  end.

Definition ascii_lower (x : ascii) : ascii :=
  let n := Ascii.nat_of_ascii x in
  if (65 <=? n)%nat && (n <=? 90)%nat then Ascii.ascii_of_nat (n + 32) else x.

Definition mount_segment (seg : list ascii) : bool :=
  bool_decide (map ascii_lower seg = list_ascii_of_string "hotels").

(** The token of an [Authorization: Bearer <token>] header. *)
Definition bearer_token (header : string) : option string :=
  match list_ascii_of_string header with
  | "B" :: "e" :: "a" :: "r" :: "e" :: "r" :: " " :: ((_ :: _) as tok) => Some (string_of_list_ascii tok)
  | _ => None
  end%char.

Inductive route : Type :=
| RouteHotels
| RouteHotelId (hotelId : list Z)  (** [req.params.hotelId], decoded *)
| RouteBadParam                    (** the [URIError] of [decode_param] *)
| NoRoute.

(** The routes whose handlers run. *)
Definition handled_route (r : route) : bool :=
  match r with RouteHotels | RouteHotelId _ => true | _ => false end.

(** The route a path of the application reaches. *)
Definition match_route (path : string) : route :=
  match split_on "/"%char (list_ascii_of_string path) with
  | [] :: m :: rest =>
      if mount_segment m then
        match rest with
        | [] | [[]] => RouteHotels
        | [(_ :: _) as seg] | [(_ :: _) as seg; []] =>
            match decodeURIComponent seg with
            | Some hotelId => RouteHotelId hotelId
            | None => RouteBadParam
            end
        | _ => NoRoute
        end
      else NoRoute
  | _ => NoRoute
  end.

Section Router.
  (** The JWT verification with the server's secret: the [userId] of
      the payload of a valid token. *)
  Context (jwt_verify : string -> option Z).

  (** The session of a token ([prisma.session.findFirst({ where: { token } })]). *)
Definition findSession (token : string) : M (option Session.t) :=
    prisma_query (QSessionByToken token)
      (fun st => Ok (List.find (fun s => bool_decide (Session.token s = token)) st.(sessions))).

  (** [authenticateToken(req, res, next)] (spec-modelled); a failing
      session query is answered [401] too. *)
Definition authenticateToken (req : HttpRequest) (next : Z -> H unit) : H unit :=
    match authorization req with
    | None => sendStatus UNAUTHORIZED
    | Some header =>
        match bearer_token header with
        | None => sendStatus UNAUTHORIZED
        | Some token =>
            match jwt_verify token with
            | None => sendStatus UNAUTHORIZED
            | Some uid =>
                try_catch
                  (session <- await_in_handler (findSession token) ;;
                   match session with
                   | None => sendStatus UNAUTHORIZED
                   | Some _ => next uid
                   end)
                  (fun _ => sendStatus UNAUTHORIZED)
            end
        end
    end.

  (** The application on the hotels paths: the router's two routes. *)
Definition hotelsRouter (req : HttpRequest) : H unit :=
    match req_method req, match_route (req_path req) with
    | GET, RouteHotels =>
        authenticateToken req (fun uid => hotelsController.getHotels {| userId := uid; params := [] |})
    | GET, RouteHotelId hotelId =>
        authenticateToken req
          (fun uid => hotelsController.getHotelId {| userId := uid; params := [("hotelId", hotelId)] |})
    | _, RouteBadParam => sendStatus BAD_REQUEST
    | _, _ => sendStatus NOT_FOUND
    end.
End Router.

(** Requests of the witnesses: a forged token, and the token of user 1. *)
Definition req_forged : HttpRequest := {| req_method := GET; req_path := "/hotels";
                                          authorization := Some "Bearer forged" |}.
Definition req_token1 (path : string) : HttpRequest :=
  {| req_method := GET; req_path := path; authorization := Some "Bearer token1" |}.

(** ** Lemmas *)

Lemma list_ascii_of_string_app (s1 s2 : string) :
  list_ascii_of_string (s1 ++ s2) = list_ascii_of_string s1 ++ list_ascii_of_string s2.
Proof. induction s1 as [|c s1 IH]; simpl; [done|]. by rewrite IH. Qed.

Lemma string_of_list_ascii_app (l1 l2 : list ascii) :
  string_of_list_ascii (l1 ++ l2) = (string_of_list_ascii l1 ++ string_of_list_ascii l2)%string.
Proof. induction l1 as [|c l1 IH]; simpl; [done|]. by rewrite IH. Qed.

Lemma param_hotelId (uid : Z) (h : list Z) :
  param {| userId := uid; params := [("hotelId", h)] |} "hotelId" = Some h.
Proof. reflexivity. Qed.

Lemma split_on_no_sep (c : ascii) (l : list ascii) :
  Forall (fun x => x <> c) l -> split_on c l = [l].
Proof.
  induction 1 as [|x l Hx _ IH]; [done|]. simpl.
  rewrite bool_decide_false by done. by rewrite IH.
Qed.

(** The printed id of a hotel is one path segment without escapes. *)
Lemma String_of_int_segment (n : Z) :
  0 <= n -> exists seg, list_ascii_of_string (String_of_int n) = seg /\ seg <> [] /\
    Forall (fun x => x <> "/"%char /\ x <> "%"%char) seg.
Proof.
  intros Hn. unfold String_of_int. rewrite list_ascii_of_string_of_list_ascii.
  destruct (Z.eqb_spec n 0) as [->|Hz]; [eexists; split; [done|]; split; [done|by repeat constructor]|].
  destruct (Z.ltb_spec n 0); [lia|].
  destruct (decimal_digits_spec n) as (ds & -> & Hne & Hf & _); [lia|].
  eexists. split; [done|]. split; [by destruct ds|].
  apply Forall_map. eapply Forall_impl; [|exact Hf]. intros d Hd.
  destruct (digit_char_spec d Hd) as [Hv _]. split; intros Heq; rewrite Heq in Hv; discriminate.
Qed.

(** A path [/hotels/<seg>] with one segment reaches the [:hotelId]
    route with the segment decoded, or fails to decode. *)
Lemma match_route_segment (seg : list ascii) :
  seg <> [] -> Forall (fun x => x <> "/"%char) seg ->
  match_route ("/hotels/" ++ string_of_list_ascii seg) =
  match decodeURIComponent seg with Some us => RouteHotelId us | None => RouteBadParam end.
Proof.
  intros Hne Hf. unfold match_route.
  rewrite list_ascii_of_string_app, list_ascii_of_string_of_list_ascii. simpl.
  rewrite (split_on_no_sep _ seg Hf). by destruct seg.
Qed.

Lemma match_route_hotel_id (n : Z) :
  0 <= n -> match_route ("/hotels/" ++ String_of_int n) = RouteHotelId (js_str (String_of_int n)).
Proof.
  intros Hn. destruct (String_of_int_segment n Hn) as (seg & Hseg & Hne & Hf).
  rewrite <- (string_of_list_ascii_of_string (String_of_int n)), Hseg.
  rewrite match_route_segment by (done || (eapply Forall_impl; [|exact Hf]; by intros x [])).
  unfold js_str. rewrite list_ascii_of_string_of_list_ascii.
  rewrite decodeURIComponent_no_escape by (eapply Forall_impl; [|exact Hf]; by intros y []).
  reflexivity.
Qed.

Section RouterLemmas.
  Context (jwt_verify : string -> option Z).

  (** A request that passes the middleware: the session query, then the
      next handler. *)
Lemma authenticateToken_pass (req : HttpRequest) (next : Z -> H unit) (st : db)
      (header token : string) (uid : Z) (s : Session.t) :
    authorization req = Some header -> bearer_token header = Some token ->
    jwt_verify token = Some uid -> st.(connection) = None ->
    List.find (fun s => bool_decide (Session.token s = token)) st.(sessions) = Some s ->
    snd (run_handler (next uid) st) = Ok tt ->
    run_handler (authenticateToken jwt_verify req next) st =
    (EvQuery (QSessionByToken token) :: fst (run_handler (next uid) st), Ok tt).
  Proof.
    intros Ha Hb Hv Hc Hs Hok. unfold authenticateToken. rewrite Ha, Hb, Hv.
    unfold run_handler, try_catch, bind, handler_bind, await_in_handler, findSession, prisma_query.
    rewrite Hc, Hs. unfold run_handler in Hok.
    destruct (next uid st) as [[s2 d2] x2]. simpl in *. by subst.
  Qed.

  (** The middleware answers once, [401] or as the next handler does. *)
Lemma authenticateToken_answers_once (P : response -> Prop) (req : HttpRequest) (next : Z -> H unit)
      (st : db) :
    P (Response UNAUTHORIZED (BodyText "Unauthorized")) ->
    (forall uid, answers_once P (next uid) st) ->
    answers_once P (authenticateToken jwt_verify req next) st.
  Proof.
    intros H401 Hnext. unfold authenticateToken.
    destruct (authorization req) as [header|]; [|by apply sendStatus_answers_once].
    destruct (bearer_token header) as [token|]; [|by apply sendStatus_answers_once].
    destruct (jwt_verify token) as [uid|]; [|by apply sendStatus_answers_once].
    destruct (Hnext uid) as (resp & H1 & H2 & H3).
    unfold answers_once, run_handler, try_catch, bind, handler_bind, await_in_handler, findSession,
      prisma_query in *.
    destruct st.(connection) as [msg|]; simpl; [by eexists|].
    destruct (List.find _ _) as [s|]; simpl; [|by eexists].
    destruct (next uid st) as [[s1 d1] x]. simpl in *. subst. by exists resp.
  Qed.

  (** Past the middleware, both routes answer [200 {}] once. *)
Lemma routes_answer_200 (st : db) (r : route) (uid : Z) :
    handled_route r = true ->
    answers_once (fun r => r = Response OK (BodyJson (JObj [])))
      (match r with
       | RouteHotelId hotelId =>
           hotelsController.getHotelId {| userId := uid; params := [("hotelId", hotelId)] |}
       | _ => hotelsController.getHotels {| userId := uid; params := [] |}
       end) st.
  Proof.
    intros Hr. destruct r as [|hotelId| |]; try discriminate Hr;
      [apply (proj1 (handlers_answer_once _ _)) | apply (proj2 (handlers_answer_once _ _))].
  Qed.
  (** The responses of an authenticated GET on a route: [200 {}] alone. *)
Lemma authenticated_route_responses (req : HttpRequest) (st : db) (header token : string) (uid : Z)
      (s : Session.t) :
    req_method req = GET -> handled_route (match_route (req_path req)) = true ->
    authorization req = Some header -> bearer_token header = Some token ->
    jwt_verify token = Some uid -> st.(connection) = None ->
    List.find (fun s => bool_decide (Session.token s = token)) st.(sessions) = Some s ->
    responses (fst (run_handler (hotelsRouter jwt_verify req) st)) = [Response OK (BodyJson (JObj []))].
  Proof.
    intros Hm Hr Ha Hb Hv Hc Hs. unfold hotelsRouter. rewrite Hm.
    destruct (routes_answer_200 st (match_route (req_path req)) uid Hr) as (resp & H1 & -> & H3).
    destruct (match_route (req_path req)) as [|hotelId| |]; try discriminate Hr;
      (rewrite (authenticateToken_pass req _ st header token uid s) by done); exact H1.
  Qed.

  (** The middleware runs the next handler it is given, and nothing else
      of it. *)
Lemma authenticateToken_ext (req : HttpRequest) (next1 next2 : Z -> H unit) :
    (forall uid, next1 uid = next2 uid) ->
    authenticateToken jwt_verify req next1 = authenticateToken jwt_verify req next2.
  Proof.
    intros Hn. unfold authenticateToken.
    destruct (authorization req) as [header|]; [|done].
    destruct (bearer_token header) as [token|]; [|done].
    destruct (jwt_verify token) as [uid|]; [|done]. by rewrite Hn.
  Qed.

  (** On the [:hotelId] route the application reads the parameter only
      through [Number(hotelId)]: two requests with the same method and
      [Authorization] whose parameters are the same number are the same
      handler run. *)
Lemma hotelsRouter_same_number (req1 req2 : HttpRequest) (h1 h2 : list Z) :
    req_method req1 = req_method req2 -> authorization req1 = authorization req2 ->
    match_route (req_path req1) = RouteHotelId h1 -> match_route (req_path req2) = RouteHotelId h2 ->
    Number_of_param (Some h1) = Number_of_param (Some h2) ->
    hotelsRouter jwt_verify req1 = hotelsRouter jwt_verify req2.
  Proof.
    intros Hm Ha Hr1 Hr2 Hn. unfold hotelsRouter. rewrite Hr1, Hr2, Hm.
    destruct (req_method req2); [|done..].
    transitivity (authenticateToken jwt_verify req1
                    (fun uid => hotelsController.getHotelId {| userId := uid; params := [("hotelId", h2)] |})).
    - apply authenticateToken_ext. intros uid. unfold hotelsController.getHotelId.
      by rewrite !param_hotelId, Hn.
    - unfold authenticateToken. by rewrite Ha.
  Qed.
End RouterLemmas.

(** ** Properties *)

Section RouterProperties.
  Context (jwt_verify : string -> option Z).

  (** C8: a GET on a hotels route whose [Authorization] header is
      missing, is not [Bearer <token>], or carries a token the JWT check
      rejects is answered [401], and nothing is read from the
      database. *)
Theorem unauthenticated_401 (req : HttpRequest) (st : db) :
    req_method req = GET -> handled_route (match_route (req_path req)) = true ->
    (forall header token, authorization req = Some header -> bearer_token header = Some token ->
                          jwt_verify token = None) ->
    run_handler (hotelsRouter jwt_verify req) st =
    ([EvRespond (Response UNAUTHORIZED (BodyText "Unauthorized"))], Ok tt).
  Proof.
    intros Hm Hr Hv.
    assert (Ha : forall next, run_handler (authenticateToken jwt_verify req next) st =
                 ([EvRespond (Response UNAUTHORIZED (BodyText "Unauthorized"))], Ok tt)).
    { intros next. unfold authenticateToken.
      destruct (authorization req) as [header|]; [|reflexivity].
      destruct (bearer_token header) as [token|] eqn:Hb; [|reflexivity].
      by rewrite (Hv header token eq_refl Hb). }
    unfold hotelsRouter. rewrite Hm. destruct (match_route _); [apply Ha | apply Ha | discriminate Hr..].
  Qed.

  (** C14: a valid token without a stored session is answered [401] after
      the single session lookup; the hotels module is not reached. *)
Theorem no_session_401 (req : HttpRequest) (st : db) (header token : string) (uid : Z) :
    req_method req = GET -> handled_route (match_route (req_path req)) = true ->
    authorization req = Some header -> bearer_token header = Some token ->
    jwt_verify token = Some uid -> st.(connection) = None ->
    List.find (fun s => bool_decide (Session.token s = token)) st.(sessions) = None ->
    run_handler (hotelsRouter jwt_verify req) st =
    ([EvQuery (QSessionByToken token); EvRespond (Response UNAUTHORIZED (BodyText "Unauthorized"))], Ok tt).
  Proof.
    intros Hm Hr Ha Hb Hv Hc Hs.
    assert (Hauth : forall next, run_handler (authenticateToken jwt_verify req next) st =
      ([EvQuery (QSessionByToken token); EvRespond (Response UNAUTHORIZED (BodyText "Unauthorized"))], Ok tt)).
    { intros next. unfold authenticateToken. rewrite Ha, Hb, Hv.
      unfold run_handler, try_catch, bind, handler_bind, await_in_handler, findSession, prisma_query.
      by rewrite Hc, Hs. }
    unfold hotelsRouter. rewrite Hm. destruct (match_route _); [apply Hauth | apply Hauth | discriminate Hr..].
  Qed.

  (** C9: end to end, an authenticated [GET /hotels/<n>] for the printed
      id [n] of a hotel reaches the service as the number [n]: the
      session lookup, then the [200 {}] response, then the service's
      run on [n], its rejection, if any, unhandled. *)
Theorem get_hotel_by_printed_id (req : HttpRequest) (st : db) (n uid : Z) (header token : string)
      (s : Session.t) :
    0 <= n <= 2 ^ 53 -> req_method req = GET -> req_path req = ("/hotels/" ++ String_of_int n)%string ->
    authorization req = Some header -> bearer_token header = Some token ->
    jwt_verify token = Some uid -> st.(connection) = None ->
    List.find (fun s => bool_decide (Session.token s = token)) st.(sessions) = Some s ->
    run_handler (hotelsRouter jwt_verify req) st =
    (EvQuery (QSessionByToken token) :: ok_empty_object ::
       fst (hotelsService.getHotelId uid (of_Z n) st) ++
       unhandled (snd (hotelsService.getHotelId uid (of_Z n) st)), Ok tt).
  Proof.
    intros Hn Hm Hp Ha Hb Hv Hc Hs.
    unfold hotelsRouter. rewrite Hm, Hp, match_route_hotel_id by lia.
    assert (Hnum : Number_of_param (param {| userId := uid; params := [("hotelId", js_str (String_of_int n))] |}
                                           "hotelId") = of_Z n).
    { unfold param. simpl. rewrite ?bool_decide_true by done. simpl.
      rewrite StringToNumber16_units. apply StringToNumber_String_of_int. lia. }
    pose proof (getHotelId_handler_run {| userId := uid; params := [("hotelId", js_str (String_of_int n))] |} st)
      as Hrun.
    cbv zeta in Hrun. rewrite Hnum in Hrun.
    rewrite (authenticateToken_pass jwt_verify req _ st header token uid s) by (try done; by rewrite Hrun).
    by rewrite Hrun.
  Qed.

  (** C17: every request to the hotels paths is answered, exactly once,
      and the run ends normally: the answer is [200 {}] (an authenticated
      GET on a route), [401] (authentication fails), [400] (a [:hotelId]
      that does not decode), or [404] (another path or method). *)
Theorem hotelsRouter_answers_once (req : HttpRequest) (st : db) :
    answers_once (fun r => r = Response OK (BodyJson (JObj [])) \/ status r = UNAUTHORIZED \/
                           status r = NOT_FOUND \/ status r = BAD_REQUEST)
      (hotelsRouter jwt_verify req) st.
  Proof.
    unfold hotelsRouter.
    destruct (req_method req), (match_route (req_path req)) as [|hotelId| |];
      try (apply sendStatus_answers_once; first [by right; right; left | by right; right; right]);
      (apply authenticateToken_answers_once; [by right; left|]); intros uid;
      (eapply answers_once_weaken; [|first [apply (proj1 (handlers_answer_once _ _)) |
                                           apply (proj2 (handlers_answer_once _ _))]]);
      intros resp ->; by left.
  Qed.

  (** C18: an authenticated GET on either route (a valid token with a
      stored session, the database reachable) is answered [200 {}],
      whatever the user's enrollment, ticket and the hotels: neither the
      specification's [404] nor the tests' [402] can be observed. *)
Theorem authenticated_request_200 (req : HttpRequest) (st : db) (header token : string) (uid : Z)
      (s : Session.t) :
    req_method req = GET -> handled_route (match_route (req_path req)) = true ->
    authorization req = Some header -> bearer_token header = Some token ->
    jwt_verify token = Some uid -> st.(connection) = None ->
    List.find (fun s => bool_decide (Session.token s = token)) st.(sessions) = Some s ->
    responses (fst (run_handler (hotelsRouter jwt_verify req) st)) = [Response OK (BodyJson (JObj []))].
  Proof. intros. by eapply authenticated_route_responses. Qed.

  (** C24: a request on [/hotels/<seg>] whose segment is not a valid
      percent-encoding of UTF-8 is answered [400] by Express's final
      handler, whatever its method and its [Authorization] header: the
      authentication does not run and nothing is read from the
      database. *)
Theorem malformed_param_400 (req : HttpRequest) (st : db) (seg : list ascii) :
    req_path req = ("/hotels/" ++ string_of_list_ascii seg)%string -> seg <> [] ->
    Forall (fun x => x <> "/"%char) seg -> decodeURIComponent seg = None ->
    run_handler (hotelsRouter jwt_verify req) st =
    ([EvRespond (Response BAD_REQUEST (BodyText "Bad Request"))], Ok tt).
  Proof.
    intros Hp Hne Hf Hd. unfold hotelsRouter. rewrite Hp, match_route_segment, Hd by done.
    destruct (req_method req); reflexivity.
  Qed.

  (** C28: [/hotels/007] is [/hotels/7]: a positive id written with
      leading zeros reaches the application as the same number, so the
      two requests are the same run on every database, whatever their
      method and credentials. *)
Theorem leading_zeros_same_request (req1 req2 : HttpRequest) (n : Z) (k : nat) :
    0 < n <= 2 ^ 53 -> req_method req1 = req_method req2 -> authorization req1 = authorization req2 ->
    req_path req1 = ("/hotels/" ++ String_of_int n)%string ->
    req_path req2 = ("/hotels/" ++ string_of_list_ascii (repeat "0"%char k) ++ String_of_int n)%string ->
    hotelsRouter jwt_verify req2 = hotelsRouter jwt_verify req1.
  Proof.
    intros Hn Hm Ha Hp1 Hp2.
    destruct (String_of_int_segment n ltac:(lia)) as (seg & Hseg & Hne & Hf).
    set (seg2 := repeat "0"%char k ++ seg).
    assert (Hf2 : Forall (fun x => x <> "/"%char /\ x <> "%"%char) seg2).
    { apply Forall_app. split; [clear; induction k; constructor; [done|done] | done]. }
    assert (Hr2 : match_route (req_path req2) = RouteHotelId (units_of_ascii seg2)).
    { rewrite Hp2, <- (string_of_list_ascii_of_string (String_of_int n)), Hseg, <- string_of_list_ascii_app.
      fold seg2. rewrite match_route_segment; [| by destruct k, seg | eapply Forall_impl; [|exact Hf2]; by intros x []].
      rewrite decodeURIComponent_no_escape by (eapply Forall_impl; [|exact Hf2]; by intros y []). done. }
    symmetry. apply (hotelsRouter_same_number jwt_verify req1 req2 (js_str (String_of_int n)) (units_of_ascii seg2) Hm Ha); [by rewrite Hp1, match_route_hotel_id by lia | exact Hr2|].
    assert (Hj : units_of_ascii seg2 = js_str (string_of_list_ascii seg2))
      by (unfold js_str; by rewrite list_ascii_of_string_of_list_ascii).
    cbn [Number_of_param]. rewrite Hj, !StringToNumber16_units. unfold seg2. rewrite <- Hseg.
    by rewrite StringToNumber_leading_zeros, StringToNumber_String_of_int by lia.
  Qed.
End RouterProperties.

(** ** Witnesses *)

Lemma unauthenticated_401_witness :
  run_handler (hotelsRouter jwt_token1 req_forged) db_one_hotel =
  ([EvRespond (Response UNAUTHORIZED (BodyText "Unauthorized"))], Ok tt).
Proof.
  apply unauthenticated_401; [reflexivity | vm_compute; reflexivity |].
  intros header token Ha Hb. injection Ha as <-. vm_compute in Hb. injection Hb as <-.
  vm_compute. reflexivity.
Defined.

Lemma no_session_401_witness :
  run_handler (hotelsRouter jwt_token1 (req_token1 "/hotels/1")) db_hotel_room =
  ([EvQuery (QSessionByToken "token1"); EvRespond (Response UNAUTHORIZED (BodyText "Unauthorized"))], Ok tt).
Proof.
  apply (no_session_401 jwt_token1 _ _ "Bearer token1" "token1" 1);
    first [reflexivity | vm_compute; discriminate].
Defined.

Lemma get_hotel_by_printed_id_witness :
  let st := with_session db_hotel_room session1 in
  run_handler (hotelsRouter jwt_token1 (req_token1 ("/hotels/" ++ String_of_int 1))) st =
  (EvQuery (QSessionByToken "token1") :: ok_empty_object ::
     fst (hotelsService.getHotelId 1 (of_Z 1) st) ++
     unhandled (snd (hotelsService.getHotelId 1 (of_Z 1) st)), Ok tt).
Proof.
  apply (get_hotel_by_printed_id jwt_token1 _ _ 1 1 "Bearer token1" "token1" session1);
    first [lia | reflexivity | vm_compute; reflexivity].
Defined.

Lemma authenticated_request_200_witness :
  responses (fst (run_handler (hotelsRouter jwt_token1 (req_token1 "/hotels"))
                              (with_session db_remote session1))) =
  [Response OK (BodyJson (JObj []))].
Proof.
  apply (authenticated_request_200 jwt_token1 _ _ "Bearer token1" "token1" 1 session1);
    first [reflexivity | vm_compute; discriminate | vm_compute; reflexivity].
Defined.

(** [%C3] opens a two-byte sequence that the segment does not complete. *)
Lemma malformed_param_400_witness :
  run_handler (hotelsRouter jwt_token1 (req_token1 "/hotels/%C3")) db_hotel_room =
  ([EvRespond (Response BAD_REQUEST (BodyText "Bad Request"))], Ok tt).
Proof.
  apply (malformed_param_400 jwt_token1 _ _ (list_ascii_of_string "%C3"));
    first [reflexivity | discriminate | repeat constructor; discriminate].
Defined.

(** [/hotels/001] is [/hotels/1]; so is [/hotels/0x1], a hexadecimal
    literal [Number] accepts. *)
Lemma leading_zeros_same_request_witness :
  hotelsRouter jwt_token1 (req_token1 ("/hotels/" ++ string_of_list_ascii (repeat "0"%char 2) ++ String_of_int 1)%string) =
    hotelsRouter jwt_token1 (req_token1 ("/hotels/" ++ String_of_int 1)%string) /\
  Number_of_param (Some (js_str "0x1")) = Number_of_param (Some (js_str (String_of_int 1))).
Proof.
  split; [|vm_compute; reflexivity].
  apply (leading_zeros_same_request jwt_token1 _ _ 1 2); try reflexivity. lia.
Defined.
