(* ===== verification/Interleaving.v ===== *)
(** * The service with the database changing between its awaits

    Each [await] of [hotelsService.getHotels] and [getHotelId] gives the
    event loop back: other requests run, and the database may change,
    before the next query is sent.  The specification (section 4.1)
    accepts this: the enrollment and the ticket reads are not one atomic
    snapshot.  [hotelsService_interleaved] is the code of the two
    operations with each query reading the database of its own time:
    [st1] for the enrollment (the query is sent when
    [findWithAddressByUserId] is called), [st2] for the ticket, [st3] for
    the hotel read.  The writes in between are creates of
    [Writes.v], the only writes of the application and of its tests. *)

From stdpp Require Import base list strings decidable.
From Stdlib Require Import ZArith Lia.
From S2P Require Import Prelude JsRuntime JsNumber Store Scenarios Writes HotelsRepository HotelsService.

Local Open Scope Z_scope.
Local Open Scope drivent_scope.

(** [m] run on the database [st] of its time, then the rest [k] on its
    value. *)
Definition bind_at {A B} (m : M A) (st : db) (k : A -> list (event query) * exc B)
  : list (event query) * exc B :=
  match m st with
  | (t, Ok a) => let '(t2, y) := k a in (t ++ t2, y)
  | (t, Throw e) => (t, Throw e)
  end.

(** The test of line 15 (and 32) of the service. *)
Definition ticket_rejected (ticket : option TicketWithType) : bool :=
  match ticket with
  | None => true
  | Some t => TicketType.isRemote (TicketType t)
              || negb (TicketType.includesHotel (TicketType t))
              || String.eqb (TicketStatus_str (Ticket.status (Store.ticket t))) "RESERVED"
  end.

Module hotelsService_interleaved.

Section code.

Context {repo : HotelsRepositoryApi}.

(** [async function getHotels(userId)], each query on the database of
    its time. *)
Definition getHotels (userId : Z) (st1 st2 st3 : db) : list (event query) * exc (list Hotel.t) :=
  let enroll := Promise (findWithAddressByUserId userId) in
  if negb (truthy enroll) then ([], Throw NotFoundError) else
  bind_at (await enroll) st1 (fun e =>
  bind_at (read_prop "id" (fun e => Enrollment.id (enrollment e)) e) st1 (fun enrollmentId =>
  bind_at (findTicketByEnrollmentId enrollmentId) st2 (fun ticket =>
  if ticket_rejected ticket then ([], Throw NotFoundError) else
  bind_at repo_getHotels st3 (fun hotels => ([], Ok hotels))))).

(** [async function getHotelId(userId, hotelId)], likewise. *)
Definition getHotelId (userId : Z) (hotelId : number) (st1 st2 st3 : db)
  : list (event query) * exc (option HotelWithRooms) :=
  let enroll := Promise (findWithAddressByUserId userId) in
  if negb (truthy enroll) then ([], Throw NotFoundError) else
  bind_at (await enroll) st1 (fun e =>
  bind_at (read_prop "id" (fun e => Enrollment.id (enrollment e)) e) st1 (fun enrollmentId =>
  bind_at (findTicketByEnrollmentId enrollmentId) st2 (fun ticket =>
  if ticket_rejected ticket then ([], Throw NotFoundError) else
  bind_at (repo_getRoomsHotelId hotelId) st3 (fun hotels => ([], Ok hotels))))).

End code.

End hotelsService_interleaved.

(** A user enrolled with an in-person ticket type with hotel, who has no
    ticket yet. *)
Definition arrange_enrolled : list write :=
  [CreateUser user1; CreateSession session1; CreateEnrollment enrollment1 address1;
   CreateTicketType ticketTypeHotel].

(** The database after [arrange_enrolled]. *)
Definition db_enrolled : db :=
  {| users := [user1]; enrollments := [enrollment1]; addresses := [address1];
     ticketTypes := [ticketTypeHotel]; tickets := []; hotels := []; rooms := [];
     sessions := [session1]; payments := []; connection := None |}.

(** ** Lemmas *)

(** Writes only append rows: the enrollments grow at their end and the
    connection is unchanged. *)
Lemma apply_write_enrollments (st st' : db) (w : write) :
  apply_write st w = Ok st' ->
  (exists l, st'.(enrollments) = st.(enrollments) ++ l) /\ st'.(connection) = st.(connection).
Proof.
  unfold apply_write. intros Hw.
  destruct (unique_ok st w), (foreign_ok st w); simpl in Hw; try discriminate.
  injection Hw as <-. destruct st, w; simpl; split; try done; eexists; first [reflexivity | by rewrite app_nil_r].
Qed.

Lemma run_writes_enrollments (st st' : db) (ws : list write) :
  run_writes st ws = Ok st' ->
  (exists l, st'.(enrollments) = st.(enrollments) ++ l) /\ st'.(connection) = st.(connection).
Proof.
  revert st. induction ws as [|w ws IH]; simpl; intros st Hrun.
  - injection Hrun as <-. split; [exists []; by rewrite app_nil_r | done].
  - destruct (apply_write st w) as [st1|e] eqn:Hw; [|discriminate].
    destruct (apply_write_enrollments _ _ _ Hw) as [[l1 H1] C1].
    destruct (IH st1 Hrun) as [[l2 H2] C2]. split; [|congruence].
    exists (l1 ++ l2). by rewrite H2, H1, app_assoc.
Qed.

(** An enrollment once found stays the one found. *)
Lemma enrollment_of_user_grow (st st' : db) (u : Z) (e : EnrollmentWithAddress) (l : list Enrollment.t) :
  st'.(enrollments) = st.(enrollments) ++ l -> enrollment_of_user st u = Some e ->
  exists e', enrollment_of_user st' u = Some e' /\ enrollment e' = enrollment e.
Proof.
  unfold enrollment_of_user. intros Hl He. rewrite Hl, find_first_app.
  destruct (List.find _ st.(enrollments)) as [x|]; [|discriminate].
  injection He as <-. by eexists.
Qed.

(** When the user was enrolled at the first read, the ticket read on a
    later database decides the gate exactly as [eligible] on that
    database, and it does not fail. *)
Lemma interleaved_gate (u : Z) (st1 st2 : db) (e : EnrollmentWithAddress) (ws12 : list write) :
  reachable st1 -> st1.(connection) = None -> enrollment_of_user st1 u = Some e ->
  run_writes st1 ws12 = Ok st2 ->
  st2.(connection) = None /\
  (forall ot, ticket_of_enrollment st2 (Enrollment.id (enrollment e)) = Ok ot ->
     negb (ticket_rejected ot) = eligible st2 u) /\
  is_ok (ticket_of_enrollment st2 (Enrollment.id (enrollment e))) = true.
Proof.
  intros Hr Hc He Hw.
  destruct (run_writes_enrollments _ _ _ Hw) as [[l Hl] Hc2].
  destruct (enrollment_of_user_grow _ _ u e l Hl He) as (e' & He' & Heq).
  split; [congruence|]. split.
  - intros ot Hot. unfold eligible. rewrite He', Heq, Hot.
    destruct ot as [t|]; [|done]. unfold ticket_rejected. by rewrite gate_test_qualifies, negb_involutive.
  - apply ticket_of_enrollment_wf, reachable_wf. eapply run_writes_reachable; eauto.
Qed.

Ltac run_interleaved :=
  unfold hotelsService_interleaved.getHotels, hotelsService_interleaved.getHotelId, bind_at, await,
    findWithAddressByUserId, findTicketByEnrollmentId, prisma_query, read_prop, truthy, Truthy_promise;
  simpl.

(** ** Properties *)

(** C23: with creates interleaved between the awaits, the gate is decided
    on the database of the ticket read and the hotels are those of the
    last read: for a user enrolled at the first read, both operations
    send the enrollment and ticket queries, then, exactly when the user
    is eligible on the database of the ticket read, the hotel query, and
    settle as the specification's contract with that eligibility. *)
Theorem interleaved_gate_at_ticket_read (u : Z) (hotelId : number) (st1 st2 st3 : db)
    (ws12 ws23 : list write) (e : EnrollmentWithAddress) :
  reachable st1 -> st1.(connection) = None -> enrollment_of_user st1 u = Some e ->
  run_writes st1 ws12 = Ok st2 -> run_writes st2 ws23 = Ok st3 ->
  hotelsService_interleaved.getHotels u st1 st2 st3 =
    ([EvQuery (QEnrollmentByUser u); EvQuery (QTicketByEnrollment (Enrollment.id (enrollment e)))] ++
       (if eligible st2 u then [EvQuery QHotelFindMany] else []),
     if eligible st2 u then Ok st3.(hotels) else Throw NotFoundError) /\
  snd (hotelsService_interleaved.getHotelId u hotelId st1 st2 st3) =
    (if eligible st2 u then
       match prisma_int hotelId with
       | Some n => Ok (hotel_with_rooms st3 n)
       | None => Throw (PrismaClientError invalid_int_argument)
       end
     else Throw NotFoundError).
Proof.
  intros Hr Hc He H12 H23.
  destruct (interleaved_gate u st1 st2 e ws12 Hr Hc He H12) as (Hc2 & Hq & Hok).
  destruct (run_writes_enrollments _ _ _ H23) as [_ Hc3]. rewrite Hc2 in Hc3.
  run_interleaved. rewrite Hc, He. simpl. rewrite Hc2.
  destruct (ticket_of_enrollment st2 _) as [ot|err]; [|discriminate].
  rewrite <- (Hq ot eq_refl). destruct (ticket_rejected ot); simpl; [done|].
  rewrite getHotels_run, getRoomsHotelId_run_any, Hc3. split; [done|].
  destruct (prisma_int hotelId); simpl; by rewrite ?Hc3.
Qed.

(** ** Witnesses *)

(** The user has no ticket at the enrollment read; the paid ticket and
    then the hotel are created before the next reads: the gate passes. *)
Lemma interleaved_gate_at_ticket_read_witness :
  let st2 := add_row db_enrolled (CreateTicket (Ticket.mk 1 1 1 PAID)) in
  let st3 := add_row st2 (CreateHotel copacabana) in
  eligible db_enrolled 1 = false /\
  hotelsService_interleaved.getHotels 1 db_enrolled st2 st3 =
    ([EvQuery (QEnrollmentByUser 1); EvQuery (QTicketByEnrollment 1); EvQuery QHotelFindMany],
     Ok [copacabana]).
Proof.
  intros st2 st3. split; [vm_compute; reflexivity|].
  assert (Hr : reachable db_enrolled).
  { apply (run_writes_reachable empty_db _ arrange_enrolled); [constructor | vm_compute; reflexivity]. }
  rewrite (proj1 (interleaved_gate_at_ticket_read 1 NaN db_enrolled st2 st3
                    [CreateTicket (Ticket.mk 1 1 1 PAID)] [CreateHotel copacabana]
                    {| enrollment := enrollment1; Address := [address1] |}
                    Hr eq_refl ltac:(vm_compute; reflexivity) ltac:(vm_compute; reflexivity)
                    ltac:(vm_compute; reflexivity))).
  vm_compute. reflexivity.
Defined.
