(* ===== verification/Tests.v ===== *)
(** * The integration tests ([src/tests/integration/hotels.test.ts])

    Each [it(...)] of the file is a [test_case]: the rows it creates (a
    run of the writes of [Writes.v] from the empty database, [cleanDb]
    having emptied every table), the request supertest sends through the
    application ([hotelsRouter]), and its [expect] assertions.
    [test_results] runs the arrangement, then the request, and checks
    every assertion against the response supertest receives, the first
    one the application writes.

    The assertions compare with values the test writes: numbers,
    strings, arrays, objects, and functions: [hotel.createdAt.toISOString]
    without its call is the method itself.  Jest's [toEqual] is a
    recursive equality in which objects must have the same keys in any
    order, and a function is equal to nothing a JSON body holds.  The
    response body supertest exposes is the parsed JSON of a JSON
    response, and [{}] for a [text/plain] one ([res.sendStatus]).

    The JWT secret of the test server signs one token per user;
    [generateValidToken(user)] and [jwt.sign({ userId })] both give the
    token [jwt_token1] accepts for user 1; a [faker.lorem.word()] is not
    a token it accepts. *)

From stdpp Require Import base list strings decidable.
From Stdlib Require Import ZArith Lia.
From S2P Require Import Prelude JsRuntime JsNumber Store Scenarios Writes HotelsRepository HotelsController HotelsRouter Interleaving.

Local Open Scope Z_scope.

(** ** Jest's [toEqual] *)

#[warnings="-register-all"]
Inductive expected : Type :=
| ENum (n : Z)
| EStr (s : string)
| EFunction
| EArr (l : list expected)
| EObj (fields : list (string * expected)).

(** The value of a key of a JSON object. *)
Definition json_field (k : string) (fs : list (string * json)) : option json :=
  match List.find (fun kv => bool_decide (kv.1 = k)) fs with Some kv => Some kv.2 | None => None end.

(** [expect(received).toEqual(e)] *)
Fixpoint to_equal (e : expected) (j : json) : bool :=
  match e, j with
  | ENum n, JNum m => Z.eqb n m
  | EStr s, JStr t => bool_decide (s = t)
  | EArr es, JArr js =>
      (fix go (es : list expected) (js : list json) : bool :=
         match es, js with
         | [], [] => true
         | e :: es', j :: js' => to_equal e j && go es' js'
         | _, _ => false
         end) es js
  | EObj efs, JObj jfs =>
      (fix go (efs : list (string * expected)) : bool :=
         match efs with
         | [] => true
         | (k, e) :: efs' =>
             match json_field k jfs with Some j => to_equal e j | None => false end && go efs'
         end) efs
      && forallb (fun kv => existsb (fun ke => bool_decide (ke.1 = kv.1)) efs) jfs
  | _, _ => false
  end.

(** [response.body] as supertest parses it. *)
Definition received_body (b : body) : json :=
  match b with BodyJson j => j | BodyText _ => JObj [] end.

Inductive assertion : Type :=
| ExpectStatus (code : Z)   (** [expect(response.status).toBe(code)], [.toEqual(code)] *)
| ExpectBody (e : expected).  (** [expect(response.body).toEqual(e)] *)

Definition check (r : response) (a : assertion) : bool :=
  match a with
  | ExpectStatus code => Z.eqb (status r) code
  | ExpectBody e => to_equal e (received_body (resp_body r))
  end.

Record test_case : Type := TestCase {
  arrange : list write;
  request : HttpRequest;
  assertions : list assertion
}.

(** The outcome of each assertion of a test, or [None] when the test
    cannot reach them (a failing [create], or no response). *)
Definition test_results (t : test_case) : option (list bool) :=
  match run_writes empty_db (arrange t) with
  | Throw _ => None
  | Ok st =>
      match responses (fst (run_handler (hotelsRouter jwt_token1 (request t)) st)) with
      | r :: _ => Some (map (check r) (assertions t))
      | [] => None
      end
  end.

(** A test passes when every assertion holds. *)
Definition test_passes (t : test_case) : bool :=
  match test_results t with Some bs => forallb (fun b => b) bs | None => false end.

(** ** The tests *)

Definition PAYMENT_REQUIRED : Z := 402.

Definition get (path : string) (auth : option string) : HttpRequest :=
  {| req_method := GET; req_path := path; authorization := auth |}.

Definition bearer_token1 : option string := Some "Bearer token1".
Definition faker_word : string := "voluptas".

(** The hotel object of lines 100-106 and 207-211. *)
Definition hotel_expected (h : Hotel.t) : list (string * expected) :=
  [("id", ENum (Hotel.id h)); ("name", EStr (Hotel.name h)); ("image", EStr (Hotel.image h));
   ("createdAt", EFunction); ("updateAt", EFunction)].

(** The room object of lines 213-220. *)
Definition room_expected (h : Hotel.t) (r : Room.t) : expected :=
  EObj [("id", ENum (Room.id r)); ("name", EStr (Room.name r)); ("capacity", ENum (Room.capacity r));
        ("hotelId", ENum (Hotel.id h)); ("createdAt", EFunction); ("updateAt", EFunction)].

(** The tests of [GET /hotels] and of [GET /hotels/:hotelId] that check
    the authentication. *)
Definition test_no_token (path : string) : test_case :=
  TestCase [] (get path None) [ExpectStatus UNAUTHORIZED].
Definition test_invalid_token (path : string) : test_case :=
  TestCase [] (get path (Some ("Bearer " +:+ faker_word))) [ExpectStatus UNAUTHORIZED].
Definition test_no_session (path : string) : test_case :=
  TestCase [CreateUser user1] (get path bearer_token1) [ExpectStatus UNAUTHORIZED].

(** "should respond with status 402 when is remote" *)
Definition test_remote (path : string) : test_case :=
  TestCase (arrange_paid ticketTypeRemote) (get path bearer_token1) [ExpectStatus PAYMENT_REQUIRED].

(** "should respond with status 404 when is no enroll" *)
Definition test_no_enroll (path : string) : test_case :=
  TestCase [CreateUser user1; CreateSession session1; CreateTicketType ticketTypeRemote]
           (get path bearer_token1) [ExpectStatus PAYMENT_REQUIRED].

(** "should respond with status 200 and a empty array for no break on server" *)
Definition test_one_hotel : test_case :=
  TestCase (arrange_paid ticketTypeHotel ++ [CreateHotel copacabana]) (get "/hotels" bearer_token1)
           [ExpectStatus OK; ExpectBody (EArr [EObj (hotel_expected copacabana)])].

(** "should respond with status 200 and get:hotels" *)
Definition test_no_hotels : test_case :=
  TestCase (arrange_paid ticketTypeHotel) (get "/hotels" bearer_token1)
           [ExpectStatus OK; ExpectBody (EArr [])].

(** "should respond with status 200 and a hotel" *)
Definition test_hotel_room : test_case :=
  TestCase arrange_hotel_room (get ("/hotels/" +:+ String_of_int (Hotel.id copacabana)) bearer_token1)
           [ExpectStatus OK;
            ExpectBody (EObj (hotel_expected copacabana ++
                              [("Rooms", EArr [room_expected copacabana cobertura])]))].

(** The file, in order. *)
Definition hotels_test_suite : list test_case :=
  [test_no_token "/hotels"; test_invalid_token "/hotels"; test_no_session "/hotels";
   test_remote "/hotels"; test_no_enroll "/hotels"; test_one_hotel; test_no_hotels;
   test_no_token "/hotels/1"; test_invalid_token "/hotels/1"; test_no_session "/hotels/1";
   test_remote "/hotels/1"; test_no_enroll "/hotels/1"; test_hotel_room].

(** ** Lemmas *)

Lemma to_equal_EObj (efs : list (string * expected)) (jfs : list (string * json)) :
  to_equal (EObj efs) (JObj jfs) =
  forallb (fun ke => match json_field ke.1 jfs with Some j => to_equal ke.2 j | None => false end) efs &&
  forallb (fun kv => existsb (fun ke => bool_decide (ke.1 = kv.1)) efs) jfs.
Proof. simpl. f_equal. induction efs as [|[k e] efs IH]; simpl; [done|]. by rewrite IH. Qed.

Lemma to_equal_singleton (e : expected) (j : json) :
  to_equal (EArr [e]) j = match j with JArr [j1] => to_equal e j1 | _ => false end.
Proof. destruct j as [| | | |[|j1 [|]]|]; simpl; try destruct (to_equal e j1); reflexivity. Qed.

(** An expected object with a function among its values equals no JSON
    value. *)
Lemma to_equal_function_field (efs : list (string * expected)) (k : string) (j : json) :
  In (k, EFunction) efs -> to_equal (EObj efs) j = false.
Proof.
  intros Hk. destruct j as [| | | | |jfs]; try reflexivity. rewrite to_equal_EObj.
  apply andb_false_intro1, not_true_is_false. intros Hall.
  eapply forallb_forall in Hall; [|exact Hk]. simpl in Hall. by destruct (json_field k jfs).
Qed.

(** ** Properties *)

(** C19: the body assertions of "should respond with status 200 and a
    empty array for no break on server" and of "should respond with
    status 200 and a hotel" hold for no response at all, whatever the
    hotel and the room: they expect [createdAt] to be the function
    [hotel.createdAt.toISOString] (not its result) and a key
    [updateAt] that the rows do not have. *)
Theorem hotel_body_assertions_fail (h : Hotel.t) (r : Room.t) (j : json) :
  to_equal (EArr [EObj (hotel_expected h)]) j = false /\
  to_equal (EObj (hotel_expected h ++ [("Rooms", EArr [room_expected h r])])) j = false.
Proof.
  split.
  - rewrite to_equal_singleton. destruct j as [| | | |[|j1 [|]]|]; try reflexivity.
    apply (to_equal_function_field _ "createdAt"). simpl. tauto.
  - apply (to_equal_function_field _ "createdAt"). simpl. tauto.
Qed.



