(* ===== verification/Server.v ===== *)
(** * The Node process that serves the hotels routes, request after request

    Every handler of the hotels module calls the service without [await]:
    a service that rejects leaves a rejected promise no one handles
    ([EvUnhandledRejection] in the handler's trace).  What the process
    does then is Node's [--unhandled-rejections] mode: with [throw], the
    default since Node 15, the rejection is raised as an uncaught
    exception and the process exits; with [warn] it prints a warning and
    goes on.  The application wiring (the [app.ts] that could install an
    [unhandledRejection] listener) is not in this repository; both modes
    are modelled.

    A [process] is running or has exited, beside the database, which is
    another process: the tests' creates and other modules' writes change
    it whether the server runs or not.  Requests are served one at a
    time, each run to completion ([serve]); a request to an exited
    process gets no answer (the connection is refused).  The events of a
    request after the fatal rejection do not happen ([until_crash]). *)

From stdpp Require Import base list strings decidable.
From Stdlib Require Import ZArith Lia.
From S2P Require Import Prelude JsRuntime JsNumber Store Scenarios Writes HotelsRepository HotelsService HotelsController HotelsRouter.

Local Open Scope Z_scope.

(** Node's [--unhandled-rejections] mode. *)
Inductive unhandled_rejections : Type :=
| UnhandledThrow   (** [throw], the default since Node 15 *)
| UnhandledWarn.   (** [warn] *)

Record process : Type := Process {
  running : bool;
  database : db
}.

Definition is_unhandled (ev : event query) : bool :=
  match ev with EvUnhandledRejection _ => true | _ => false end.

(** Whether the events of a request end the process. *)
Definition crashes (mode : unhandled_rejections) (evs : list (event query)) : bool :=
  match mode with UnhandledThrow => existsb is_unhandled evs | UnhandledWarn => false end.

(** The events that happen: with [throw], none after the first unhandled
    rejection. *)
Fixpoint until_crash (mode : unhandled_rejections) (evs : list (event query)) : list (event query) :=
  match evs with
  | [] => []
  | ev :: evs' => if crashes mode [ev] then [ev] else ev :: until_crash mode evs'
  end.

(** What happens to the server: a request, or a write to the database. *)
Inductive op : Type :=
| OpRequest (req : HttpRequest)
| OpWrite (w : write).

Section Server.
  Context (jwt_verify : string -> option Z) (mode : unhandled_rejections).

  (** One request, run to completion: the responses written before the
      process dies, and the process after it. *)
Definition serve (p : process) (req : HttpRequest) : process * list response :=
    if running p then
      let evs := fst (run_handler (hotelsRouter jwt_verify req) (database p)) in
      ({| running := negb (crashes mode evs); database := database p |},
       responses (until_crash mode evs))
    else (p, []).

  (** A write: a create that fails changes nothing. *)
Definition step_op (p : process) (o : op) : process * list response :=
    match o with
    | OpRequest req => serve p req
    | OpWrite w =>
        match apply_write (database p) w with
        | Ok st' => ({| running := running p; database := st' |}, [])
        | Throw _ => (p, [])
        end
    end.

  (** A sequence of operations: the responses of each. *)
Fixpoint run_ops (p : process) (os : list op) : process * list (list response) :=
    match os with
    | [] => (p, [])
    | o :: os' => let '(p1, r) := step_op p o in let '(p2, rs) := run_ops p1 os' in (p2, r :: rs)
    end.
End Server.

(** Whether the process survives an authenticated GET on a route: the
    service's promise fulfils. *)
Definition survives (st : db) (uid : Z) (r : route) : bool :=
  match r with
  | RouteHotelId hotelId => eligible st uid && bool_decide (is_Some (prisma_int (Number_of_param (Some hotelId))))
  | _ => eligible st uid
  end.

(** ** Lemmas *)

Lemma crashes_app (mode : unhandled_rejections) (t u : list (event query)) :
  crashes mode (t ++ u) = crashes mode t || crashes mode u.
Proof. destruct mode; simpl; [apply existsb_app | done]. Qed.

(** A trace of queries is neither fatal nor cut. *)
Lemma until_crash_queries (mode : unhandled_rejections) (t u : list (event query)) :
  Forall (fun ev => is_query ev = true) t -> until_crash mode (t ++ u) = t ++ until_crash mode u.
Proof. induction 1 as [|[] t Hq _ IH]; try discriminate; simpl; destruct mode; by rewrite ?IH. Qed.

Lemma crashes_queries (mode : unhandled_rejections) (t : list (event query)) :
  Forall (fun ev => is_query ev = true) t -> crashes mode t = false.
Proof. destruct mode; [|done]. induction 1 as [|[] t Hq _ IH]; by try discriminate. Qed.

Lemma until_crash_unhandled {A} (mode : unhandled_rejections) (x : exc A) :
  until_crash mode (unhandled x) = unhandled x.
Proof. by destruct x, mode. Qed.

(** The fate of the process is the fate of the service's promise. *)
Lemma crashes_unhandled {A} (mode : unhandled_rejections) (x : exc A) :
  crashes mode (unhandled x) = match mode with UnhandledThrow => negb (is_ok x) | UnhandledWarn => false end.
Proof. by destruct x, mode. Qed.

Section ServerLemmas.
  Context (jwt_verify : string -> option Z).

  (** An authenticated GET on a route: the session query, [200 {}], the
      service's queries, and the rejection of the service's promise if
      it rejects, which it does exactly when the process does not
      [survive]. *)
Lemma authenticated_route_trace (req : HttpRequest) (st : db) (header token : string) (uid : Z)
      (s : Session.t) :
    req_method req = GET -> handled_route (match_route (req_path req)) = true ->
    authorization req = Some header -> bearer_token header = Some token ->
    jwt_verify token = Some uid -> st.(connection) = None ->
    List.find (fun s => bool_decide (Session.token s = token)) st.(sessions) = Some s ->
    exists (A : Type) (t : list (event query)) (x : exc A),
      Forall (fun ev => is_query ev = true) t /\ is_ok x = survives st uid (match_route (req_path req)) /\
      fst (run_handler (hotelsRouter jwt_verify req) st) =
      EvQuery (QSessionByToken token) :: ok_empty_object :: t ++ unhandled x.
  Proof.
    intros Hm Hr Ha Hb Hv Hc Hs. unfold hotelsRouter. rewrite Hm.
    destruct (match_route (req_path req)) as [|hotelId| |]; try discriminate Hr.
    - rewrite (authenticateToken_pass jwt_verify req _ st header token uid s)
        by (done || by rewrite getHotels_handler_run).
      rewrite getHotels_handler_run. cbn [svc_getHotels hotelsService_api userId fst].
      do 3 eexists. split; [apply (proj1 (service_events_queries uid NaN st))|].
      split; [by apply getHotels_fulfils | reflexivity].
    - rewrite (authenticateToken_pass jwt_verify req _ st header token uid s)
        by (done || by rewrite getHotelId_handler_run).
      rewrite getHotelId_handler_run. cbn [svc_getHotelId hotelsService_api userId param params fst].
      do 3 eexists. split; [apply (proj2 (service_events_queries uid (Number_of_param (Some hotelId)) st))|].
      split; [by apply getHotelId_fulfils | reflexivity].
  Qed.

  (** Serving an authenticated GET on a route: [200 {}], and the process
      survives unless the mode is [throw] and the service rejects. *)
Lemma serve_authenticated (mode : unhandled_rejections) (p : process) (req : HttpRequest)
      (header token : string) (uid : Z) (s : Session.t) :
    running p = true -> req_method req = GET -> handled_route (match_route (req_path req)) = true ->
    authorization req = Some header -> bearer_token header = Some token -> jwt_verify token = Some uid ->
    (database p).(connection) = None ->
    List.find (fun s => bool_decide (Session.token s = token)) (database p).(sessions) = Some s ->
    serve jwt_verify mode p req =
    ({| running := match mode with
                   | UnhandledThrow => survives (database p) uid (match_route (req_path req))
                   | UnhandledWarn => true
                   end;
        database := database p |},
     [Response OK (BodyJson (JObj []))]).
  Proof.
    intros Hrun Hm Hr Ha Hb Hv Hc Hs.
    destruct (authenticated_route_trace req (database p) header token uid s Hm Hr Ha Hb Hv Hc Hs)
      as (A & t & x & Hq & Hx & Htr).
    unfold serve. rewrite Hrun, Htr. f_equal.
    - change (EvQuery (QSessionByToken token) :: ok_empty_object :: t ++ unhandled x)
        with ([EvQuery (QSessionByToken token); ok_empty_object] ++ t ++ unhandled x).
      rewrite !crashes_app, (crashes_queries mode t), crashes_unhandled by done.
      destruct mode; simpl; [by rewrite Hx, negb_involutive | done].
    - cbn [until_crash]. rewrite until_crash_queries, until_crash_unhandled by done.
      destruct mode; simpl; rewrite responses_app, responses_unhandled, responses_queries by done; done.
  Qed.

  (** An exited process answers nothing and stays exited. *)
Lemma run_ops_exited (mode : unhandled_rejections) (p : process) (os : list op) :
    running p = false ->
    running (fst (run_ops jwt_verify mode p os)) = false /\ snd (run_ops jwt_verify mode p os) = map (fun _ => []) os.
  Proof.
    revert p. induction os as [|o os IH]; intros p Hp; [done|].
    assert (Hstep : running (fst (step_op jwt_verify mode p o)) = false /\ snd (step_op jwt_verify mode p o) = []).
    { destruct o as [req|w]; simpl; [unfold serve; by rewrite Hp|].
      destruct (apply_write (database p) w); simpl; done. }
    simpl. destruct (step_op jwt_verify mode p o) as [p1 r]. destruct Hstep as [Hp1 Hr]. simpl in Hp1, Hr. subst r.
    destruct (IH p1 Hp1) as [IH1 IH2]. destruct (run_ops jwt_verify mode p1 os) as [p2 rs]. simpl in *.
    by rewrite IH2.
  Qed.

  End ServerLemmas.

(** ** Properties *)

Section ServerProperties.
  Context (jwt_verify : string -> option Z).

  (** C25: in Node's default mode, an authenticated GET on either route
      (a valid token with a stored session, the database reachable) is
      answered [200 {}], and the process survives it exactly when the
      service's promise fulfils: the user is eligible and, on
      [/hotels/:hotelId], the id is an [Int].  A request of an ineligible
      user, or for [/hotels/abc], ends the process. *)
Theorem default_mode_request_fate (p : process) (req : HttpRequest) (header token : string) (uid : Z)
      (s : Session.t) :
    running p = true -> req_method req = GET -> handled_route (match_route (req_path req)) = true ->
    authorization req = Some header -> bearer_token header = Some token -> jwt_verify token = Some uid ->
    (database p).(connection) = None ->
    List.find (fun s => bool_decide (Session.token s = token)) (database p).(sessions) = Some s ->
    serve jwt_verify UnhandledThrow p req =
    ({| running := survives (database p) uid (match_route (req_path req)); database := database p |},
     [Response OK (BodyJson (JObj []))]).
  Proof. intros. by apply (serve_authenticated jwt_verify UnhandledThrow p req header token uid s). Qed.

  (** C26: in Node's default mode, once an authenticated GET whose
      service rejects has been answered, no later request of any user is
      answered, whatever writes happen in between: the independence of
      requests the specification states (section 5) does not hold. *)
Theorem fatal_request_no_later_answer (p : process) (req : HttpRequest) (header token : string) (uid : Z)
      (s : Session.t) (os : list op) :
    running p = true -> req_method req = GET -> handled_route (match_route (req_path req)) = true ->
    authorization req = Some header -> bearer_token header = Some token -> jwt_verify token = Some uid ->
    (database p).(connection) = None ->
    List.find (fun s => bool_decide (Session.token s = token)) (database p).(sessions) = Some s ->
    survives (database p) uid (match_route (req_path req)) = false ->
    snd (run_ops jwt_verify UnhandledThrow p (OpRequest req :: os)) =
    [Response OK (BodyJson (JObj []))] :: map (fun _ => []) os.
  Proof.
    intros Hrun Hm Hr Ha Hb Hv Hc Hs Hsv. simpl.
    rewrite (serve_authenticated jwt_verify UnhandledThrow p req header token uid s) by done.
    rewrite Hsv. destruct (run_ops_exited jwt_verify UnhandledThrow (Process false (database p)) os eq_refl)
      as [_ Hos].
    destruct (run_ops _ _ _ os). simpl in *. by rewrite Hos.
  Qed.

  End ServerProperties.

(** ** Witnesses *)

(** The user of "should respond with status 402 when is remote" asks for
    the hotels: the process ends. *)
Lemma default_mode_request_fate_witness :
  serve jwt_token1 UnhandledThrow (Process true (with_session db_remote session1)) (req_token1 "/hotels") =
  (Process false (with_session db_remote session1), [Response OK (BodyJson (JObj []))]).
Proof.
  rewrite (default_mode_request_fate jwt_token1 _ _ "Bearer token1" "token1" 1 session1);
    try reflexivity.
Defined.

(** After it, neither a second request nor the hotel a test creates gets
    an answer. *)
Lemma fatal_request_no_later_answer_witness :
  snd (run_ops jwt_token1 UnhandledThrow (Process true (with_session db_remote session1))
         [OpRequest (req_token1 "/hotels"); OpWrite (CreateHotel copacabana); OpRequest (req_token1 "/hotels/1")]) =
  [[Response OK (BodyJson (JObj []))]; []; []].
Proof.
  apply (fatal_request_no_later_answer jwt_token1 _ _ "Bearer token1" "token1" 1 session1); try reflexivity.
Defined.

