(* ===== verification/Concurrency.v ===== *)
(** * Requests in flight together on the event loop

    [Server.v] serves one request at a time.  Node does not: while a
    request waits for a query, the event loop runs the other requests.
    The code of a request between two awaits runs without interruption;
    each query the hotels module sends is awaited, so a request's events
    fall into [chunks], each ending with a query (the last with whatever
    follows the last query).  The requests admitted together form a
    pool; the order in which their queries complete is the database's,
    so any [schedule] of the pool's next chunks can happen.  A chunk of
    a request that has none left is no step (the loop stutters).

    With [--unhandled-rejections=throw] a chunk that leaves an unhandled
    rejection ends the process: nothing of any request happens after it,
    including the responses of requests still waiting for a query.

    The traces of the pooled requests are those of [hotelsRouter] on the
    database at admission: the module only reads, and writes between
    the reads of one request are the subject of [Interleaving.v]. *)

From stdpp Require Import base list strings decidable.
From Stdlib Require Import ZArith Lia.
From S2P Require Import Prelude JsRuntime JsNumber Store Scenarios Writes HotelsRepository HotelsService HotelsController HotelsRouter Server.

Local Open Scope Z_scope.

(** The await points of a request: a chunk ends with each query. *)
Fixpoint chunks (evs : list (event query)) : list (list (event query)) :=
  match evs with
  | [] => []
  | ev :: evs' =>
      if is_query ev then [ev] :: chunks evs'
      else match chunks evs' with
           | [] => [[ev]]
           | c :: cs => (ev :: c) :: cs
           end
  end.

(** The requests admitted together, each as the chunks it has left. *)
Abbreviation pool := (list (list (list (event query)))).

(** The event loop under a schedule: each step runs the next chunk of
    the request it names.  The events that happen, tagged with their
    request; the chunks left; whether the process still runs. *)
Fixpoint event_loop (mode : unhandled_rejections) (js : pool) (sched : list nat)
  : list (nat * event query) * pool * bool :=
  match sched with
  | [] => ([], js, true)
  | i :: sched' =>
      match js !! i with
      | Some (c :: cs) =>
          if crashes mode c then (map (pair i) (until_crash mode c), <[i:=cs]> js, false)
          else let '(h, js', alive) := event_loop mode (<[i:=cs]> js) sched' in (map (pair i) c ++ h, js', alive)
      | _ => event_loop mode js sched'
      end
  end.

(** The events of request [i] in an interleaved history. *)
Definition events_of (i : nat) (h : list (nat * event query)) : list (event query) :=
  omap (fun '(j, ev) => if decide (j = i) then Some ev else None) h.

(** The pool of requests admitted together on the database [st]. *)
Definition in_flight (jwt_verify : string -> option Z) (st : db) (reqs : list HttpRequest) : pool :=
  map (fun req => chunks (fst (run_handler (hotelsRouter jwt_verify req) st))) reqs.

(** ** Lemmas *)

(** Cutting at the await points keeps every event in order. *)
Lemma concat_chunks (evs : list (event query)) : concat (chunks evs) = evs.
Proof.
  induction evs as [|ev evs IH]; [done|]. simpl.
  destruct (is_query ev); simpl; [by rewrite IH|].
  destruct (chunks evs) as [|c cs]; simpl in *; by rewrite <- IH.
Qed.

Lemma events_of_app (i : nat) (h1 h2 : list (nat * event query)) :
  events_of i (h1 ++ h2) = events_of i h1 ++ events_of i h2.
Proof. apply omap_app. Qed.

Lemma events_of_tag (i j : nat) (l : list (event query)) :
  events_of i (map (pair j) l) = if decide (j = i) then l else [].
Proof.
  induction l as [|ev l IH]; [by case_decide|].
  change (map (pair j) (ev :: l)) with ([(j, ev)] ++ map (pair j) l).
  rewrite events_of_app, IH. unfold events_of. simpl. by case_decide.
Qed.

(** Running every chunk of a request whose events hold an unhandled
    rejection ends the process in [throw] mode. *)
Lemma event_loop_runs_to_crash (js : pool) (i : nat) (cs : list (list (event query))) :
  js !! i = Some cs -> crashes UnhandledThrow (concat cs) = true ->
  snd (event_loop UnhandledThrow js (repeat i (length cs))) = false.
Proof.
  revert js. induction cs as [|c cs IH]; intros js Hl Hc; [done|]. cbn [event_loop repeat length]. rewrite Hl.
  change (concat (c :: cs)) with (c ++ concat cs) in Hc. rewrite crashes_app in Hc.
  destruct (crashes UnhandledThrow c); [done|]. simpl in Hc.
  assert (Hl' : <[i:=cs]> js !! i = Some cs).
  { rewrite list_lookup_insert, decide_True; [done|]. split; [done|]. by eapply lookup_lt_Some. }
  specialize (IH _ Hl' Hc). by destruct (event_loop _ _ (repeat i (length cs))) as [[h js''] a].
Qed.

(** A request the schedule does not name produces nothing. *)
Lemma events_of_unscheduled (mode : unhandled_rejections) (js : pool) (sched : list nat) (i : nat) :
  i ∉ sched -> events_of i (fst (fst (event_loop mode js sched))) = [].
Proof.
  revert js. induction sched as [|i0 sched IH]; intros js Hi; simpl; [done|].
  apply not_elem_of_cons in Hi as [Hi0 Hi].
  destruct (js !! i0) as [[|c cs]|]; [by apply IH | | by apply IH].
  destruct (crashes mode c); simpl.
  - rewrite events_of_tag. by case_decide.
  - specialize (IH (<[i0:=cs]> js) Hi).
    destruct (event_loop _ _ sched) as [[h js''] a]. simpl in *.
    rewrite events_of_app, events_of_tag, IH. by case_decide.
Qed.

(** The responses of an authenticated request's trace. *)
Lemma authenticated_trace_responses {A} (token : string) (t : list (event query)) (x : exc A) :
  Forall (fun ev => is_query ev = true) t ->
  responses (EvQuery (QSessionByToken token) :: ok_empty_object :: t ++ unhandled x) =
  [Response OK (BodyJson (JObj []))].
Proof. intros Hq. simpl. by rewrite responses_app, responses_queries, responses_unhandled. Qed.

(** ** Properties *)

Section ConcurrencyProperties.
  Context (jwt_verify : string -> option Z).

      (** C27: in Node's default mode a request whose service rejects also
      takes down the requests in flight with it: an authenticated
      request [B], answered [200 {}] when alone, that is waiting for its
      session query while a fatal request [A] runs to its end, is never
      answered, and the process stops. *)
Theorem fatal_request_cuts_waiting_request (st : db) (reqB reqA : HttpRequest)
      (headerB tokenB headerA tokenA : string) (uB uA : Z) (sB sA : Session.t) :
    st.(connection) = None ->
    req_method reqB = GET -> handled_route (match_route (req_path reqB)) = true ->
    authorization reqB = Some headerB -> bearer_token headerB = Some tokenB -> jwt_verify tokenB = Some uB ->
    List.find (fun s => bool_decide (Session.token s = tokenB)) st.(sessions) = Some sB ->
    req_method reqA = GET -> handled_route (match_route (req_path reqA)) = true ->
    authorization reqA = Some headerA -> bearer_token headerA = Some tokenA -> jwt_verify tokenA = Some uA ->
    List.find (fun s => bool_decide (Session.token s = tokenA)) st.(sessions) = Some sA ->
    survives st uA (match_route (req_path reqA)) = false ->
    let js := in_flight jwt_verify st [reqB; reqA] in
    let '(h, _, alive) := event_loop UnhandledThrow js (0%nat :: repeat 1%nat (length (default [] (js !! 1%nat)))) in
    alive = false /\ responses (events_of 0 h) = [] /\
    responses (fst (run_handler (hotelsRouter jwt_verify reqB) st)) = [Response OK (BodyJson (JObj []))].
  Proof.
    intros Hc HmB HrB HaB HbB HvB HsB HmA HrA HaA HbA HvA HsA Hsv js.
    destruct (authenticated_route_trace jwt_verify reqB st headerB tokenB uB sB HmB HrB HaB HbB HvB Hc HsB)
      as (AB & tB & xB & HqB & _ & HtrB).
    destruct (authenticated_route_trace jwt_verify reqA st headerA tokenA uA sA HmA HrA HaA HbA HvA Hc HsA)
      as (AA & tA & xA & HqA & HxA & HtrA).
    rewrite Hsv in HxA.
    set (cA := chunks (fst (run_handler (hotelsRouter jwt_verify reqA) st))).
    set (restB := chunks (ok_empty_object :: tB ++ unhandled xB)).
    assert (Hjs : js = [[EvQuery (QSessionByToken tokenB)] :: restB; cA]).
    { unfold js, in_flight, cA, restB. simpl. by rewrite HtrB. }
    assert (HcA : crashes UnhandledThrow (concat cA) = true).
    { unfold cA. rewrite concat_chunks, HtrA.
      change (EvQuery (QSessionByToken tokenA) :: ok_empty_object :: tA ++ unhandled xA)
        with ([EvQuery (QSessionByToken tokenA); ok_empty_object] ++ tA ++ unhandled xA).
      rewrite !crashes_app, (crashes_queries _ tA), crashes_unhandled, HxA by done. done. }
    rewrite Hjs. cbn [lookup list_lookup default event_loop id].
    change (crashes UnhandledThrow [EvQuery (QSessionByToken tokenB)]) with false. cbv iota.
    pose proof (event_loop_runs_to_crash (<[0%nat:=restB]> [[EvQuery (QSessionByToken tokenB)] :: restB; cA])
                  1 cA eq_refl HcA) as Hdead.
    pose proof (events_of_unscheduled UnhandledThrow (<[0%nat:=restB]> [[EvQuery (QSessionByToken tokenB)] :: restB; cA])
                  (repeat 1%nat (length cA)) 0 ltac:(intros Hin%list_elem_of_In%repeat_spec; discriminate)) as Hnone.
    destruct (event_loop _ _ (repeat 1%nat (length cA))) as [[h js'] a].
    simpl in Hdead, Hnone. subst a. split; [done|]. split.
    - by rewrite events_of_app, Hnone.
    - rewrite HtrB. by apply authenticated_trace_responses.
  Qed.
End ConcurrencyProperties.

(** ** Witnesses *)

(** User 1, eligible, asks for the hotels; while the session query of
    that request is pending, the same user's request for [/hotels/abc]
    runs to its end and its rejection stops the process. *)
Lemma fatal_request_cuts_waiting_request_witness :
  let st := with_session db_one_hotel session1 in
  let js := in_flight jwt_token1 st [req_token1 "/hotels"; req_token1 "/hotels/abc"] in
  let '(h, _, alive) := event_loop UnhandledThrow js (0%nat :: repeat 1%nat (length (default [] (js !! 1%nat)))) in
  alive = false /\ responses (events_of 0 h) = [] /\
  responses (fst (run_handler (hotelsRouter jwt_token1 (req_token1 "/hotels")) st)) =
    [Response OK (BodyJson (JObj []))].
Proof.
  apply (fatal_request_cuts_waiting_request jwt_token1 _ _ _ "Bearer token1" "token1" "Bearer token1" "token1"
           1 1 session1 session1); vm_compute; reflexivity.
Defined.
